(** * KP match-making engine: a shallow embedding of [KPMODIFIED1.py]

    The chart-analysis and compatibility-scoring core of the program is
    translated function by function; the ephemeris, the clock, the
    geocoder and the PDF layout are outside it, so [analyze_chart] starts
    from the cusps and longitudes the ephemeris returned and
    [generate_compatibility_report] stops at the final verdict.
    Conventions of the embedding:

    - Python [float] values (longitudes, Julian days, scores with halves)
      are exact rationals [Q]; rounding of binary floating point is not
      modelled, so every arithmetic step is the real-number one.
    - Python [int] values are [Z]; [%] on integers is [Z.modulo] (the sign
      of the divisor, as in Python), [int(x)] is truncation toward zero.
    - [dict]s are [gmap]s, lists are [list]s, and the exceptions a lookup
      can raise ([IndexError], [KeyError], ...) are the [Raise] results of
      a small error monad.
    - [while] loops carry a fuel argument; the theorems about them show
      that enough fuel always exists.

    The file has two parts: the definitions (the program, then the
    specification-side definitions and the example inputs the theorems
    use), and the theorems, grouped by component. *)

From Stdlib Require Import QArith Qround Qabs Qminmax Lqa ZArith Lia Sorted.
From stdpp Require Import gmap strings list pretty.

Open Scope Z_scope.

(** ** Python values and exceptions *)

Inductive exn : Type :=
  | IndexError
  | KeyError
  | TypeError
  | ValueError.

(** The outcome of a computation: a value, a raised exception, or
    [OutOfFuel] when the loop budget of the model is used up (an artefact
    of the embedding, not a behaviour of the program). *)
Inductive res (A : Type) : Type :=
  | Ok (a : A)
  | Raise (e : exn)
  | OutOfFuel.

Arguments Ok {A} a.
Arguments Raise {A} e.
Arguments OutOfFuel {A}.

#[global] Instance res_ret : MRet res := fun A a => Ok a.
#[global] Instance res_bind : MBind res := fun A B f m =>
  match m with
  | Ok a => f a
  | Raise e => Raise e
  | OutOfFuel => OutOfFuel
  end.

(** [d[k]] on a dict: [KeyError] when the key is absent. *)
Definition dict_item `{Countable K} {V : Type} (d : gmap K V) (k : K) : res V :=
  match d !! k with
  | Some v => Ok v
  | None => Raise KeyError
  end.

(** [l[i]] on a list: negative indices count from the end, [IndexError]
    out of range. *)
Definition list_item {A : Type} (l : list A) (i : Z) : res A :=
  let j := if i <? 0 then Z.of_nat (length l) + i else i in
  if j <? 0 then Raise IndexError
  else match l !! Z.to_nat j with
       | Some a => Ok a
       | None => Raise IndexError
       end.

(** [l.index(x)]: position of the first occurrence, [ValueError] if none. *)
Fixpoint list_index (x : string) (l : list string) : res Z :=
  match l with
  | [] => Raise ValueError
  | y :: l' =>
      if String.eqb y x then Ok 0
      else i ← list_index x l'; Ok (i + 1)
  end.

(** [x in l] for a list of integers. *)
Definition Zmem (x : Z) (l : list Z) : bool := existsb (Z.eqb x) l.

(** [x in l] for a list of strings. *)
Definition Smem (x : string) (l : list string) : bool := existsb (String.eqb x) l.

(** [int(x)] on a float: truncation toward zero. *)
Definition py_int (x : Q) : Z := Z.quot (Qnum x) (Zpos (Qden x)).

(** [x % m] on floats, for a positive [m]: the result takes the sign of
    the divisor. *)
Definition py_fmod (x m : Q) : Q := (x - m * inject_Z (Qfloor (x / m)))%Q.

Definition Qltb (x y : Q) : bool := negb (Qle_bool y x).
Definition Qleb (x y : Q) : bool := Qle_bool x y.

(** [round(x)]: to the nearest integer, ties to the even one. *)
Definition py_round (x : Q) : Z :=
  let f := Qfloor x in
  let r := (x - inject_Z f)%Q in
  if Qltb r (1 # 2) then f
  else if Qltb (1 # 2) r then f + 1
  else if Z.even f then f else f + 1.

(** ** Constant tables *)

Definition DASHA_PERIODS : gmap string Z :=
  list_to_map
    [("Ketu", 7); ("Venus", 20); ("Sun", 6); ("Moon", 10); ("Mars", 7);
     ("Rahu", 18); ("Jupiter", 16); ("Saturn", 19); ("Mercury", 17)].

Definition NAKSHATRA_LORDS : list string :=
  ["Ketu"; "Venus"; "Sun"; "Moon"; "Mars"; "Rahu"; "Jupiter"; "Saturn"; "Mercury";
   "Ketu"; "Venus"; "Sun"; "Moon"; "Mars"; "Rahu"; "Jupiter"; "Saturn"; "Mercury";
   "Ketu"; "Venus"; "Sun"; "Moon"; "Mars"; "Rahu"; "Jupiter"; "Saturn"; "Mercury"].

Definition NAKSHATRA_NAMES : list string :=
  ["Ashwini"; "Bharani"; "Krittika"; "Rohini"; "Mrigashira"; "Ardra";
   "Punarvasu"; "Pushya"; "Ashlesha"; "Magha"; "Purva Phalguni"; "Uttara Phalguni";
   "Hasta"; "Chitra"; "Swati"; "Vishakha"; "Anuradha"; "Jyeshtha";
   "Mula"; "Purva Ashadha"; "Uttara Ashadha"; "Shravana"; "Dhanishta";
   "Shatabhisha"; "Purva Bhadrapada"; "Uttara Bhadrapada"; "Revati"].

Definition SIGN_LORD_MAP : gmap Z string :=
  list_to_map
    [(0, "Mars"); (1, "Venus"); (2, "Mercury"); (3, "Moon"); (4, "Sun");
     (5, "Mercury"); (6, "Venus"); (7, "Mars"); (8, "Jupiter"); (9, "Saturn");
     (10, "Saturn"); (11, "Jupiter")].

Definition PLANET_OWN_SIGN : gmap string (list Z) :=
  list_to_map
    [("Sun", [4]); ("Moon", [3]); ("Mars", [0; 7]); ("Mercury", [2; 5]);
     ("Jupiter", [8; 11]); ("Venus", [1; 6]); ("Saturn", [9; 10])].

Definition PLANET_EXALTATION : gmap string Z :=
  list_to_map
    [("Sun", 0); ("Moon", 1); ("Mars", 9); ("Mercury", 5); ("Jupiter", 3);
     ("Venus", 11); ("Saturn", 6)].

Definition PLANET_DEBILITATION : gmap string Z :=
  list_to_map
    [("Sun", 6); ("Moon", 7); ("Mars", 3); ("Mercury", 11); ("Jupiter", 9);
     ("Venus", 5); ("Saturn", 0)].

(** The three entries the program reads, [PLANET_OWN_SIGN["Mars"]],
    [PLANET_EXALTATION["Mars"]] and [PLANET_DEBILITATION["Mars"]]: constant
    lookups of a constant key, evaluated once. *)
Definition PLANET_OWN_SIGN_Mars : list Z := [0; 7].
Definition PLANET_EXALTATION_Mars : Z := 9.
Definition PLANET_DEBILITATION_Mars : Z := 3.

(** The nakshatra span [13 + 20 / 60] degrees. *)
Definition nakshatra_span : Q := (13 + 20 / 60)%Q.

(** ** Position resolver *)

Definition signs : list string :=
  ["Aries"; "Taurus"; "Gemini"; "Cancer"; "Leo"; "Virgo"; "Libra"; "Scorpio";
   "Sagittarius"; "Capricorn"; "Aquarius"; "Pisces"].

Definition get_sign_name (lon : Q) : res string :=
  let sign_index := py_int (lon / 30) in
  list_item signs (sign_index mod 12).

Definition get_nakshatra_and_pada (longitude : Q) : res (string * Z) :=
  let longitude := py_fmod longitude 360 in
  let nak_index := py_int (longitude / nakshatra_span) mod 27 in
  nak_name ← list_item NAKSHATRA_NAMES nak_index;
  let nak_start := (inject_Z nak_index * nakshatra_span)%Q in
  let offset := (longitude - nak_start)%Q in
  let pada_span := (nakshatra_span / 4)%Q in
  let pada := py_int (offset / pada_span) + 1 in
  Ok (nak_name, pada).

(** The [for i in range(9)] loop of [get_star_sub_lord]; [idxs] holds the
    values of [i] still to visit.  Falling off the end leaves the initial
    ["N/A"]. *)
Fixpoint sub_lord_loop (idxs : list Z) (star_lord_index : Z)
    (cumulative_time_in_nakshatra : Q) (current_cumulative_time : Z) : res string :=
  match idxs with
  | [] => Ok "N/A"%string
  | i :: rest =>
      let lord_index := (star_lord_index + i) mod 9 in
      lord ← list_item NAKSHATRA_LORDS lord_index;
      period ← dict_item DASHA_PERIODS lord;
      let current_cumulative_time := current_cumulative_time + period in
      if Qltb cumulative_time_in_nakshatra (inject_Z current_cumulative_time)
      then Ok lord
      else sub_lord_loop rest star_lord_index cumulative_time_in_nakshatra
             current_cumulative_time
  end.

Definition range9 : list Z := [0; 1; 2; 3; 4; 5; 6; 7; 8].

(** The first half of [get_star_sub_lord], up to the loop: the star lord,
    its position in the 9-lord cycle and [cumulative_time_in_nakshatra]. *)
Definition star_lord_cumulative (longitude : Q) : res (string * Z * Q) :=
  let longitude := py_fmod longitude 360 in
  let nakshatra_index := py_int (longitude / nakshatra_span) mod 27 in
  star_lord ← list_item NAKSHATRA_LORDS nakshatra_index;
  let nakshatra_start_deg := (inject_Z nakshatra_index * nakshatra_span)%Q in
  let relative_deg := (longitude - nakshatra_start_deg)%Q in
  let nakshatra_fraction_completed := (relative_deg / nakshatra_span)%Q in
  star_lord_index ← list_index star_lord (take 9 NAKSHATRA_LORDS);
  let cumulative_time_in_nakshatra := (nakshatra_fraction_completed * 120)%Q in
  Ok (star_lord, star_lord_index, cumulative_time_in_nakshatra).

Definition get_star_sub_lord (longitude : Q) : res (string * string) :=
  '(star_lord, star_lord_index, cumulative_time_in_nakshatra) ←
    star_lord_cumulative longitude;
  sub_lord ← sub_lord_loop range9 star_lord_index cumulative_time_in_nakshatra 0;
  Ok (star_lord, sub_lord).

(** ** House mapper (cusp convention) *)

(** The [for i in range(0, 12)] loop of [find_house_index]; [idxs] holds
    the values of [i] still to visit, and falling off the end returns the
    sentinel 0. *)
Fixpoint find_house_loop (idxs : list Z) (longitude : Q) (cusps : list Q) : res Z :=
  match idxs with
  | [] => Ok 0
  | i :: rest =>
      start ← list_item cusps i;
      end_ ← list_item cusps ((i + 1) mod 12);
      let house_num := i + 1 in
      if Qltb start end_ then
        if Qleb start longitude && Qltb longitude end_ then Ok house_num
        else find_house_loop rest longitude cusps
      else
        if Qleb start longitude || Qltb longitude end_ then Ok house_num
        else find_house_loop rest longitude cusps
  end.

Definition range12 : list Z := [0; 1; 2; 3; 4; 5; 6; 7; 8; 9; 10; 11].

Definition find_house_index (longitude : Q) (cusps : list Q) : res Z :=
  find_house_loop range12 longitude cusps.

(** *** Well-formed cusp sets and circular intervals, as the specification
    words them

    [in_house_interval s e lon]: the closed-open circular interval
    [[s, e)] contains [lon].  [house_contains cusps h lon]: house [h]
    (1..12), that is the interval from cusp [h] to the next cusp, contains
    [lon].  A cusp set is well-formed when it has 12 cusps in [[0, 360)]
    that are circularly ordered: going round from cusp 1 back to cusp 1 the
    longitude decreases (wraps past 360) exactly once, and never stays
    equal. *)
Definition in_house_interval (s e lon : Q) : bool :=
  if Qltb s e then Qleb s lon && Qltb lon e
  else Qleb s lon || Qltb lon e.

Definition cusp_edge (cusps : list Q) (i : Z) : option (Q * Q) :=
  match cusps !! Z.to_nat i, cusps !! Z.to_nat ((i + 1) mod 12) with
  | Some s, Some e => Some (s, e)
  | _, _ => None
  end.

Definition house_contains (cusps : list Q) (h : Z) (lon : Q) : bool :=
  match cusp_edge cusps (h - 1) with
  | Some (s, e) => in_house_interval s e lon
  | None => false
  end.

Definition edge_descends (cusps : list Q) (i : Z) : bool :=
  match cusp_edge cusps i with
  | Some (s, e) => Qleb e s
  | None => false
  end.

Definition count_true (f : Z -> bool) (l : list Z) : Z :=
  fold_right (fun i acc => Z.b2z (f i) + acc) 0 l.

Definition cyclic_descents (cusps : list Q) : Z :=
  count_true (edge_descends cusps) range12.

Definition well_formed_cusps (cusps : list Q) : bool :=
  (Z.of_nat (length cusps) =? 12)
  && forallb (fun c => Qleb 0 c && Qltb c 360) cusps
  && (cyclic_descents cusps =? 1).

(** ** House mapper (whole-sign convention) and harmonic transformer *)

Definition find_house_from_lagna (planet_lon lagna_lon : Q) : Z :=
  let lagna_sign := py_int (lagna_lon / 30) in
  let planet_sign := py_int (planet_lon / 30) in
  let house := (planet_sign - lagna_sign + 12) mod 12 + 1 in
  house.

Definition PADA_SIZE : Q := (3 + 20 / 60)%Q.

(** The result [d9_sign_index * 30 + 15] is a Python [int]. *)
Definition get_navamsa_longitude (d1_lon : Q) : Z :=
  let d1_lon_in_sign := py_fmod d1_lon 30 in
  let d1_sign_index := py_int (d1_lon / 30) in
  let pada_index := py_int (d1_lon_in_sign / PADA_SIZE) in
  let start_sign :=
    if Zmem d1_sign_index [0; 3; 6; 9] then 0
    else if Zmem d1_sign_index [1; 4; 7; 10] then 9
    else 6 in
  let d9_sign_index := (start_sign + pada_index) mod 12 in
  let d9_lon := d9_sign_index * 30 + 15 in
  d9_lon.

Definition get_d50_longitude (d1_lon : Q) : Q :=
  let d50_lon := py_fmod (d1_lon * 50) 360 in
  d50_lon.

(** *** The 9th-harmonic transform as the specification words it

    [sign_of] is the specification's sign index, [floor(L / 30) mod 12].
    [pada_slice n x] is the index of the slice of 3 degrees 20 minutes,
    among the first [n] slices, that contains the in-sign offset [x]
    (none when [x] lies beyond them).  [navamsa_spec n] is the transform
    built on [n] slices per sign: start offset 0, 9 or 6 by
    [sign_index mod 3], result sign [(start_offset + pada_index) mod 12],
    result longitude at that sign's mid-point. *)
Definition sign_of (lon : Q) : Z := Qfloor (lon / 30) mod 12.

Fixpoint pada_slice_from (i : Z) (n : nat) (x : Q) : option Z :=
  match n with
  | O => None
  | S n' =>
      if Qleb (inject_Z i * PADA_SIZE) x && Qltb x ((inject_Z i + 1) * PADA_SIZE)
      then Some i
      else pada_slice_from (i + 1) n' x
  end.

Definition pada_slice (n : nat) (x : Q) : option Z := pada_slice_from 0 n x.

Definition navamsa_start_offset (sign_index : Z) : Z :=
  match sign_index mod 3 with
  | 0 => 0
  | 1 => 9
  | _ => 6
  end.

Definition navamsa_spec (slices : nat) (lon : Q) : option Z :=
  match pada_slice slices (py_fmod lon 30) with
  | Some pada_index =>
      Some ((navamsa_start_offset (sign_of lon) + pada_index) mod 12 * 30 + 15)
  | None => None
  end.

(** ** Dosha evaluator: cancellation of the Mars (Kuja) dosha *)

(** The [benefics] dict in insertion order: Jupiter, Venus, and Moon when
    the Sun-Moon separation lies strictly between 150 and 210 degrees. *)
Definition kuja_benefics (planets : gmap string Q) (moon_lon sun_lon : Q)
    : list (string * option Q) :=
  let benefics := [("Jupiter"%string, planets !! "Jupiter"%string);
                   ("Venus"%string, planets !! "Venus"%string)] in
  let moon_sun_dist := Qabs (moon_lon - sun_lon) in
  if Qltb 150 moon_sun_dist && Qltb moon_sun_dist 210
  then benefics ++ [("Moon"%string, Some moon_lon)]
  else benefics.

(** The [for name, ben_lon in benefics.items()] loop; [None] when no
    benefic cancels. *)
Fixpoint kuja_benefics_loop (items : list (string * option Q))
    (mars_lon : Q) (mars_sign_index : Z) : option (bool * string) :=
  match items with
  | [] => None
  | (name, ben) :: rest =>
      match ben with
      | None => kuja_benefics_loop rest mars_lon mars_sign_index
      | Some ben_lon =>
          let ben_sign_index := py_int (ben_lon / 30) mod 12 in
          if Qltb (Qabs (mars_lon - ben_lon)) 8
             || Qltb 352 (Qabs (mars_lon - ben_lon))
          then Some (true, "Cancelled (Conj. " +:+ name +:+ " D1)")
          else
            let aspect_7th_sign := (ben_sign_index + 6) mod 12 in
            if mars_sign_index =? aspect_7th_sign
            then Some (true, "Cancelled (Aspect " +:+ name +:+ " D1)")
            else kuja_benefics_loop rest mars_lon mars_sign_index
      end
  end.

Definition check_kuja_cancellation (mars_lon : Q) (planets d9_planets : gmap string Q)
    (moon_lon sun_lon : Q) : bool * string :=
  let mars_sign_index := py_int (mars_lon / 30) mod 12 in
  if Zmem mars_sign_index PLANET_OWN_SIGN_Mars then (true, "Cancelled (Own Sign D1)"%string)
  else if mars_sign_index =? PLANET_EXALTATION_Mars then (true, "Cancelled (Exalted D1)"%string)
  else if mars_sign_index =? PLANET_DEBILITATION_Mars
       then (true, "Cancelled (Debilitated D1)"%string)
  else if Zmem mars_sign_index [4; 8; 11] then (true, "Cancelled (Benefic Sign D1)"%string)
  else
    match kuja_benefics_loop (kuja_benefics planets moon_lon sun_lon)
            mars_lon mars_sign_index with
    | Some r => r
    | None =>
        let d9_checks :=
          match d9_planets !! "Mars"%string with
          | Some mars_d9_lon =>
              let mars_d9_sign := py_int (mars_d9_lon / 30) in
              if Zmem mars_d9_sign PLANET_OWN_SIGN_Mars
              then (true, "Cancelled (Own Sign D9)"%string)
              else if mars_d9_sign =? PLANET_EXALTATION_Mars
                   then (true, "Cancelled (Exalted D9)"%string)
              else if mars_d9_sign =? PLANET_DEBILITATION_Mars
                   then (true, "Cancelled (Debilitated D9)"%string)
              else (false, "Afflicted"%string)
          | None => (false, "Afflicted"%string)
          end in
        match planets !! "Jupiter"%string with
        | Some jup_lon =>
            let jup_sign_index := py_int (jup_lon / 30) mod 12 in
            if Zmem mars_sign_index
                 [(jup_sign_index + 4) mod 12; (jup_sign_index + 8) mod 12]
            then (true, "Cancelled (Aspect Jupiter D1)"%string)
            else d9_checks
        | None => d9_checks
        end
    end.

(** *** The cancellation ladder as an ordered rule table

    A rule is a condition already evaluated on the inputs, with the reason
    it returns; [first_match] is first-match-wins evaluation, ["Afflicted"]
    when no rule fires.  The rules follow the specification's wording:
    (a) dignity in the base chart, (b) benefic sign, (c) conjunction within
    8 degrees of circular distance [min(|d|, 360 - |d|)], (d) 7th-sign
    aspect, (e) Jupiter's 5th/9th-sign aspect, (f) dignity in the
    9th-harmonic chart.  [kuja_rules_spec_order] lists every conjunction
    rule before any aspect rule; [kuja_rules_by_benefic] takes the benefics
    one at a time, conjunction then aspect for each. *)
Definition first_match (rules : list (bool * string)) : bool * string :=
  match find fst rules with
  | Some (_, reason) => (true, reason)
  | None => (false, "Afflicted"%string)
  end.

Definition circular_distance (a b : Q) : Q :=
  Qmin (Qabs (a - b)) (360 - Qabs (a - b)).

Definition rules_dignity_d1 (mars_sign_index : Z) : list (bool * string) :=
  [(Zmem mars_sign_index PLANET_OWN_SIGN_Mars, "Cancelled (Own Sign D1)"%string);
   (mars_sign_index =? PLANET_EXALTATION_Mars, "Cancelled (Exalted D1)"%string);
   (mars_sign_index =? PLANET_DEBILITATION_Mars, "Cancelled (Debilitated D1)"%string)].

Definition rule_benefic_sign (mars_sign_index : Z) : bool * string :=
  (Zmem mars_sign_index [4; 8; 11], "Cancelled (Benefic Sign D1)"%string).

Definition rule_conjunction (mars_lon : Q) (b : string * option Q) : bool * string :=
  (match b.2 with
   | Some ben_lon => Qltb (circular_distance mars_lon ben_lon) 8
   | None => false
   end,
   "Cancelled (Conj. " +:+ b.1 +:+ " D1)").

Definition rule_aspect_7th (mars_sign_index : Z) (b : string * option Q) : bool * string :=
  (match b.2 with
   | Some ben_lon => mars_sign_index =? (py_int (ben_lon / 30) mod 12 + 6) mod 12
   | None => false
   end,
   "Cancelled (Aspect " +:+ b.1 +:+ " D1)").

Definition rule_jupiter_trine (mars_sign_index : Z) (planets : gmap string Q)
    : bool * string :=
  (match planets !! "Jupiter"%string with
   | Some jup_lon =>
       let j := py_int (jup_lon / 30) mod 12 in
       Zmem mars_sign_index [(j + 4) mod 12; (j + 8) mod 12]
   | None => false
   end,
   "Cancelled (Aspect Jupiter D1)"%string).

Definition rules_dignity_d9 (d9_planets : gmap string Q) : list (bool * string) :=
  match d9_planets !! "Mars"%string with
  | Some mars_d9_lon =>
      let s := py_int (mars_d9_lon / 30) in
      [(Zmem s PLANET_OWN_SIGN_Mars, "Cancelled (Own Sign D9)"%string);
       (s =? PLANET_EXALTATION_Mars, "Cancelled (Exalted D9)"%string);
       (s =? PLANET_DEBILITATION_Mars, "Cancelled (Debilitated D9)"%string)]
  | None => []
  end.

Definition kuja_rules_spec_order (mars_lon : Q) (planets d9_planets : gmap string Q)
    (moon_lon sun_lon : Q) : list (bool * string) :=
  let m := py_int (mars_lon / 30) mod 12 in
  let benefics := kuja_benefics planets moon_lon sun_lon in
  rules_dignity_d1 m ++ [rule_benefic_sign m]
  ++ map (rule_conjunction mars_lon) benefics
  ++ map (rule_aspect_7th m) benefics
  ++ [rule_jupiter_trine m planets]
  ++ rules_dignity_d9 d9_planets.

Definition kuja_rules_by_benefic (mars_lon : Q) (planets d9_planets : gmap string Q)
    (moon_lon sun_lon : Q) : list (bool * string) :=
  let m := py_int (mars_lon / 30) mod 12 in
  let benefics := kuja_benefics planets moon_lon sun_lon in
  rules_dignity_d1 m ++ [rule_benefic_sign m]
  ++ flat_map (fun b => [rule_conjunction mars_lon b; rule_aspect_7th m b]) benefics
  ++ [rule_jupiter_trine m planets]
  ++ rules_dignity_d9 d9_planets.

(** A chart fragment in which Mars (Taurus, 40 degrees) is both opposite
    Jupiter's sign (Scorpio, 220 degrees) and within 8 degrees of Venus
    (42 degrees). *)
Definition planets_aspect_and_conjunction : gmap string Q :=
  list_to_map [("Jupiter"%string, 220%Q); ("Venus"%string, 42%Q);
               ("Mars"%string, 40%Q); ("Moon"%string, 100%Q); ("Sun"%string, 90%Q)].

(** ** Dasha timeline calculator *)

Definition DASHAS_LORDS : list string :=
  ["Ketu"; "Venus"; "Sun"; "Moon"; "Mars"; "Rahu"; "Jupiter"; "Saturn"; "Mercury"].
Definition TOTAL_DASHAS_YEARS : Q := 120.
Definition DAYS_PER_YEAR : Q := 1461 # 4.   (* 365.25 *)

(** One level of the walk: the lord of the current period, its index in
    [DASHAS_LORDS], and the Julian days at which the period starts and
    ends. *)
Record DashaPeriod : Type := {
  lord_index : Z;
  lord : string;
  start_jd : Q;
  end_jd : Q;
}.

(** The three [while target_jd >= current_end_jd] loops have one shape:
    step to the next lord of the cycle, start where the previous period
    ended, and add the new lord's length in days, which is what [days_of]
    computes at each level. *)
Fixpoint dasha_loop (days_of : string -> res Q) (fuel : nat) (target_jd : Q)
    (p : DashaPeriod) : res DashaPeriod :=
  if Qleb (end_jd p) target_jd then
    match fuel with
    | O => OutOfFuel
    | S fuel' =>
        let next_index := (lord_index p + 1) mod 9 in
        next_lord ← list_item DASHAS_LORDS next_index;
        days ← days_of next_lord;
        dasha_loop days_of fuel' target_jd
          {| lord_index := next_index; lord := next_lord;
             start_jd := end_jd p; end_jd := (end_jd p + days)%Q |}
    end
  else Ok p.

(** [md_years * DAYS_PER_YEAR] *)
Definition md_days (md_lord : string) : res Q :=
  md_years ← dict_item DASHA_PERIODS md_lord;
  Ok (inject_Z md_years * DAYS_PER_YEAR)%Q.

(** [(DASHA_PERIODS[parent] * years_prop / TOTAL_DASHAS_YEARS) * DAYS_PER_YEAR],
    the length of a sub-period of [parent] ruled by [sub_lord]; the same
    expression gives [ad_days] (parent: the Mahadasha lord) and [pd_days]
    (parent: the Antardasha lord). *)
Definition sub_period_days (parent sub_lord : string) : res Q :=
  years_prop ← dict_item DASHA_PERIODS sub_lord;
  parent_years ← dict_item DASHA_PERIODS parent;
  Ok ((inject_Z parent_years * inject_Z years_prop / TOTAL_DASHAS_YEARS)
      * DAYS_PER_YEAR)%Q.

(** The first sub-period of a parent period: it starts with the parent and
    is ruled by the lord at the parent's index. *)
Definition first_sub_period (parent : string) (index : Z) (start : Q) : res DashaPeriod :=
  sub_lord ← list_item DASHAS_LORDS index;
  days ← sub_period_days parent sub_lord;
  Ok {| lord_index := index; lord := sub_lord;
        start_jd := start; end_jd := (start + days)%Q |}.

Record DashaPointer : Type := {
  mahadasha : DashaPeriod;
  antardasha : DashaPeriod;
  pratyantardasha : DashaPeriod;
}.

(** The body of [calculate_vimsottari_dasha], keeping the three periods
    that the function walks (the Python function returns only their
    lords). *)
Definition dasha_periods (fuel : nat) (birth_jd moon_lon target_jd : Q)
    : res DashaPointer :=
  let moon_lon := py_fmod moon_lon 360 in
  let nak_index := py_int (moon_lon / nakshatra_span) in
  nak_lord_at_birth ← list_item NAKSHATRA_LORDS (nak_index mod 27);
  let nak_start_deg := (inject_Z nak_index * nakshatra_span)%Q in
  let offset_deg := (moon_lon - nak_start_deg)%Q in
  let fraction_covered := (offset_deg / nakshatra_span)%Q in
  lord_index_at_birth ← list_index nak_lord_at_birth DASHAS_LORDS;
  total_dasha_years ← dict_item DASHA_PERIODS nak_lord_at_birth;
  let remaining_years := ((1 - fraction_covered) * inject_Z total_dasha_years)%Q in
  let remaining_days := (remaining_years * DAYS_PER_YEAR)%Q in
  let md_start_jd :=
    (birth_jd - fraction_covered * inject_Z total_dasha_years * DAYS_PER_YEAR)%Q in
  let md_end_jd := (birth_jd + remaining_days)%Q in
  md ← dasha_loop md_days fuel target_jd
         {| lord_index := lord_index_at_birth; lord := nak_lord_at_birth;
            start_jd := md_start_jd; end_jd := md_end_jd |};
  ad0 ← first_sub_period (lord md) (lord_index md) (start_jd md);
  ad ← dasha_loop (sub_period_days (lord md)) fuel target_jd ad0;
  pd0 ← first_sub_period (lord ad) (lord_index ad) (start_jd ad);
  pd ← dasha_loop (sub_period_days (lord ad)) fuel target_jd pd0;
  Ok {| mahadasha := md; antardasha := ad; pratyantardasha := pd |}.

Definition calculate_vimsottari_dasha (fuel : nat) (birth_jd moon_lon target_jd : Q)
    : res (string * string * string) :=
  r ← dasha_periods fuel birth_jd moon_lon target_jd;
  Ok (lord (mahadasha r), lord (antardasha r), lord (pratyantardasha r)).

(** ** Significator engine *)

(** A Python [set] of integers kept as the list [sorted(list(s))]:
    ascending, without duplicates. *)
Fixpoint set_add (x : Z) (s : list Z) : list Z :=
  match s with
  | [] => [x]
  | y :: s' =>
      if x <? y then x :: s
      else if x =? y then s
      else y :: set_add x s'
  end.

(** The [for i in range(0, 12)] loops of [get_significators]: add house
    [i + 1] when the lord of the sign on cusp [i] is [target_lord].  The
    comparison is Python's [==] on values that may be [None]. *)
Fixpoint cusp_lord_loop (idxs : list Z) (all_cusps : list Q)
    (target_lord : option string) (acc : list Z) : res (list Z) :=
  match idxs with
  | [] => Ok acc
  | i :: rest =>
      cusp_lon ← list_item all_cusps i;
      let sign_index := py_int (cusp_lon / 30) in
      let sign_lord := SIGN_LORD_MAP !! sign_index in
      let acc := if bool_decide (sign_lord = target_lord)
                 then set_add (i + 1) acc else acc in
      cusp_lord_loop rest all_cusps target_lord acc
  end.

Definition get_significators (planet_lon : Q) (all_cusps : list Q)
    (chart_planets : gmap string Q) : res (list Z) :=
  '(star_lord_name, sub_lord_name) ← get_star_sub_lord planet_lon;
  let planet_sign_index := py_int (planet_lon / 30) in
  let planet_owner := SIGN_LORD_MAP !! planet_sign_index in
  let star_lord_lookup : option string :=
    if Smem star_lord_name ["Rahu"; "Ketu"]%string then
      match chart_planets !! star_lord_name with
      | Some node_sign_lon => SIGN_LORD_MAP !! py_int (node_sign_lon / 30)
      | None => None
      end
    else Some star_lord_name in
  s1_s2_significators ←
    match star_lord_lookup with
    | Some star_lord =>
        match chart_planets !! star_lord with
        | Some star_lord_lon =>
            star_lord_house ← find_house_index star_lord_lon all_cusps;
            let s := if 0 <? star_lord_house then [star_lord_house] else [] in
            cusp_lord_loop range12 all_cusps (Some star_lord) s
        | None => Ok []
        end
    | None => Ok []
    end;
  planet_house ← find_house_index planet_lon all_cusps;
  let s := if 0 <? planet_house then [planet_house] else [] in
  s3_s4_significators ← cusp_lord_loop range12 all_cusps planet_owner s;
  Ok (s1_s2_significators ++ s3_s4_significators).

(** ** Dosha evaluator: affliction flags *)

Definition afflicted_or_clean (b : bool) : string :=
  if b then "Afflicted"%string else "Clean"%string.

Definition check_doshas_from_points (mars_house rahu_house moon_house venus_house : Z)
    (mars_lon : Q) (planets d9_planets : gmap string Q) (moon_lon sun_lon : Q)
    : gmap string string * gmap string string :=
  let kuja_dosha_houses := [2; 4; 7; 8; 12] in
  let mars_from_moon := (mars_house - moon_house + 12) mod 12 + 1 in
  let mars_from_venus := (mars_house - venus_house + 12) mod 12 + 1 in
  let lagna_afflicted := Zmem mars_house kuja_dosha_houses in
  let chandra_afflicted := Zmem mars_from_moon kuja_dosha_houses in
  let shukra_afflicted := Zmem mars_from_venus kuja_dosha_houses in
  let mars_dosha_status : gmap string string :=
    list_to_map
      [("Lagna"%string, afflicted_or_clean lagna_afflicted);
       ("Chandra"%string, afflicted_or_clean chandra_afflicted);
       ("Shukra"%string, afflicted_or_clean shukra_afflicted);
       ("Total"%string, "Not Afflicted"%string)] in
  let mars_dosha_status :=
    if lagna_afflicted || chandra_afflicted || shukra_afflicted then
      let '(is_cancelled, reason) :=
        check_kuja_cancellation mars_lon planets d9_planets moon_lon sun_lon in
      if is_cancelled then <["Total"%string := reason]> mars_dosha_status
      else <["Total"%string := "Afflicted"%string]> mars_dosha_status
    else mars_dosha_status in
  let rahu_dosha_houses := [1; 5; 9] in
  let rahu_from_moon := (rahu_house - moon_house + 12) mod 12 + 1 in
  let rahu_lagna := afflicted_or_clean (Zmem rahu_house rahu_dosha_houses) in
  let rahu_chandra := afflicted_or_clean (Zmem rahu_from_moon rahu_dosha_houses) in
  let rahu_dosha_status : gmap string string :=
    list_to_map
      [("Lagna"%string, rahu_lagna); ("Chandra"%string, rahu_chandra);
       ("Total"%string, "Not Afflicted"%string)] in
  let rahu_dosha_status :=
    if Smem "Afflicted" [rahu_lagna; rahu_chandra; "Not Afflicted"%string]
    then <["Total"%string := "Afflicted"%string]> rahu_dosha_status
    else rahu_dosha_status in
  (mars_dosha_status, rahu_dosha_status).

(** ** Chart analysis *)

(** The [analysis_data] dict of [analyze_chart].  The entries that only
    feed the rendered report ([planet_favorability], [d9_lagna_sign],
    [d1_7th_lord_d9_house_text]) are left out. *)
Module AnalysisData.
Record t : Type := {
  name : string;
  moon_lon : Q;
  planet_significators : gmap string (list Z);
  jupiter_significators : list Z;
  saturn_significators : list Z;
  venus_significators : list Z;
  csl_significators : list Z;
  mars_dosha_status : gmap string string;
  pitra_dosha_present : bool;
  marriage_promise : string;
  cusps : list Q;
  planets : gmap string Q;
  rasi_lord : option string;
  md_lord : string;
  ad_lord : string;
  pd_lord : string;
  d9_lagna_lord : string;
  d1_7th_lord_name : string;
  d9_planets : gmap string Q;
  d50_planets : gmap string Q;
  d50_lagna_lord : string;
}.
End AnalysisData.

(** The dict returned by [analyze_chart] ([dob], [tob], [lat], [lon],
    [kp_positions] and [planet_favorability] feed only the rendered report
    and are left out). *)
Module Chart.
Record t : Type := {
  name : string;
  seventh_csl : string;               (* "7th_csl" *)
  marriage_promise : string;
  csl_significators : list Z;
  jupiter_significators : list Z;
  saturn_significators : list Z;
  venus_significators : list Z;
  moon_lon : Q;
  rasi_lord : option string;
  mars_dosha_status : gmap string string;
  rahu_dosha_status : gmap string string;
  pitra_dosha_present : bool;
  planet_significators : gmap string (list Z);
  md_lord : string;
  ad_lord : string;
  pd_lord : string;
  analysis_data : AnalysisData.t;
}.
End Chart.

(** [any(h in sigs for h in houses)] *)
Definition any_in (houses sigs : list Z) : bool :=
  existsb (fun h => Zmem h sigs) houses.

(** Lines 609-621 of [analyze_chart]: the sub-lord of the 7th cusp, its
    significators (the empty list when its longitude is not in the planet
    map) and the marriage-promise verdict computed from them. *)
Definition seventh_cusp_promise (cusps : list Q) (planets : gmap string Q)
    : res (string * list Z * string) :=
  seventh_cusp_lon ← list_item cusps 6;
  '(seventh_star, seventh_sub) ← get_star_sub_lord seventh_cusp_lon;
  let csl_planet_name := seventh_sub in
  csl_significators ←
    match planets !! csl_planet_name with
    | None => Ok []
    | Some csl_planet_lon => get_significators csl_planet_lon cusps planets
    end;
  let marriage_promise := any_in [2; 7; 11] csl_significators in
  let marriage_denial := any_in [1; 6; 10] csl_significators in
  let promise_verdict :=
    if marriage_promise && negb marriage_denial then "STRONG"%string
    else if marriage_promise && marriage_denial then "MIXED"%string
    else if negb marriage_promise && marriage_denial then "DENIAL"%string
    else "NEUTRAL"%string in
  Ok (seventh_sub, csl_significators, promise_verdict).

(** The loop that fills [planet_significators] for the planets present in
    the chart. *)
Fixpoint planet_significators_loop (names : list string) (cusps : list Q)
    (planets : gmap string Q) (acc : gmap string (list Z)) : res (gmap string (list Z)) :=
  match names with
  | [] => Ok acc
  | p_name :: rest =>
      match planets !! p_name with
      | Some p_lon =>
          sigs ← get_significators p_lon cusps planets;
          planet_significators_loop rest cusps planets (<[p_name := sigs]> acc)
      | None => planet_significators_loop rest cusps planets acc
      end
  end.

Definition all_planet_names : list string :=
  ["Sun"; "Moon"; "Mars"; "Mercury"; "Jupiter"; "Venus"; "Saturn"; "Rahu"; "Ketu"].

(** [analyze_chart] after the calls to the ephemeris: [jd] is the Julian
    day of birth, [cusps] the 12 house cusps, [planets0] the longitudes of
    the bodies of [PLANET_IDS_ALL] by name, and [jd_today] the Julian day
    the dasha is evaluated for. *)
Definition analyze_chart (fuel : nat) (name : string) (jd : Q) (cusps : list Q)
    (planets0 : gmap string Q) (jd_today : Q) : res Chart.t :=
  let planets :=
    match planets0 !! "Rahu"%string with
    | Some rahu => <["Ketu"%string := py_fmod (rahu + 180) 360]> planets0
    | None => planets0
    end in
  lagna ← list_item cusps 0;
  let planets := <["Lagna"%string := lagna]> planets in
  (* for "Lagna" the loop transforms cusps[0], the value stored under it *)
  let d9_planets := (fun p_lon => inject_Z (get_navamsa_longitude p_lon)) <$> planets in
  d9_lagna_lon ← dict_item d9_planets "Lagna"%string;
  d9_lagna_lord ← dict_item SIGN_LORD_MAP (py_int (d9_lagna_lon / 30));
  let d50_planets := get_d50_longitude <$> planets in
  d50_lagna_lon ← dict_item d50_planets "Lagna"%string;
  d50_lagna_lord ← dict_item SIGN_LORD_MAP (py_int (d50_lagna_lon / 30));
  moon_lon ← dict_item planets "Moon"%string;
  venus_lon ← dict_item planets "Venus"%string;
  mars_lon ← dict_item planets "Mars"%string;
  sun_lon ← dict_item planets "Sun"%string;
  let moon_rasi_index := py_int (moon_lon / 30) mod 12 in
  let moon_rasi_lord := SIGN_LORD_MAP !! moon_rasi_index in
  mars_house ← find_house_index mars_lon cusps;
  moon_house ← find_house_index moon_lon cusps;
  venus_house ← find_house_index venus_lon cusps;
  rahu_lon ← dict_item planets "Rahu"%string;
  rahu_house ← find_house_index rahu_lon cusps;
  sun_house ← find_house_index sun_lon cusps;
  let '(mars_dosha_status, rahu_dosha_status) :=
    check_doshas_from_points mars_house rahu_house moon_house venus_house
      mars_lon planets d9_planets moon_lon sun_lon in
  rahu_sigs ← get_significators rahu_lon cusps planets;
  pitra_dosha_present ←
    (if Zmem 9 rahu_sigs then Ok true
     else
       ketu_lon ← dict_item planets "Ketu"%string;
       ketu_sigs ← get_significators ketu_lon cusps planets;
       Ok (Zmem 9 ketu_sigs || (rahu_house =? 9) || (sun_house =? 9)));
  '(seventh_sub, csl_significators, promise_verdict) ←
    seventh_cusp_promise cusps planets;
  planet_significators ← planet_significators_loop all_planet_names cusps planets ∅;
  let jupiter_significators := default [] (planet_significators !! "Jupiter"%string) in
  let saturn_significators := default [] (planet_significators !! "Saturn"%string) in
  let venus_significators := default [] (planet_significators !! "Venus"%string) in
  '(md_lord, ad_lord, pd_lord) ← calculate_vimsottari_dasha fuel jd moon_lon jd_today;
  seventh_cusp_lon ← list_item cusps 6;
  d1_7th_lord_name ← dict_item SIGN_LORD_MAP (py_int (seventh_cusp_lon / 30));
  (* find_house_from_lagna and get_sign_name divide the looked-up value:
     a missing entry ([None]) is a TypeError *)
  d1_7th_lord_d9_lon ←
    match d9_planets !! d1_7th_lord_name with
    | Some l => Ok l
    | None => Raise TypeError
    end;
  d1_7th_lord_d9_sign ← get_sign_name d1_7th_lord_d9_lon;
  d9_lagna_sign ← get_sign_name d9_lagna_lon;
  let analysis_data := {|
    AnalysisData.name := name;
    AnalysisData.moon_lon := moon_lon;
    AnalysisData.planet_significators := planet_significators;
    AnalysisData.jupiter_significators := jupiter_significators;
    AnalysisData.saturn_significators := saturn_significators;
    AnalysisData.venus_significators := venus_significators;
    AnalysisData.csl_significators := csl_significators;
    AnalysisData.mars_dosha_status := mars_dosha_status;
    AnalysisData.pitra_dosha_present := pitra_dosha_present;
    AnalysisData.marriage_promise := promise_verdict;
    AnalysisData.cusps := cusps;
    AnalysisData.planets := planets;
    AnalysisData.rasi_lord := moon_rasi_lord;
    AnalysisData.md_lord := md_lord;
    AnalysisData.ad_lord := ad_lord;
    AnalysisData.pd_lord := pd_lord;
    AnalysisData.d9_lagna_lord := d9_lagna_lord;
    AnalysisData.d1_7th_lord_name := d1_7th_lord_name;
    AnalysisData.d9_planets := d9_planets;
    AnalysisData.d50_planets := d50_planets;
    AnalysisData.d50_lagna_lord := d50_lagna_lord;
  |} in
  Ok {|
    Chart.name := name;
    Chart.seventh_csl := seventh_sub;
    Chart.marriage_promise := promise_verdict;
    Chart.csl_significators := csl_significators;
    Chart.jupiter_significators := jupiter_significators;
    Chart.saturn_significators := saturn_significators;
    Chart.venus_significators := venus_significators;
    Chart.moon_lon := moon_lon;
    Chart.rasi_lord := moon_rasi_lord;
    Chart.mars_dosha_status := mars_dosha_status;
    Chart.rahu_dosha_status := rahu_dosha_status;
    Chart.pitra_dosha_present := pitra_dosha_present;
    Chart.planet_significators := planet_significators;
    Chart.md_lord := md_lord;
    Chart.ad_lord := ad_lord;
    Chart.pd_lord := pd_lord;
    Chart.analysis_data := analysis_data;
  |}.

(** ** Ashtakoota scorer *)

Definition get_varna (rasi_index : Z) : Z :=
  if Zmem rasi_index [2; 5; 6; 9] then 0
  else if Zmem rasi_index [0; 4; 7; 10] then 1
  else 2.

Definition get_vashya (rasi_index : Z) : Z :=
  if Zmem rasi_index [0; 1] then 0
  else if Zmem rasi_index [2; 5; 6] then 1
  else if Zmem rasi_index [3] then 2
  else if Zmem rasi_index [4] then 3
  else 4.

Definition yoni_map : gmap Z Z :=
  list_to_map
    [(0, 1); (1, 2); (2, 3); (3, 4); (4, 5); (5, 6); (6, 7); (7, 8); (8, 9);
     (9, 10); (10, 11); (11, 12); (12, 13); (13, 14); (14, 1); (15, 2); (16, 3);
     (17, 4); (18, 5); (19, 6); (20, 7); (21, 8); (22, 9); (23, 10); (24, 11);
     (25, 12); (26, 13)].

Definition get_yoni (nak_index : Z) : Z := default 0 (yoni_map !! nak_index).

Definition rasi_lord_map : gmap Z string :=
  list_to_map
    [(0, "Mars"); (1, "Venus"); (2, "Mercury"); (3, "Moon"); (4, "Sun");
     (5, "Mercury"); (6, "Venus"); (7, "Mars"); (8, "Jupiter"); (9, "Saturn");
     (10, "Saturn"); (11, "Jupiter")]%string.

Definition friendly_pairs : list (string * string) :=
  [("Sun", "Moon"); ("Sun", "Mars"); ("Sun", "Jupiter"); ("Moon", "Mars");
   ("Moon", "Jupiter"); ("Mars", "Jupiter"); ("Mars", "Sun"); ("Mercury", "Venus");
   ("Mercury", "Saturn"); ("Jupiter", "Sun"); ("Jupiter", "Moon"); ("Jupiter", "Mars");
   ("Jupiter", "Saturn"); ("Venus", "Mercury"); ("Venus", "Saturn");
   ("Saturn", "Mercury"); ("Saturn", "Jupiter"); ("Saturn", "Venus")]%string.

(** [(lord1, lord2) in friendly_pairs]; the lords come from [dict.get] and
    may be [None]. *)
Definition pair_in (lord1 lord2 : option string) (pairs : list (string * string)) : bool :=
  match lord1, lord2 with
  | Some a, Some b => existsb (fun p => String.eqb p.1 a && String.eqb p.2 b) pairs
  | _, _ => false
  end.

Definition lord_in (lord : option string) (l : list string) : bool :=
  match lord with
  | Some a => Smem a l
  | None => false
  end.

Definition get_graha_maitri (lord1 lord2 : option string) : Z :=
  if bool_decide (lord1 = lord2) then 5
  else if pair_in lord1 lord2 friendly_pairs && pair_in lord2 lord1 friendly_pairs then 5
  else if pair_in lord1 lord2 friendly_pairs || pair_in lord2 lord1 friendly_pairs then 4
  else if lord_in lord1 ["Sun"; "Moon"]%string && lord_in lord2 ["Saturn"; "Venus"]%string
       then 0
  else 1.

Definition get_gana (nak_index : Z) : Z :=
  if Zmem nak_index [0; 4; 6; 7; 12; 14; 16; 21; 26] then 0
  else if Zmem nak_index [1; 3; 5; 10; 11; 19; 20; 24; 25] then 1
  else 2.

(** The eight comparisons of [calculate_ashtakoota], from the two Moon
    nakshatra and rasi indices to [total_score] before rounding. *)
Definition ashtakoota_total (nak_index_c1 moon_rasi_index_c1
    nak_index_c2 moon_rasi_index_c2 : Z) : Q :=
  let total_score := 0%Q in
  let total_score :=
    if get_varna moon_rasi_index_c1 <=? get_varna moon_rasi_index_c2
    then (total_score + 1)%Q else total_score in
  let v1 := get_vashya moon_rasi_index_c1 in
  let v2 := get_vashya moon_rasi_index_c2 in
  let total_score :=
    if v1 =? v2 then (total_score + 2)%Q
    else if ((v1 =? 0) && (v2 =? 3)) || ((v1 =? 3) && (v2 =? 0)) then (total_score + 0)%Q
    else (total_score + 1)%Q in
  let dist := (nak_index_c2 - nak_index_c1 + 27) mod 27 in
  let dist2 := (nak_index_c1 - nak_index_c2 + 27) mod 27 in
  let t_score := 0%Q in
  let t_score :=
    if negb (Zmem ((dist + 1) mod 9) [3; 5; 7]) then (t_score + (3 # 2))%Q else t_score in
  let t_score :=
    if negb (Zmem ((dist2 + 1) mod 9) [3; 5; 7]) then (t_score + (3 # 2))%Q else t_score in
  let total_score := (total_score + t_score)%Q in
  let y1 := get_yoni nak_index_c1 in
  let y2 := get_yoni nak_index_c2 in
  let total_score :=
    if y1 =? y2 then (total_score + 4)%Q
    else if (y1 + y2) mod 2 =? 0 then (total_score + 3)%Q
    else total_score in
  let l1 := rasi_lord_map !! moon_rasi_index_c1 in
  let l2 := rasi_lord_map !! moon_rasi_index_c2 in
  let total_score := (total_score + inject_Z (get_graha_maitri l1 l2))%Q in
  let g1 := get_gana nak_index_c1 in
  let g2 := get_gana nak_index_c2 in
  let total_score :=
    if g1 =? g2 then (total_score + 6)%Q
    else if ((g1 =? 0) && (g2 =? 1)) || ((g1 =? 1) && (g2 =? 0)) then (total_score + 5)%Q
    else if ((g1 =? 1) && (g2 =? 2)) || ((g1 =? 2) && (g2 =? 1)) then (total_score + 1)%Q
    else total_score in
  let d_bhakoot := (moon_rasi_index_c2 - moon_rasi_index_c1 + 12) mod 12 in
  let total_score :=
    if negb (Zmem d_bhakoot [2; 10; 5; 9; 6; 8]) then (total_score + 7)%Q
    else total_score in
  let total_score :=
    if negb (nak_index_c1 mod 3 =? nak_index_c2 mod 3) then (total_score + 8)%Q
    else total_score in
  total_score.

Definition calculate_ashtakoota (chart1_data chart2_data : AnalysisData.t) : Z :=
  let moon_lon_c1 := AnalysisData.moon_lon chart1_data in
  let moon_lon_c2 := AnalysisData.moon_lon chart2_data in
  let nak_index_c1 := py_int (py_fmod moon_lon_c1 360 / nakshatra_span) mod 27 in
  let nak_index_c2 := py_int (py_fmod moon_lon_c2 360 / nakshatra_span) mod 27 in
  let moon_rasi_index_c1 := py_int (moon_lon_c1 / 30) mod 12 in
  let moon_rasi_index_c2 := py_int (moon_lon_c2 / 30) mod 12 in
  let total_score :=
    ashtakoota_total nak_index_c1 moon_rasi_index_c1 nak_index_c2 moon_rasi_index_c2 in
  Z.min (Z.max (py_round total_score) 0) 36.

(** ** Compatibility aggregator *)

Definition GRAHA_MAITRI_PARASHARI : gmap string (gmap string Z) :=
  list_to_map
    [("Sun", list_to_map [("Sun", 2); ("Moon", 2); ("Mars", 2); ("Mercury", 1);
                          ("Jupiter", 2); ("Venus", 0); ("Saturn", 0)]);
     ("Moon", list_to_map [("Sun", 2); ("Moon", 2); ("Mars", 1); ("Mercury", 2);
                           ("Jupiter", 1); ("Venus", 1); ("Saturn", 0)]);
     ("Mars", list_to_map [("Sun", 2); ("Moon", 2); ("Mars", 2); ("Mercury", 0);
                           ("Jupiter", 2); ("Venus", 1); ("Saturn", 0)]);
     ("Mercury", list_to_map [("Sun", 2); ("Moon", 0); ("Mars", 1); ("Mercury", 2);
                              ("Jupiter", 1); ("Venus", 2); ("Saturn", 1)]);
     ("Jupiter", list_to_map [("Sun", 2); ("Moon", 2); ("Mars", 2); ("Mercury", 0);
                              ("Jupiter", 2); ("Venus", 0); ("Saturn", 1)]);
     ("Venus", list_to_map [("Sun", 1); ("Moon", 1); ("Mars", 1); ("Mercury", 2);
                            ("Jupiter", 0); ("Venus", 2); ("Saturn", 2)]);
     ("Saturn", list_to_map [("Sun", 0); ("Moon", 0); ("Mars", 0); ("Mercury", 2);
                             ("Jupiter", 1); ("Venus", 2); ("Saturn", 2)])]%string.

Definition check_parashari_friendship (lord1 lord2 : string) : string :=
  let lord1_map := default ∅ (GRAHA_MAITRI_PARASHARI !! lord1) in
  let lord2_map := default ∅ (GRAHA_MAITRI_PARASHARI !! lord2) in
  let l1_to_l2 := default 1 (lord1_map !! lord2) in
  let l2_to_l1 := default 1 (lord2_map !! lord1) in
  if (l1_to_l2 =? 2) && (l2_to_l1 =? 2) then "Great Friends"%string
  else if (l1_to_l2 =? 2) || (l2_to_l1 =? 2) then "Friends"%string
  else if (l1_to_l2 =? 0) && (l2_to_l1 =? 0) then "Great Enemies"%string
  else if (l1_to_l2 =? 0) || (l2_to_l1 =? 0) then "Enemies"%string
  else "Neutral"%string.

(** [str(x)] of a value that may be [None], as an f-string prints it. *)
Definition str_opt (x : option string) : string := default "None"%string x.

Definition calculate_supplementary_factors (chart1_data chart2_data : AnalysisData.t)
    : res (gmap string string) :=
  let check_affliction (sigs houses : list Z) := any_in houses sigs in
  let results : gmap string string := ∅ in
  c1_total ← dict_item (AnalysisData.mars_dosha_status chart1_data) "Total"%string;
  c2_total ← dict_item (AnalysisData.mars_dosha_status chart2_data) "Total"%string;
  let c1_dosha := String.eqb c1_total "Afflicted" in
  let c2_dosha := String.eqb c2_total "Afflicted" in
  let results :=
    if Bool.eqb c1_dosha c2_dosha then
      <["Kuja_Dosha_Parity"%string := "Matched (Dosha Parity)"%string]> results
    else if c1_dosha && negb c2_dosha then
      <["Kuja_Dosha_Parity"%string :=
          "Unmatched (Dosha in " +:+ AnalysisData.name chart1_data +:+ ")"]> results
    else if c2_dosha && negb c1_dosha then
      <["Kuja_Dosha_Parity"%string :=
          "Unmatched (Dosha in " +:+ AnalysisData.name chart2_data +:+ ")"]> results
    else <["Kuja_Dosha_Parity"%string := "Clean"%string]> results in
  let csl1 := AnalysisData.csl_significators chart1_data in
  let csl2 := AnalysisData.csl_significators chart2_data in
  let c1_ayur_risk := check_affliction csl1 [8; 12] in
  let c2_ayur_risk := check_affliction csl2 [8; 12] in
  let results :=
    <["Ayurvriddhi_Match"%string :=
        if c1_ayur_risk && c2_ayur_risk then "Poor (Shared Risk)"%string else "Good"%string]>
      results in
  let results :=
    <["Vaidhavya_Risk"%string :=
        if c1_ayur_risk && c2_ayur_risk then "High"%string else "Low"%string]> results in
  let results :=
    <["Pitra_Dosha_Match"%string :=
        if AnalysisData.pitra_dosha_present chart1_data
           && AnalysisData.pitra_dosha_present chart2_data
        then "Present in Both"%string else "Mixed"%string]> results in
  let c1_prog_promise := check_affliction csl1 [5; 11] in
  let c2_prog_promise := check_affliction csl2 [5; 11] in
  let results :=
    <["Progeny_Match"%string :=
        if c1_prog_promise && c2_prog_promise then "Strong"%string else "Weak/Mixed"%string]>
      results in
  let c1_dhana := check_affliction csl1 [2; 11] in
  let c2_dhana := check_affliction csl2 [2; 11] in
  let results :=
    <["Financial_Match"%string :=
        if c1_dhana && c2_dhana then "Strong"%string else "Average"%string]> results in
  let c1_karaka := check_affliction (AnalysisData.jupiter_significators chart1_data) [7; 11] in
  let c2_karaka := check_affliction (AnalysisData.venus_significators chart2_data) [7; 11] in
  let results :=
    <["Karaka_Compatibility"%string :=
        if c1_karaka && c2_karaka then "High"%string else "Moderate"%string]> results in
  let c1_7th_lord_ok := negb (check_affliction csl1 [6; 8; 12]) in
  let c2_7th_lord_ok := negb (check_affliction csl2 [6; 8; 12]) in
  let results :=
    <["7th_Lord_Strength"%string :=
        if c1_7th_lord_ok && c2_7th_lord_ok then "Good"%string else "Weak/Afflicted"%string]>
      results in
  let c1_sat_8th := Zmem 8 (AnalysisData.saturn_significators chart1_data) in
  let c2_sat_8th := Zmem 8 (AnalysisData.saturn_significators chart2_data) in
  let results :=
    <["Ashtama_Shani_Effect"%string :=
        if c1_sat_8th || c2_sat_8th then "High Risk (Natal)"%string else "Low Risk"%string]>
      results in
  let results :=
    <["Dasha_Synchronization"%string :=
        if negb (String.eqb (AnalysisData.marriage_promise chart1_data) "DENIAL")
           && negb (String.eqb (AnalysisData.marriage_promise chart2_data) "DENIAL")
        then "Favorable"%string else "Unfavorable"%string]> results in
  let results :=
    <["Rasi_Navamsa_Match"%string :=
        "Moon Rasi Lords: " +:+ str_opt (AnalysisData.rasi_lord chart1_data)
        +:+ " vs " +:+ str_opt (AnalysisData.rasi_lord chart2_data)]> results in
  c1_lagna ← list_item (AnalysisData.cusps chart1_data) 0;
  let c1_lagna_lord := SIGN_LORD_MAP !! (py_int (c1_lagna / 30) mod 12) in
  c2_lagna ← list_item (AnalysisData.cusps chart2_data) 0;
  let c2_lagna_lord := SIGN_LORD_MAP !! (py_int (c2_lagna / 30) mod 12) in
  let results :=
    <["Lagna_Lord_Friendship"%string :=
        "Lords are " +:+ str_opt c1_lagna_lord +:+ " & " +:+ str_opt c2_lagna_lord]>
      results in
  let results :=
    <["D9_Lagna_Lord_Friendship"%string :=
        check_parashari_friendship (AnalysisData.d9_lagna_lord chart1_data)
          (AnalysisData.d9_lagna_lord chart2_data)]> results in
  Ok results.

Definition check_dasha_marriage_potential (significators : list Z) : string :=
  let marriage_links := any_in [2; 7; 11] significators in
  let denial_links := any_in [1; 6; 10] significators in
  if marriage_links && negb denial_links then "STRONG_PROMISE"%string
  else if marriage_links && denial_links then "MIXED_RISK"%string
  else if denial_links then "DENIAL_PERIOD"%string
  else "NEUTRAL"%string.

(** [needle in hay] on strings. *)
Fixpoint str_contains (needle hay : string) : bool :=
  String.prefix needle hay
  || match hay with
     | EmptyString => false
     | String _ hay' => str_contains needle hay'
     end.

(** [get_chart_match_row]: [None] only for the "Lagna" row of a dict
    without that key; a row is [planet, display1, display2, friendship]. *)
Definition get_chart_match_row (planet_key : string)
    (chart_dict1 chart_dict2 : gmap string Q) : res (option (list string)) :=
  lons ←
    (if String.eqb planet_key "Lagna" then
       match chart_dict1 !! "Lagna"%string with
       | Some s1_lon =>
           s2_lon ← dict_item chart_dict2 "Lagna"%string;
           Ok (Some (Some s1_lon, Some s2_lon))
       | None => Ok None
       end
     else Ok (Some (chart_dict1 !! planet_key, chart_dict2 !! planet_key)));
  match lons with
  | None => Ok None
  | Some (Some s1_lon, Some s2_lon) =>
      sign1 ← get_sign_name s1_lon;
      sign2 ← get_sign_name s2_lon;
      lord1 ← dict_item SIGN_LORD_MAP (py_int (s1_lon / 30));
      lord2 ← dict_item SIGN_LORD_MAP (py_int (s2_lon / 30));
      let lagna1 := default 0%Q (chart_dict1 !! "Lagna"%string) in
      let bhava1 := find_house_from_lagna s1_lon lagna1 in
      let lagna2 := default 0%Q (chart_dict2 !! "Lagna"%string) in
      let bhava2 := find_house_from_lagna s2_lon lagna2 in
      let friendship := check_parashari_friendship lord1 lord2 in
      let display1 := sign1 +:+ " (" +:+ lord1 +:+ ") [" +:+ pretty bhava1 +:+ "H]" in
      let display2 := sign2 +:+ " (" +:+ lord2 +:+ ") [" +:+ pretty bhava2 +:+ "H]" in
      Ok (Some [planet_key; display1; display2; friendship])
  | Some _ => Ok (Some [planet_key; "-"; "-"; "-"]%string)
  end.

Definition planets_to_check : list string :=
  ["Lagna"; "Sun"; "Moon"; "Mars"; "Mercury"; "Jupiter"; "Venus"; "Saturn";
   "Rahu"; "Ketu"].

(** The [for p in planets_to_check] loop of [build_match_table], counting
    the rows whose friendship text contains "Friend". *)
Fixpoint match_rows_loop (keys : list string) (final_d1 final_d2 : gmap string Q)
    (friendly_count : Z) : res Z :=
  match keys with
  | [] => Ok friendly_count
  | p :: rest =>
      row ← get_chart_match_row p final_d1 final_d2;
      match row with
      | Some r =>
          friendship ← list_item r 3;
          let friendly_count :=
            if str_contains "Friend" friendship then friendly_count + 1
            else friendly_count in
          match_rows_loop rest final_d1 final_d2 friendly_count
      | None => match_rows_loop rest final_d1 final_d2 friendly_count
      end
  end.

(** The score returned by [build_match_table]; for the base chart (the
    title starting with "7.") the "Lagna" entries are replaced by the first
    cusps. *)
Definition build_match_table (is_d1 : bool) (chart1 chart2 : Chart.t)
    (dict1 dict2 : gmap string Q) : res Z :=
  dicts ←
    (if is_d1 then
       lagna1 ← list_item (AnalysisData.cusps (Chart.analysis_data chart1)) 0;
       lagna2 ← list_item (AnalysisData.cusps (Chart.analysis_data chart2)) 0;
       Ok (<["Lagna"%string := lagna1]> dict1, <["Lagna"%string := lagna2]> dict2)
     else Ok (dict1, dict2));
  match_rows_loop planets_to_check dicts.1 dicts.2 0.

(** What [generate_compatibility_report] computes before rendering. *)
Record Verdict : Type := {
  supplementary_results : gmap string string;
  guna_score : Z;
  dasha_verdict : string;
  d1_score : Z;
  d9_score : Z;
  d50_score : Z;
  kp_promise_status : string;
  kp_dasha_status : string;
  good_factors : Z;
  fold_summary_status : string;
  final_verdict_text : string;
  verdict_notes : list string;
}.

(** [natal_dosha_denial]: both totals "Afflicted" and the parity factor not
    "Matched (Dosha Parity)"; the [and] chain stops at the first false. *)
Definition natal_dosha_denial (chart1 chart2 : Chart.t)
    (supplementary_results : gmap string string) : res bool :=
  c1_total ← dict_item (Chart.mars_dosha_status chart1) "Total"%string;
  if String.eqb c1_total "Afflicted" then
    c2_total ← dict_item (Chart.mars_dosha_status chart2) "Total"%string;
    if String.eqb c2_total "Afflicted" then
      parity ← dict_item supplementary_results "Kuja_Dosha_Parity"%string;
      Ok (negb (String.eqb parity "Matched (Dosha Parity)"))
    else Ok false
  else Ok false.

(** The dasha status of one of the chart's active lords:
    [check_dasha_marriage_potential(chart["planet_significators"].get(lord, []))]. *)
Definition lord_status (c : Chart.t) (l : string) : string :=
  check_dasha_marriage_potential (default [] (Chart.planet_significators c !! l)).

(** [c_marriage_support]: the Antardasha or the Pratyantardasha lord is a
    strong promise. *)
Definition marriage_support (c : Chart.t) : bool :=
  String.eqb (lord_status c (Chart.ad_lord c)) "STRONG_PROMISE"
  || String.eqb (lord_status c (Chart.pd_lord c)) "STRONG_PROMISE".

(** [c_denial_active]: the Antardasha or the Pratyantardasha lord is in a
    denial period. *)
Definition denial_active (c : Chart.t) : bool :=
  String.eqb (lord_status c (Chart.ad_lord c)) "DENIAL_PERIOD"
  || String.eqb (lord_status c (Chart.pd_lord c)) "DENIAL_PERIOD".

Definition count_if (b : bool) (n : Z) : Z := if b then n + 1 else n.

(** [generate_compatibility_report] up to the final verdict: the record
    returned here holds the values that the Python function then lays out
    in the PDF (the layout itself is outside the model). *)
Definition generate_compatibility_report (chart1 chart2 : Chart.t) : res Verdict :=
  let a1 := Chart.analysis_data chart1 in
  let a2 := Chart.analysis_data chart2 in
  supplementary_results ← calculate_supplementary_factors a1 a2;
  let guna_score := calculate_ashtakoota a1 a2 in
  let c1_marriage_support := marriage_support chart1 in
  let c2_marriage_support := marriage_support chart2 in
  let c1_denial_active := denial_active chart1 in
  let c2_denial_active := denial_active chart2 in
  natal_denial ← natal_dosha_denial chart1 chart2 supplementary_results;
  let dasha_verdict :=
    if c1_denial_active || c2_denial_active then
      "DENIAL: Current Dasha period strongly signifies denial houses (1, 6, 10)."%string
    else if natal_denial && negb (c1_marriage_support && c2_marriage_support) then
      "DENIAL: Severe natal affliction (unmatched Dosha) blocks marriage."%string
    else if c1_marriage_support && c2_marriage_support then
      "STRONGLY SUPPORTIVE: Dasha periods support marriage in both charts."%string
    else if c1_marriage_support || c2_marriage_support then
      "MIXED: Dasha supports marriage for only one native."%string
    else "WEAK/NEUTRAL: Current Dasha relies heavily on natal promise."%string in
  let supplementary_results :=
    <["Dasha_Synchronization"%string := dasha_verdict]> supplementary_results in
  d1_score ← build_match_table true chart1 chart2
                (AnalysisData.planets a1) (AnalysisData.planets a2);
  d9_score ← build_match_table false chart1 chart2
                (AnalysisData.d9_planets a1) (AnalysisData.d9_planets a2);
  d50_score ← build_match_table false chart1 chart2
                 (AnalysisData.d50_planets a1) (AnalysisData.d50_planets a2);
  let c1_promise := Chart.marriage_promise chart1 in
  let c2_promise := Chart.marriage_promise chart2 in
  let kp_promise_status :=
    if String.eqb c1_promise "DENIAL" || String.eqb c2_promise "DENIAL" then "DENIAL"%string
    else if String.eqb c1_promise "STRONG" && String.eqb c2_promise "STRONG"
         then "Strong"%string
    else if String.eqb c1_promise "MIXED" && String.eqb c2_promise "MIXED"
         then "Mixed"%string
    else "Average"%string in
  let kp_dasha_status :=
    if String.prefix "DENIAL" dasha_verdict then "DENIAL"%string
    else if String.prefix "STRONGLY SUPPORTIVE" dasha_verdict then "Strong"%string
    else if Smem dasha_verdict ["MIXED"; "WEAK/NEUTRAL"]%string then "Mixed"%string
    else "Good"%string in
  let supp_results := supplementary_results in
  let good_factors := 0 in
  v ← dict_item supp_results "Kuja_Dosha_Parity"%string;
  let good_factors := count_if (negb (str_contains "Unmatched" v)) good_factors in
  v ← dict_item supp_results "Ayurvriddhi_Match"%string;
  let good_factors := count_if (String.eqb v "Good") good_factors in
  v ← dict_item supp_results "Vaidhavya_Risk"%string;
  let good_factors := count_if (String.eqb v "Low") good_factors in
  v ← dict_item supp_results "Pitra_Dosha_Match"%string;
  let good_factors := count_if (negb (String.eqb v "Present in Both")) good_factors in
  v ← dict_item supp_results "Progeny_Match"%string;
  let good_factors := count_if (String.eqb v "Strong") good_factors in
  v ← dict_item supp_results "Financial_Match"%string;
  let good_factors := count_if (String.eqb v "Strong") good_factors in
  v ← dict_item supp_results "Karaka_Compatibility"%string;
  let good_factors := count_if (String.eqb v "High") good_factors in
  v ← dict_item supp_results "7th_Lord_Strength"%string;
  let good_factors := count_if (String.eqb v "Good") good_factors in
  v ← dict_item supp_results "Ashtama_Shani_Effect"%string;
  let good_factors := count_if (String.eqb v "Low Risk") good_factors in
  let good_factors := count_if (5 <=? d1_score) good_factors in
  let good_factors := count_if (5 <=? d9_score) good_factors in
  let good_factors := count_if (5 <=? d50_score) good_factors in
  let total_factors_checked := 12 in
  let fold_summary_status :=
    if 9 <=? good_factors then "Strong"%string
    else if good_factors <? 6 then "Weak"%string
    else "Average"%string in
  let fold_summary_text :=
    fold_summary_status +:+ " (" +:+ pretty good_factors +:+ "/"
    +:+ pretty total_factors_checked +:+ " favorable)" in
  let reasons_to_fail : list string :=
    (if String.eqb kp_promise_status "DENIAL"
     then ["Natal KP promise shows DENIAL."%string] else [])
    ++ (if String.eqb kp_dasha_status "DENIAL"
        then ["Current Dasha indicates strong DENIAL."%string] else [])
    ++ (if guna_score <? 18
        then ["Guna Milan (" +:+ pretty guna_score +:+ "/36) below 18."] else [])
    ++ (if String.eqb fold_summary_status "Weak"
        then ["Supplementary Match is Weak."%string] else []) in
  let reasons_for_caution : list string :=
    (if negb (String.eqb kp_promise_status "Strong")
     then ["Natal Promise is " +:+ kp_promise_status +:+ "."] else [])
    ++ (if negb (String.eqb kp_dasha_status "Strong")
        then ["Dasha Timing is " +:+ kp_dasha_status +:+ "."] else [])
    ++ (if negb (String.eqb fold_summary_status "Strong")
        then ["Supplementary Match is " +:+ fold_summary_text +:+ "."] else []) in
  let '(final_verdict_text, verdict_notes) :=
    match reasons_to_fail with
    | _ :: _ => ("TRY ANOTHER MATCH"%string, reasons_to_fail)
    | [] =>
        match reasons_for_caution with
        | _ :: _ => ("PROCEED (With Caution)"%string, reasons_for_caution)
        | [] =>
            ("PROCEED (Strongly Recommended)"%string,
             ["All major parameters (KP, D9, D50, Dasha, Guna) are favorable."%string])
        end
    end in
  Ok {| supplementary_results := supplementary_results;
        guna_score := guna_score;
        dasha_verdict := dasha_verdict;
        d1_score := d1_score;
        d9_score := d9_score;
        d50_score := d50_score;
        kp_promise_status := kp_promise_status;
        kp_dasha_status := kp_dasha_status;
        good_factors := good_factors;
        fold_summary_status := fold_summary_status;
        final_verdict_text := final_verdict_text;
        verdict_notes := verdict_notes |}.

(** The equal-house cusp set of the specification's scenario. *)
Definition sign_aligned_cusps : list Q :=
  [0; 30; 60; 90; 120; 150; 180; 210; 240; 270; 300; 330]%Q.

(** ** Two example births

    Longitudes of the bodies as the ephemeris would give them, on
    sign-aligned cusps.  In the first chart Mars stands in Virgo, in the
    2nd house from Venus, with nothing that cancels the dosha; in the
    second Mars stands in Capricorn, in none of the afflicting houses. *)
Definition bodies_native1 : gmap string Q :=
  list_to_map
    [("Sun", 95); ("Moon", 40); ("Mercury", 100); ("Venus", 130); ("Mars", 165);
     ("Jupiter", 250); ("Saturn", 300); ("Rahu", 20)]%Q%string.

Definition bodies_native2 : gmap string Q :=
  list_to_map
    [("Sun", 95); ("Moon", 40); ("Mercury", 100); ("Venus", 130); ("Mars", 280);
     ("Jupiter", 250); ("Saturn", 300); ("Rahu", 20)]%Q%string.

Definition chart_native1 : res Chart.t :=
  analyze_chart 50 "Native1" 2448000 sign_aligned_cusps bodies_native1 2460000.

Definition chart_native2 : res Chart.t :=
  analyze_chart 50 "Native2" 2450500 sign_aligned_cusps bodies_native2 2460000.

(** The value of a computation known to succeed. *)
Definition from_ok {A : Type} (r : res A) : if r is Ok _ then A else unit :=
  match r with
  | Ok a => a
  | _ => tt
  end.

Definition native1 : Chart.t := Eval vm_compute in (from_ok chart_native1 <: Chart.t).
Definition native2 : Chart.t := Eval vm_compute in (from_ok chart_native2 <: Chart.t).

Definition supplementary_native12 : gmap string string :=
  Eval vm_compute in
    match calculate_supplementary_factors (Chart.analysis_data native1)
            (Chart.analysis_data native2) with
    | Ok results => results
    | _ => ∅
    end.

(** ** Auxiliary functions used in the proofs

    The lord at a position of the 9-lord cycle, its period-years, and the
    years accumulated by [n] consecutive lords of the cycle from [start]. *)
Definition lord_at (j : Z) : string :=
  nth (Z.to_nat j) (take 9 NAKSHATRA_LORDS) ""%string.

Definition lord_years (j : Z) : Z :=
  nth (Z.to_nat j) [7; 20; 6; 10; 7; 18; 16; 19; 17] 0.

Fixpoint cum_years (start : Z) (n : nat) : Z :=
  match n with
  | O => 0
  | S n' => cum_years start n' + lord_years ((start + Z.of_nat n') mod 9)
  end.

(** A period of the walk is well-formed when its lord is the one at its
    index of the cycle. *)
Definition period_ok (p : DashaPeriod) : Prop :=
  0 <= lord_index p < 9 /\ lord p = lord_at (lord_index p).

(** The days of one period-year of a sub-period of the parent at index [P]. *)
Definition sub_unit (P : Z) : Q :=
  (inject_Z (lord_years P) / TOTAL_DASHAS_YEARS * DAYS_PER_YEAR)%Q.

(** Invariant of the sub-period walk under the parent at index [P], begun
    at index [i0] and instant [s0]: after [k] steps the period is the
    [k]-th of the cycle and spans the years accumulated before and after
    it. *)
Definition sub_inv (P i0 : Z) (s0 : Q) (k : nat) (p : DashaPeriod) : Prop :=
  (k <= 8)%nat /\
  lord_index p = (i0 + Z.of_nat k) mod 9 /\
  lord p = lord_at (lord_index p) /\
  (start_jd p == s0 + inject_Z (cum_years i0 k) * sub_unit P)%Q /\
  (end_jd p == s0 + inject_Z (cum_years i0 (S k)) * sub_unit P)%Q.

(** ** Further inputs and specification-side definitions *)

(** A cusp set with all twelve cusps on one point. *)
Definition collapsed_cusps : list Q :=
  [100; 100; 100; 100; 100; 100; 100; 100; 100; 100; 100; 100]%Q.

(** The cusp set of a whole-sign chart whose first house is the sign [s]:
    cusp [i] (0-based) is the start of the sign [(s + i) mod 12]. *)
Definition whole_sign_cusps (s : Z) : list Q :=
  map (fun i => inject_Z (30 * ((s + i) mod 12))) range12.


(** The [planets] dict of [analyze_chart] once Ketu (opposite Rahu, when
    Rahu is there) and the ascendant have been added to the longitudes
    [planets0] of the ephemeris. *)
Definition chart_planets (planets0 : gmap string Q) (lagna : Q) : gmap string Q :=
  <["Lagna"%string := lagna]>
    (match planets0 !! "Rahu"%string with
     | Some rahu => <["Ketu"%string := py_fmod (rahu + 180) 360]> planets0
     | None => planets0
     end).

(** Every longitude of a dict lies in [[0, 360)]. *)
Definition longitudes_in_range (d : gmap string Q) : Prop :=
  forall (body : string) (l : Q), d !! body = Some l -> (0 <= l)%Q /\ (l < 360)%Q.

(** The keys of the dict returned by [calculate_supplementary_factors],
    in the order in which they are set. *)
Definition supplementary_keys : list string :=
  ["Kuja_Dosha_Parity"; "Ayurvriddhi_Match"; "Vaidhavya_Risk"; "Pitra_Dosha_Match";
   "Progeny_Match"; "Financial_Match"; "Karaka_Compatibility"; "7th_Lord_Strength";
   "Ashtama_Shani_Effect"; "Dasha_Synchronization"; "Rasi_Navamsa_Match";
   "Lagna_Lord_Friendship"; "D9_Lagna_Lord_Friendship"].

(** The report computed for the two example births. *)
Definition report_native12 : Verdict :=
  Eval vm_compute in (from_ok (generate_compatibility_report native1 native2) <: Verdict).

(** ** Timezone choices of the input form *)

(** [l.insert(i, x)] for an index between 0 and the length of the list. *)
Definition list_insert_at {A : Type} (i : nat) (x : A) (l : list A) : list A :=
  take i l ++ x :: drop i l.

(** [build_tz_options]; the first argument stands for
    [sorted(common_timezones)], the list of the timezone database, and
    [current_tz] is a string or [None]. *)
Definition build_tz_options (sorted_common_timezones : list string)
    (current_tz : option string) : list string :=
  let base := "Select Timezone..."%string :: sorted_common_timezones in
  match current_tz with
  | Some tz =>
      (* [if current_tz and current_tz not in base]: the empty string is falsy *)
      if negb (String.eqb tz "") && negb (Smem tz base)
      then list_insert_at 1 tz base
      else base
  | None => base
  end.

(* ================================================================== *)
(** * Theorems *)

(** ** Arithmetic of the Python primitives *)

Lemma Qltb_true (x y : Q) : Qltb x y = true <-> (x < y)%Q.
Proof.
  unfold Qltb. rewrite negb_true_iff.
  destruct (Qle_bool y x) eqn:E.
  - apply Qle_bool_iff in E. split; [discriminate | intros; lra].
  - split; [intros _ | reflexivity].
    apply Qnot_le_lt. intros Hle. apply Qle_bool_iff in Hle. congruence.
Qed.

Lemma Qltb_false (x y : Q) : Qltb x y = false <-> (y <= x)%Q.
Proof.
  unfold Qltb. rewrite negb_false_iff. apply Qle_bool_iff.
Qed.

Lemma Qleb_true (x y : Q) : Qleb x y = true <-> (x <= y)%Q.
Proof. apply Qle_bool_iff. Qed.

Lemma Qleb_false (x y : Q) : Qleb x y = false <-> (y < x)%Q.
Proof.
  unfold Qleb. destruct (Qle_bool x y) eqn:E.
  - apply Qle_bool_iff in E. split; [discriminate | intros; lra].
  - split; [intros _ | reflexivity].
    apply Qnot_le_lt. intros Hle. apply Qle_bool_iff in Hle. congruence.
Qed.

(** On a non-negative float [int] is the floor. *)
Lemma py_int_nonneg (x : Q) : (0 <= x)%Q -> py_int x = Qfloor x.
Proof.
  intros Hx. destruct x as [n d]. unfold py_int, Qfloor. simpl.
  apply Z.quot_div_nonneg; [| lia].
  unfold Qle in Hx. simpl in Hx. lia.
Qed.

(** On a non-positive float [int] is the ceiling, written with the floor
    of the opposite. *)
Lemma py_int_nonpos (x : Q) : (x <= 0)%Q -> py_int x = - Qfloor (- x).
Proof.
  intros Hx. rewrite <- (py_int_nonneg (- x)) by lra.
  destruct x as [n d]. unfold py_int. simpl.
  rewrite Z.quot_opp_l by lia. lia.
Qed.

(** [int] and [%] do not depend on how a rational is written. *)
Lemma py_int_comp (x y : Q) : (x == y)%Q -> py_int x = py_int y.
Proof.
  intros E. destruct (Qlt_le_dec x 0) as [Hneg | Hpos].
  - rewrite !py_int_nonpos by lra. f_equal. apply Qfloor_comp. rewrite E. reflexivity.
  - rewrite !py_int_nonneg by lra. apply Qfloor_comp. exact E.
Qed.

Lemma py_fmod_comp (x y m : Q) : (x == y)%Q -> (py_fmod x m == py_fmod y m)%Q.
Proof.
  intros E. unfold py_fmod.
  assert (Ef : Qfloor (x / m) = Qfloor (y / m)) by (apply Qfloor_comp; rewrite E; reflexivity).
  rewrite Ef, E. reflexivity.
Qed.

(** The floor of [x / d] brackets [x] between two multiples of [d]. *)
Lemma floor_div_bracket (x d : Q) :
  (0 < d)%Q ->
  (inject_Z (Qfloor (x / d)) * d <= x /\ x < (inject_Z (Qfloor (x / d)) + 1) * d)%Q.
Proof.
  intros Hd.
  pose proof (Qfloor_le (x / d)) as Hlo.
  pose proof (Qlt_floor (x / d)) as Hhi.
  rewrite inject_Z_plus in Hhi.
  assert (Hx : (x == (x / d) * d)%Q) by (field; lra).
  set (q := (x / d)%Q) in *. set (f := inject_Z (Qfloor q)) in *.
  change (inject_Z 1) with 1%Q in Hhi.
  assert (H1 : (f * d <= q * d)%Q) by (apply Qmult_le_compat_r; lra).
  assert (H2 : (q * d < (f + 1) * d)%Q) by (apply Qmult_lt_compat_r; lra).
  lra.
Qed.

Lemma py_fmod_bounds (x m : Q) :
  (0 < m)%Q -> (0 <= py_fmod x m /\ py_fmod x m < m)%Q.
Proof.
  intros Hm. unfold py_fmod.
  destruct (floor_div_bracket x m Hm) as [Hlo Hhi]. lra.
Qed.

(** The floor of a number in [[0, n)] is an integer in [[0, n)]. *)
Lemma Qfloor_range (q : Q) (n : Z) :
  (0 <= q)%Q -> (q < inject_Z n)%Q -> 0 <= Qfloor q < n.
Proof.
  intros H0 Hn.
  pose proof (Qfloor_le q) as Hlo. pose proof (Qlt_floor q) as Hhi.
  split.
  - change 0 with (Qfloor 0). apply Qfloor_resp_le. exact H0.
  - rewrite Zlt_Qlt. lra.
Qed.

(** Case analysis on an integer known to lie in [[0, n)]. *)
Lemma Z_range_ind (P : Z -> Prop) (n : nat) :
  (forall i : nat, (i < n)%nat -> P (Z.of_nat i)) ->
  forall k : Z, 0 <= k < Z.of_nat n -> P k.
Proof.
  intros HP k Hk. rewrite <- (Z2Nat.id k) by lia. apply HP. lia.
Qed.

Ltac range_cases k Hk n :=
  revert k Hk; apply (Z_range_ind _ n); intros k Hk;
  repeat (destruct k as [| k]; [| apply PeanoNat.lt_S_n in Hk]); try (exfalso; lia).

(** ** Position resolver *)

Lemma nakshatra_span_val : (nakshatra_span == 40 # 3)%Q.
Proof. reflexivity. Qed.

Lemma nakshatra_index_facts (lon : Q) :
  let l := py_fmod lon 360 in
  let k := py_int (l / nakshatra_span) in
  0 <= k < 27 /\
  (inject_Z k * nakshatra_span <= l)%Q /\
  (l < (inject_Z k + 1) * nakshatra_span)%Q.
Proof.
  intros l k.
  destruct (py_fmod_bounds lon 360) as [Hl0 Hl1]; [lra |].
  fold l in Hl0, Hl1.
  assert (Hs : (0 < nakshatra_span)%Q) by (rewrite nakshatra_span_val; lra).
  assert (Hq0 : (0 <= l / nakshatra_span)%Q).
  { apply Qle_shift_div_l; lra. }
  assert (Hq1 : (l / nakshatra_span < inject_Z 27)%Q).
  { apply Qlt_shift_div_r; [lra |]. rewrite nakshatra_span_val.
    change (inject_Z 27) with 27%Q. lra. }
  unfold k. rewrite py_int_nonneg by exact Hq0.
  split; [apply Qfloor_range; assumption |].
  apply floor_div_bracket. exact Hs.
Qed.

Lemma star_lord_lookup (k : Z) :
  0 <= k < 27 ->
  exists star,
    list_item NAKSHATRA_LORDS k = Ok star /\
    list_index star (take 9 NAKSHATRA_LORDS) = Ok (k mod 9).
Proof.
  intros Hk. range_cases k Hk 27%nat; eexists; split; vm_compute; reflexivity.
Qed.

Lemma lord_table (j : Z) :
  0 <= j < 9 ->
  list_item NAKSHATRA_LORDS j = Ok (lord_at j) /\
  dict_item DASHA_PERIODS (lord_at j) = Ok (lord_years j) /\
  In (lord_at j) (take 9 NAKSHATRA_LORDS) /\
  6 <= lord_years j.
Proof.
  intros Hj. range_cases j Hj 9%nat;
    (split; [vm_compute; reflexivity |]);
    (split; [vm_compute; reflexivity |]);
    (split; [simpl; tauto | vm_compute; discriminate]).
Qed.

Lemma cum_years_full (k : Z) : 0 <= k < 9 -> cum_years k 9 = 120.
Proof. intros Hk. range_cases k Hk 9%nat; reflexivity. Qed.

(** The walk over the nine lords stops before the cycle is exhausted as
    soon as the cumulative value is below the 120 years of the full cycle. *)
Lemma sub_lord_loop_walk (k : Z) (cum : Q) (n : nat) :
  forall m : nat,
    (m + n = 9)%nat -> (0 < n)%nat ->
    (cum < inject_Z (cum_years k 9))%Q ->
    exists sub,
      sub_lord_loop (map Z.of_nat (seq m n)) k cum (cum_years k m) = Ok sub /\
      In sub (take 9 NAKSHATRA_LORDS).
Proof.
  induction n as [| n IH]; intros m Hmn Hn Hcum; [lia |].
  cbn [seq map sub_lord_loop].
  destruct (lord_table ((k + Z.of_nat m) mod 9)) as (Hl & Hp & Hin & _).
  { apply Z.mod_pos_bound. lia. }
  rewrite Hl. cbn [mbind res_bind]. rewrite Hp. cbn [mbind res_bind].
  change (cum_years k m + lord_years ((k + Z.of_nat m) mod 9))
    with (cum_years k (S m)).
  destruct (Qltb cum (inject_Z (cum_years k (S m)))) eqn:E.
  - eexists. split; [reflexivity | exact Hin].
  - apply Qltb_false in E.
    destruct n as [| n].
    + replace (S m) with 9%nat in E by lia. lra.
    + apply IH; [lia | lia | exact Hcum].
Qed.

Lemma sub_lord_loop_found (k : Z) (cum : Q) :
  0 <= k < 9 -> (cum < 120)%Q ->
  exists sub,
    sub_lord_loop range9 k cum 0 = Ok sub /\ In sub (take 9 NAKSHATRA_LORDS).
Proof.
  intros Hk Hcum.
  apply (sub_lord_loop_walk k cum 9 0); [lia | lia |].
  rewrite cum_years_full by exact Hk. exact Hcum.
Qed.

Lemma star_lord_cumulative_ok (lon : Q) :
  exists star k cum,
    star_lord_cumulative lon = Ok (star, k, cum) /\
    0 <= k < 9 /\ (0 <= cum)%Q /\ (cum < 120)%Q.
Proof.
  unfold star_lord_cumulative.
  destruct (nakshatra_index_facts lon) as (Hk & Hlo & Hhi).
  cbv zeta in Hk, Hlo, Hhi.
  set (l := py_fmod lon 360) in *.
  set (k := py_int (l / nakshatra_span)) in *.
  rewrite (Z.mod_small k 27) by lia.
  destruct (star_lord_lookup k Hk) as (star & Hstar & Hidx).
  rewrite Hstar. cbn [mbind res_bind]. rewrite Hidx. cbn [mbind res_bind].
  eexists _, _, _. split; [reflexivity |].
  split; [apply Z.mod_pos_bound; lia |].
  assert (Hs : (0 < nakshatra_span)%Q) by (rewrite nakshatra_span_val; lra).
  set (rel := (l - inject_Z k * nakshatra_span)%Q).
  assert (Hr0 : (0 <= rel)%Q) by (unfold rel; lra).
  assert (Hr1 : (rel < nakshatra_span)%Q) by (unfold rel; lra).
  assert (Hf0 : (0 <= rel / nakshatra_span)%Q) by (apply Qle_shift_div_l; lra).
  assert (Hf1 : (rel / nakshatra_span < 1)%Q) by (apply Qlt_shift_div_r; lra).
  split; lra.
Qed.


(** C3 (as stated, refuted): at 10 degrees the resolver does not return
    pada 1 with sub-lord Ketu. *)
Lemma moon_10_not_pada_1_sub_ketu :
  ~ (get_nakshatra_and_pada 10 = Ok ("Ashwini"%string, 1) /\
     get_star_sub_lord 10 = Ok ("Ketu"%string, "Ketu"%string)).
Proof. vm_compute. intros [H _]. discriminate H. Qed.

(** C3 (amended): a Moon at longitude 10 degrees resolves to nakshatra
    Ashwini with pada 4, star-lord Ketu and sub-lord Saturn: three quarters
    of the nakshatra are covered, so the cumulative value is 90 on the
    120-unit scale, which lies in Saturn's allotment [[84, 103)] of the walk
    that starts at Ketu (the seven lords before Saturn take 84 years, Saturn
    the next 19). *)
Theorem moon_10_ashwini_pada_4_sub_saturn :
  get_nakshatra_and_pada 10 = Ok ("Ashwini"%string, 4) /\
  get_star_sub_lord 10 = Ok ("Ketu"%string, "Saturn"%string) /\
  (exists cum, star_lord_cumulative 10 = Ok ("Ketu"%string, 0, cum) /\
               (cum == 90)%Q /\
               sub_lord_loop range9 0 cum 0 = Ok "Saturn"%string) /\
  (cum_years 0 7 = 84 /\ lord_at 7 = "Saturn"%string /\ cum_years 0 8 = 103).
Proof.
  split; [vm_compute; reflexivity |].
  split; [vm_compute; reflexivity |].
  split; [| repeat split; reflexivity].
  eexists. split; [vm_compute; reflexivity |].
  split; vm_compute; reflexivity.
Qed.

(** Uniqueness of the floor. *)
Lemma Qfloor_unique (y : Q) (n : Z) :
  (inject_Z n <= y)%Q -> (y < inject_Z n + 1)%Q -> Qfloor y = n.
Proof.
  intros Hlo Hhi.
  pose proof (Qfloor_le y) as Flo. pose proof (Qlt_floor y) as Fhi.
  rewrite inject_Z_plus in Fhi. change (inject_Z 1) with 1%Q in Fhi.
  assert (H1 : (inject_Z (Qfloor y) < inject_Z (n + 1))%Q).
  { rewrite inject_Z_plus. change (inject_Z 1) with 1%Q. lra. }
  assert (H2 : (inject_Z n < inject_Z (Qfloor y + 1))%Q).
  { rewrite inject_Z_plus. change (inject_Z 1) with 1%Q. lra. }
  rewrite <- Zlt_Qlt in H1, H2. lia.
Qed.

Lemma Qfloor_add_Z (x : Q) (z : Z) : Qfloor (x + inject_Z z) = Qfloor x + z.
Proof.
  apply Qfloor_unique.
  - rewrite inject_Z_plus. pose proof (Qfloor_le x). lra.
  - rewrite inject_Z_plus. pose proof (Qlt_floor x) as H.
    rewrite inject_Z_plus in H. change (inject_Z 1) with 1%Q in H. lra.
Qed.

Lemma list_item_signs (i : Z) :
  0 <= i < 12 -> exists s, list_item signs i = Ok s.
Proof. intros Hi. range_cases i Hi 12%nat; eexists; vm_compute; reflexivity. Qed.

(** Sign resolution rejects no longitude. *)
Lemma get_sign_name_total (lon : Q) : exists s, get_sign_name lon = Ok s.
Proof.
  unfold get_sign_name. apply list_item_signs. apply Z.mod_pos_bound. lia.
Qed.

(** Sign resolution is wrap-invariant as long as both longitudes are
    non-negative. *)
Lemma get_sign_name_wrap_nonneg (L : Q) (k : Z) :
  (0 <= L)%Q -> (0 <= L + 360 * inject_Z k)%Q ->
  get_sign_name (L + 360 * inject_Z k) = get_sign_name L.
Proof.
  intros HL HLk. unfold get_sign_name.
  rewrite !py_int_nonneg.
  - assert (E : ((L + 360 * inject_Z k) / 30 == L / 30 + inject_Z (12 * k))%Q).
    { rewrite inject_Z_mult. change (inject_Z 12) with 12%Q. field. }
    rewrite (Qfloor_comp _ _ E), Qfloor_add_Z.
    replace (Qfloor (L / 30) + 12 * k) with (Qfloor (L / 30) + k * 12) by lia.
    rewrite Z.mod_add by lia. reflexivity.
  - apply Qle_shift_div_l; lra.
  - apply Qle_shift_div_l; lra.
Qed.

Lemma get_sign_name_wrap_nonneg_witness :
  get_sign_name (10 + 360 * inject_Z 1) = get_sign_name 10.
Proof.
  apply get_sign_name_wrap_nonneg; unfold Qle; simpl; lia.
Defined.

(** C8 (the code at the failing input): a negative longitude is truncated
    toward zero instead of being reduced mod 360, so -10 degrees resolves
    to Aries while the same point written as 350 degrees resolves to
    Pisces. *)
Theorem get_sign_name_negative_not_wrapped :
  get_sign_name (-10) = Ok "Aries"%string /\
  get_sign_name (-10 + 360 * inject_Z 1) = Ok "Pisces"%string /\
  get_sign_name (-10) <> get_sign_name (-10 + 360 * inject_Z 1).
Proof.
  split; [vm_compute; reflexivity |].
  split; [vm_compute; reflexivity |].
  vm_compute. discriminate.
Qed.

(** ** Harmonic transformer *)

Lemma PADA_SIZE_val : (PADA_SIZE == 10 # 3)%Q.
Proof. reflexivity. Qed.

Lemma pada_slice_from_found (n : nat) :
  forall (i p : Z) (x : Q),
    i <= p < i + Z.of_nat n ->
    (inject_Z p * PADA_SIZE <= x)%Q ->
    (x < (inject_Z p + 1) * PADA_SIZE)%Q ->
    pada_slice_from i n x = Some p.
Proof.
  induction n as [| n IH]; intros i p x Hip Hlo Hhi; [lia |].
  cbn [pada_slice_from].
  destruct (Z.eq_dec i p) as [-> | Hne].
  - apply Qleb_true in Hlo. apply Qltb_true in Hhi. rewrite Hlo, Hhi. reflexivity.
  - assert (Hlt : (inject_Z i + 1 <= inject_Z p)%Q).
    { change 1%Q with (inject_Z 1). rewrite <- inject_Z_plus, <- Zle_Qle. lia. }
    assert (Hf : Qltb x ((inject_Z i + 1) * PADA_SIZE) = false).
    { apply Qltb_false. rewrite PADA_SIZE_val in *. lra. }
    rewrite Hf, andb_false_r. apply IH; [lia | assumption | assumption].
Qed.

Lemma navamsa_start_sign (s : Z) :
  0 <= s < 12 ->
  (if Zmem s [0; 3; 6; 9] then 0 else if Zmem s [1; 4; 7; 10] then 9 else 6)
  = navamsa_start_offset s.
Proof. intros Hs. range_cases s Hs 12%nat; reflexivity. Qed.

(** C4 (as stated, refuted): with 4 slices of 3 degrees 20 minutes per sign
    the in-sign offset of 20 degrees falls in no slice, and for a longitude
    of 360 degrees the start offset is not the one of [sign_index mod 3]. *)
Lemma navamsa_four_slices_refuted :
  navamsa_spec 4 20 <> Some (get_navamsa_longitude 20) /\
  navamsa_spec 9 360 <> Some (get_navamsa_longitude 360).
Proof. split; vm_compute; discriminate. Qed.

(** C4 (amended): for every longitude in [[0, 360)], [get_navamsa_longitude]
    reduces the longitude to an in-sign offset in [[0, 30)], finds which of
    the 9 slices of 3 degrees 20 minutes contains it, takes the start offset
    0, 9 or 6 by [sign_index mod 3], returns the sign
    [(start_offset + pada_index) mod 12] and fixes the longitude at that
    sign's mid-point, 15 degrees into the sign. *)
Theorem navamsa_nine_slices (lon : Q) :
  (0 <= lon)%Q -> (lon < 360)%Q ->
  (0 <= py_fmod lon 30)%Q /\ (py_fmod lon 30 < 30)%Q /\
  navamsa_spec 9 lon = Some (get_navamsa_longitude lon) /\
  get_navamsa_longitude lon mod 30 = 15 /\
  0 <= get_navamsa_longitude lon < 360.
Proof.
  intros H0 H360.
  destruct (py_fmod_bounds lon 30) as [Hm0 Hm30]; [lra |].
  split; [exact Hm0 |]. split; [exact Hm30 |].
  assert (Hq0 : (0 <= lon / 30)%Q) by (apply Qle_shift_div_l; lra).
  assert (Hq1 : (lon / 30 < inject_Z 12)%Q).
  { apply Qlt_shift_div_r; [lra |]. change (inject_Z 12) with 12%Q. lra. }
  pose proof (Qfloor_range _ _ Hq0 Hq1) as Hs.
  assert (Hp0 : (0 <= py_fmod lon 30 / PADA_SIZE)%Q).
  { apply Qle_shift_div_l; rewrite ?PADA_SIZE_val; lra. }
  assert (Hp1 : (py_fmod lon 30 / PADA_SIZE < inject_Z 9)%Q).
  { apply Qlt_shift_div_r; rewrite ?PADA_SIZE_val; [lra |].
    change (inject_Z 9) with 9%Q. lra. }
  pose proof (Qfloor_range _ _ Hp0 Hp1) as Hp.
  destruct (floor_div_bracket (py_fmod lon 30) PADA_SIZE) as [Blo Bhi].
  { rewrite PADA_SIZE_val. lra. }
  unfold get_navamsa_longitude, navamsa_spec, pada_slice, sign_of.
  rewrite (py_int_nonneg _ Hq0), (py_int_nonneg _ Hp0).
  rewrite navamsa_start_sign by exact Hs.
  rewrite (Z.mod_small (Qfloor (lon / 30)) 12) by exact Hs.
  set (s := Qfloor (lon / 30)) in *.
  set (p := Qfloor (py_fmod lon 30 / PADA_SIZE)) in *.
  rewrite (pada_slice_from_found 9 0 p) by (assumption || lia).
  split; [reflexivity |].
  pose proof (Z.mod_pos_bound (navamsa_start_offset s + p) 12 ltac:(lia)) as Hd.
  set (d := (navamsa_start_offset s + p) mod 12) in *.
  split.
  - rewrite Z.add_comm, Z.mul_comm.
    replace (15 + 30 * d) with (15 + d * 30) by lia.
    rewrite Z.mod_add by lia. reflexivity.
  - lia.
Qed.

Lemma navamsa_nine_slices_witness :
  (0 <= 20)%Q /\ (20 < 360)%Q /\
  navamsa_spec 9 20 = Some (get_navamsa_longitude 20).
Proof.
  assert (H0 : (0 <= 20)%Q) by (unfold Qle; simpl; lia).
  assert (H1 : (20 < 360)%Q) by (unfold Qlt; simpl; lia).
  split; [exact H0 |]. split; [exact H1 |].
  exact (proj1 (proj2 (proj2 (navamsa_nine_slices 20 H0 H1)))).
Defined.

(** ** House mapper *)

(** Each house interval contributes the drop of the indicator of
    [cusp <= lon] along its edge, plus one when the edge wraps. *)
Lemma in_house_interval_b2z (s e lon : Q) :
  Z.b2z (in_house_interval s e lon)
  = Z.b2z (Qleb s lon) - Z.b2z (Qleb e lon) + Z.b2z (Qleb e s).
Proof.
  unfold in_house_interval, Qltb.
  change (Qle_bool e s) with (Qleb e s).
  change (Qle_bool e lon) with (Qleb e lon).
  destruct (Qleb e s) eqn:Hes, (Qleb s lon) eqn:Hs, (Qleb e lon) eqn:He;
    try reflexivity; exfalso;
    repeat match goal with
      | H : Qleb _ _ = true |- _ => apply Qleb_true in H
      | H : Qleb _ _ = false |- _ => apply Qleb_false in H
      end; lra.
Qed.

Lemma count_true_nonneg (f : Z -> bool) (l : list Z) : 0 <= count_true f l.
Proof.
  induction l as [| a l IH]; simpl; [lia |]. destruct (f a); simpl; lia.
Qed.

Lemma count_true_zero (f : Z -> bool) (l : list Z) :
  count_true f l = 0 -> forall j, In j l -> f j = false.
Proof.
  induction l as [| a l IH]; simpl; intros Hc j Hj; [contradiction |].
  pose proof (count_true_nonneg f l) as Hn.
  destruct (f a) eqn:Ea; simpl in Hc; [lia |].
  destruct Hj as [<- | Hj]; [exact Ea | apply IH; [lia | exact Hj]].
Qed.

(** When exactly one element satisfies the test, the first match is that
    element. *)
Lemma count_true_one_find (f : Z -> bool) (l : list Z) :
  count_true f l = 1 ->
  exists i, find f l = Some i /\ In i l /\ f i = true /\
            forall j, In j l -> f j = true -> j = i.
Proof.
  induction l as [| a l IH]; simpl; intros Hc; [lia |].
  destruct (f a) eqn:Ea; simpl in Hc.
  - exists a. repeat split; auto.
    intros j [<- | Hj] Hfj; [reflexivity |].
    assert (Hz : count_true f l = 0) by lia.
    rewrite (count_true_zero f l Hz j Hj) in Hfj. discriminate.
  - destruct (IH Hc) as (i & Hfind & Hin & Hfi & Huniq).
    exists i. repeat split; auto.
    intros j [<- | Hj] Hfj; [congruence | auto].
Qed.

Lemma list_item_lookup {A : Type} (l : list A) (i : Z) (a : A) :
  0 <= i -> l !! Z.to_nat i = Some a -> list_item l i = Ok a.
Proof.
  intros Hi Hl. unfold list_item.
  destruct (i <? 0) eqn:E; [lia |]. rewrite E, Hl. reflexivity.
Qed.

(** On a 12-cusp set the loop of [find_house_index] never raises and
    returns the first house whose interval contains the longitude, or the
    sentinel 0 when there is none. *)
Lemma find_house_loop_find (cusps : list Q) (lon : Q) :
  length cusps = 12%nat ->
  forall idxs : list Z,
    (forall i, In i idxs -> 0 <= i < 12) ->
    find_house_loop idxs lon cusps =
    Ok (match find (fun i => house_contains cusps (i + 1) lon) idxs with
        | Some i => i + 1
        | None => 0
        end).
Proof.
  intros Hlen idxs. induction idxs as [| i rest IH]; intros Hrange; [reflexivity |].
  assert (Hi : 0 <= i < 12) by (apply Hrange; left; reflexivity).
  assert (Hi' : 0 <= (i + 1) mod 12 < 12) by (apply Z.mod_pos_bound; lia).
  destruct (lookup_lt_is_Some_2 cusps (Z.to_nat i)) as [s Hs]; [lia |].
  destruct (lookup_lt_is_Some_2 cusps (Z.to_nat ((i + 1) mod 12))) as [e He]; [lia |].
  cbn [find_house_loop find].
  rewrite (list_item_lookup cusps i s) by (lia || assumption).
  cbn [mbind res_bind].
  rewrite (list_item_lookup cusps ((i + 1) mod 12) e) by (lia || assumption).
  cbn [mbind res_bind].
  unfold house_contains at 1, cusp_edge.
  replace (i + 1 - 1) with i by lia. rewrite Hs, He.
  unfold in_house_interval.
  rewrite IH by (intros j Hj; apply Hrange; right; exact Hj).
  destruct (Qltb s e);
    [destruct (Qleb s lon && Qltb lon e) | destruct (Qleb s lon || Qltb lon e)];
    reflexivity.
Qed.

Lemma well_formed_cusps_inv (cusps : list Q) :
  well_formed_cusps cusps = true ->
  length cusps = 12%nat /\ cyclic_descents cusps = 1.
Proof.
  unfold well_formed_cusps. rewrite !andb_true_iff.
  intros [[Hlen _] Hd]. split; lia.
Qed.

(** For a well-formed cusp set exactly one house contains the longitude:
    the indicator drops telescope round the circle and leave the number of
    wraps, which is one. *)
Lemma well_formed_one_house (cusps : list Q) (lon : Q) :
  well_formed_cusps cusps = true ->
  count_true (fun i => house_contains cusps (i + 1) lon) range12 = 1.
Proof.
  intros Hwf. destruct (well_formed_cusps_inv cusps Hwf) as [Hlen Hd].
  do 13 (destruct cusps as [| ? cusps]; try discriminate Hlen).
  revert Hd. unfold cyclic_descents, count_true, range12, fold_right.
  unfold house_contains, edge_descends, cusp_edge.
  simpl (Z.to_nat _). simpl (@lookup _ _ _ _ _ _). cbv beta iota.
  rewrite !in_house_interval_b2z. lia.
Qed.

Lemma In_range12 (i : Z) : In i range12 <-> 0 <= i < 12.
Proof.
  split.
  - unfold range12. simpl. intros H.
    repeat (destruct H as [<- | H]; [lia |]). contradiction.
  - intros Hi. range_cases i Hi 12%nat; simpl; tauto.
Qed.

(** A longitude equal to a cusp lies in the house that starts there. *)
Lemma house_contains_boundary (cusps : list Q) (i : Z) (c lon : Q) :
  length cusps = 12%nat -> 0 <= i < 12 ->
  cusps !! Z.to_nat i = Some c -> (c == lon)%Q ->
  house_contains cusps (i + 1) lon = true.
Proof.
  intros Hlen Hi Hc Heq.
  assert (Hi' : 0 <= (i + 1) mod 12 < 12) by (apply Z.mod_pos_bound; lia).
  destruct (lookup_lt_is_Some_2 cusps (Z.to_nat ((i + 1) mod 12))) as [e He]; [lia |].
  unfold house_contains, cusp_edge. replace (i + 1 - 1) with i by lia.
  rewrite Hc, He. unfold in_house_interval.
  assert (Hle : Qleb c lon = true) by (apply Qleb_true; lra).
  rewrite Hle. destruct (Qltb c e) eqn:Hce; [| reflexivity].
  apply Qltb_true in Hce. simpl. apply Qltb_true. lra.
Qed.

(** C6: for every well-formed 12-cusp set and every longitude (in
    particular every longitude in [[0, 360)]), [find_house_index] raises
    nothing and returns a house number in 1..12; that house's closed-open
    circular interval contains the longitude and no other house's does; a
    longitude equal to a cusp resolves to the house starting at that cusp;
    and the sentinel 0 is not returned. *)
Theorem find_house_index_unique_house (cusps : list Q) (lon : Q) :
  well_formed_cusps cusps = true ->
  exists h,
    find_house_index lon cusps = Ok h /\
    1 <= h <= 12 /\
    house_contains cusps h lon = true /\
    (forall h', 1 <= h' <= 12 -> house_contains cusps h' lon = true -> h' = h) /\
    (forall i c, 0 <= i < 12 -> cusps !! Z.to_nat i = Some c -> (c == lon)%Q ->
                 h = i + 1) /\
    find_house_index lon cusps <> Ok 0.
Proof.
  intros Hwf. destruct (well_formed_cusps_inv cusps Hwf) as [Hlen _].
  destruct (count_true_one_find _ _ (well_formed_one_house cusps lon Hwf))
    as (i & Hfind & Hin & Hfi & Huniq).
  apply In_range12 in Hin.
  assert (Hres : find_house_index lon cusps = Ok (i + 1)).
  { unfold find_house_index.
    rewrite find_house_loop_find by (assumption || (intros j Hj; apply In_range12; exact Hj)).
    rewrite Hfind. reflexivity. }
  assert (Hu : forall h', 1 <= h' <= 12 -> house_contains cusps h' lon = true ->
                          h' = i + 1).
  { intros h' Hh' Hc.
    assert (E : h' - 1 = i).
    { apply Huniq; [apply In_range12; lia |].
      replace (h' - 1 + 1) with h' by lia. exact Hc. }
    lia. }
  exists (i + 1). split; [exact Hres |]. split; [lia |]. split; [exact Hfi |].
  split; [exact Hu |]. split.
  - intros j c Hj Hc Heq. symmetry. apply Hu; [lia |].
    eapply house_contains_boundary; eassumption.
  - rewrite Hres. intros E. injection E. lia.
Qed.

Lemma find_house_index_unique_house_witness :
  well_formed_cusps sign_aligned_cusps = true /\
  exists h,
    find_house_index 45 sign_aligned_cusps = Ok h /\
    1 <= h <= 12 /\
    house_contains sign_aligned_cusps h 45 = true /\
    (forall h', 1 <= h' <= 12 ->
                house_contains sign_aligned_cusps h' 45 = true -> h' = h) /\
    (forall i c, 0 <= i < 12 -> sign_aligned_cusps !! Z.to_nat i = Some c ->
                 (c == 45)%Q -> h = i + 1) /\
    find_house_index 45 sign_aligned_cusps <> Ok 0.
Proof.
  assert (Hwf : well_formed_cusps sign_aligned_cusps = true)
    by (vm_compute; reflexivity).
  split; [exact Hwf |].
  exact (find_house_index_unique_house sign_aligned_cusps 45 Hwf).
Defined.

(** The scenario of the specification: with sign-aligned cusps both house
    conventions put 45 degrees in house 2. *)
Example house_of_45_sign_aligned :
  find_house_index 45 sign_aligned_cusps = Ok 2 /\
  find_house_from_lagna 45 0 = 2.
Proof. split; vm_compute; reflexivity. Qed.

(** ** Dosha evaluator *)

Example planet_tables_mars :
  PLANET_OWN_SIGN !! "Mars"%string = Some PLANET_OWN_SIGN_Mars /\
  PLANET_EXALTATION !! "Mars"%string = Some PLANET_EXALTATION_Mars /\
  PLANET_DEBILITATION !! "Mars"%string = Some PLANET_DEBILITATION_Mars.
Proof. vm_compute. auto. Qed.

Example kuja_aspect_before_conjunction :
  check_kuja_cancellation 40 planets_aspect_and_conjunction ∅ 100 90
  = (true, "Cancelled (Aspect Jupiter D1)"%string) /\
  first_match (kuja_rules_spec_order 40 planets_aspect_and_conjunction ∅ 100 90)
  = (true, "Cancelled (Conj. Venus D1)"%string).
Proof. split; vm_compute; reflexivity. Qed.

(** The code's conjunction test is the 8-degree bound on the circular
    distance. *)
Lemma conjunction_test_circular (a b : Q) :
  Qltb (Qabs (a - b)) 8 || Qltb 352 (Qabs (a - b))
  = Qltb (circular_distance a b) 8.
Proof.
  unfold circular_distance. set (d := Qabs (a - b)).
  apply eq_iff_eq_true. rewrite orb_true_iff, !Qltb_true, Q.min_lt_iff.
  split; (intros [H | H]; [left | right]; lra).
Qed.

Lemma first_match_cons (b : bool) (r : string) (l : list (bool * string)) :
  first_match ((b, r) :: l) = if b then (true, r) else first_match l.
Proof. unfold first_match. cbn [find fst]. destruct b; reflexivity. Qed.

Lemma first_match_fst (l : list (bool * string)) :
  (first_match l).1 = existsb fst l.
Proof.
  induction l as [| [b r] l IH]; [reflexivity |].
  rewrite first_match_cons. destruct b; [reflexivity | exact IH].
Qed.

(** The benefics loop is first-match-wins over the rules taken benefic by
    benefic. *)
Lemma kuja_benefics_loop_first_match (mars_lon : Q) (m : Z)
    (rest : list (bool * string)) (items : list (string * option Q)) :
  first_match
    (flat_map (fun b => [rule_conjunction mars_lon b; rule_aspect_7th m b]) items
     ++ rest)
  = match kuja_benefics_loop items mars_lon m with
    | Some r => r
    | None => first_match rest
    end.
Proof.
  induction items as [| [name ben] items IH]; [reflexivity |].
  cbn [flat_map app kuja_benefics_loop].
  unfold rule_conjunction at 1, rule_aspect_7th at 1. cbn [fst snd].
  rewrite !first_match_cons.
  destruct ben as [ben_lon |]; [| exact IH].
  rewrite conjunction_test_circular.
  destruct (Qltb (circular_distance mars_lon ben_lon) 8); [reflexivity |].
  destruct (m =? (py_int (ben_lon / 30) mod 12 + 6) mod 12); [reflexivity | exact IH].
Qed.

Lemma benefic_rules_same_outcome (mars_lon : Q) (m : Z)
    (items : list (string * option Q)) :
  existsb fst (map (rule_conjunction mars_lon) items ++ map (rule_aspect_7th m) items)
  = existsb fst
      (flat_map (fun b => [rule_conjunction mars_lon b; rule_aspect_7th m b]) items).
Proof.
  rewrite existsb_app.
  induction items as [| b items IH]; [reflexivity |].
  cbn [map flat_map app existsb]. rewrite <- IH.
  destruct (rule_conjunction mars_lon b).1, (rule_aspect_7th m b).1,
    (existsb fst (map (rule_conjunction mars_lon) items)),
    (existsb fst (map (rule_aspect_7th m) items)); reflexivity.
Qed.

(** C5 (as stated, refuted): with Mars opposite Jupiter's sign and within
    8 degrees of Venus, the specification's order (all conjunctions before
    any 7th aspect) gives the Venus conjunction as the reason, the code
    gives Jupiter's aspect. *)
Lemma kuja_spec_order_refuted :
  check_kuja_cancellation 40 planets_aspect_and_conjunction ∅ 100 90
  <> first_match (kuja_rules_spec_order 40 planets_aspect_and_conjunction ∅ 100 90).
Proof. vm_compute. discriminate. Qed.

(** C5 (amended): [check_kuja_cancellation] is first-match-wins over the
    ladder (a) dignity in the base chart, (b) benefic sign, then for each
    benefic in the order Jupiter, Venus, Moon (Moon only when the Sun-Moon
    separation is in (150, 210)) its conjunction check followed by its
    7th-aspect check, then (e) Jupiter's 5th/9th-sign aspect and (f) the
    dignity check in the 9th-harmonic chart; so Jupiter's 7th aspect is
    tested before the conjunction with Venus.  Whether the dosha is
    cancelled is the same as under the specification's order; only the
    reason string can differ. *)
Theorem kuja_cancellation_rule_order (mars_lon : Q) (planets d9_planets : gmap string Q)
    (moon_lon sun_lon : Q) :
  check_kuja_cancellation mars_lon planets d9_planets moon_lon sun_lon
  = first_match (kuja_rules_by_benefic mars_lon planets d9_planets moon_lon sun_lon)
  /\
  (check_kuja_cancellation mars_lon planets d9_planets moon_lon sun_lon).1
  = (first_match (kuja_rules_spec_order mars_lon planets d9_planets moon_lon sun_lon)).1.
Proof.
  assert (Hcode :
    check_kuja_cancellation mars_lon planets d9_planets moon_lon sun_lon
    = first_match (kuja_rules_by_benefic mars_lon planets d9_planets moon_lon sun_lon)).
  { unfold check_kuja_cancellation, kuja_rules_by_benefic, rules_dignity_d1,
      rule_benefic_sign.
    set (m := py_int (mars_lon / 30) mod 12).
    cbn [app]. rewrite !first_match_cons.
    destruct (Zmem m PLANET_OWN_SIGN_Mars); [reflexivity |].
    destruct (m =? PLANET_EXALTATION_Mars); [reflexivity |].
    destruct (m =? PLANET_DEBILITATION_Mars); [reflexivity |].
    destruct (Zmem m [4; 8; 11]); [reflexivity |].
    rewrite kuja_benefics_loop_first_match.
    destruct (kuja_benefics_loop _ mars_lon m); [reflexivity |].
    unfold rule_jupiter_trine, rules_dignity_d9. cbn [app].
    rewrite first_match_cons.
    assert (Hd9 :
      match d9_planets !! "Mars"%string with
      | Some mars_d9_lon =>
          if Zmem (py_int (mars_d9_lon / 30)) PLANET_OWN_SIGN_Mars
          then (true, "Cancelled (Own Sign D9)"%string)
          else if py_int (mars_d9_lon / 30) =? PLANET_EXALTATION_Mars
               then (true, "Cancelled (Exalted D9)"%string)
          else if py_int (mars_d9_lon / 30) =? PLANET_DEBILITATION_Mars
               then (true, "Cancelled (Debilitated D9)"%string)
          else (false, "Afflicted"%string)
      | None => (false, "Afflicted"%string)
      end
      = first_match
          match d9_planets !! "Mars"%string with
          | Some mars_d9_lon =>
              [(Zmem (py_int (mars_d9_lon / 30)) PLANET_OWN_SIGN_Mars,
                "Cancelled (Own Sign D9)"%string);
               (py_int (mars_d9_lon / 30) =? PLANET_EXALTATION_Mars,
                "Cancelled (Exalted D9)"%string);
               (py_int (mars_d9_lon / 30) =? PLANET_DEBILITATION_Mars,
                "Cancelled (Debilitated D9)"%string)]
          | None => []
          end).
    { destruct (d9_planets !! "Mars"%string) as [l |]; [| reflexivity].
      rewrite !first_match_cons. reflexivity. }
    cbv zeta. rewrite Hd9.
    destruct (planets !! "Jupiter"%string) as [jup_lon |]; reflexivity. }
  split; [exact Hcode |].
  rewrite Hcode, !first_match_fst.
  unfold kuja_rules_by_benefic, kuja_rules_spec_order. cbv zeta.
  rewrite !existsb_app. rewrite <- benefic_rules_same_outcome, existsb_app.
  rewrite <- !orb_assoc. reflexivity.
Qed.

(** ** Ashtakoota scorer *)

Lemma chart_native1_ok : chart_native1 = Ok native1.
Proof. vm_compute. reflexivity. Qed.

Lemma chart_native2_ok : chart_native2 = Ok native2.
Proof. vm_compute. reflexivity. Qed.

(** With the same two indices on both sides every rule but Nadi scores in
    full, and Nadi (which scores only for different groups) scores 0. *)
Lemma ashtakoota_total_same (n r : Z) :
  Z.min (Z.max (py_round (ashtakoota_total n r n r)) 0) 36 = 28.
Proof.
  unfold ashtakoota_total, get_graha_maitri. cbv zeta.
  rewrite !Z.sub_diag, !Z.eqb_refl, Z.leb_refl.
  rewrite bool_decide_eq_true_2 by reflexivity.
  vm_compute. reflexivity.
Qed.

(** C1 (as stated, refuted): the first example chart paired with itself
    does not score 36. *)
Lemma ashtakoota_identical_not_36 :
  calculate_ashtakoota (Chart.analysis_data native1) (Chart.analysis_data native1) <> 36.
Proof. vm_compute. discriminate. Qed.

(** C1 (amended): for every pair of charts with equal Moon longitudes
    (in particular a chart paired with a copy of itself)
    [calculate_ashtakoota] returns exactly 28: Varna 1, Vashya 2, Tara 3,
    Yoni 4, Graha Maitri 5, Gana 6 and Bhakoot 7 score in full and Nadi,
    which scores its 8 points only when the two nakshatra groups differ,
    scores 0. *)
Theorem ashtakoota_identical_moon (c1 c2 : AnalysisData.t) :
  (AnalysisData.moon_lon c1 == AnalysisData.moon_lon c2)%Q ->
  calculate_ashtakoota c1 c2 = 28.
Proof.
  intros E. unfold calculate_ashtakoota. cbv zeta.
  assert (En : py_int (py_fmod (AnalysisData.moon_lon c1) 360 / nakshatra_span)
               = py_int (py_fmod (AnalysisData.moon_lon c2) 360 / nakshatra_span)).
  { apply py_int_comp. rewrite (py_fmod_comp _ _ 360 E). reflexivity. }
  assert (Er : py_int (AnalysisData.moon_lon c1 / 30)
               = py_int (AnalysisData.moon_lon c2 / 30)).
  { apply py_int_comp. rewrite E. reflexivity. }
  rewrite En, Er. apply ashtakoota_total_same.
Qed.

Lemma ashtakoota_identical_moon_witness :
  calculate_ashtakoota (Chart.analysis_data native1) (Chart.analysis_data native1) = 28.
Proof.
  apply ashtakoota_identical_moon. vm_compute. reflexivity.
Defined.

(** ** Chart analysis: the 7th-cusp sub-lord *)



(** The whole analysis of a chart whose planet map lacks the 7th-cusp
    sub-lord (Mercury here) still succeeds, with no significators for the
    sub-lord and a neutral promise. *)
Example analyze_chart_without_csl_planet :
  exists c,
    analyze_chart 50 "Native1" 2448000 sign_aligned_cusps
      (delete "Mercury"%string bodies_native1) 2460000 = Ok c /\
    Chart.seventh_csl c = "Mercury"%string /\
    Chart.csl_significators c = [] /\
    Chart.marriage_promise c = "NEUTRAL"%string.
Proof. eexists. split; [vm_compute; reflexivity |]. repeat split. Qed.

(** ** Compatibility aggregator *)

(** The unmatched-dosha denial can never fire: it asks for both totals to
    be "Afflicted", and then the parity factor is "Matched (Dosha
    Parity)". *)
Lemma natal_dosha_denial_unreachable (c1 c2 : Chart.t) (results : gmap string string) :
  Chart.mars_dosha_status c1 = AnalysisData.mars_dosha_status (Chart.analysis_data c1) ->
  Chart.mars_dosha_status c2 = AnalysisData.mars_dosha_status (Chart.analysis_data c2) ->
  calculate_supplementary_factors (Chart.analysis_data c1) (Chart.analysis_data c2)
  = Ok results ->
  natal_dosha_denial c1 c2 results = Ok false.
Proof.
  intros H1 H2 Hs. unfold calculate_supplementary_factors in Hs.
  rewrite <- H1, <- H2 in Hs. unfold natal_dosha_denial.
  destruct (dict_item (Chart.mars_dosha_status c1) "Total"%string) as [t1 | |];
    try discriminate Hs.
  destruct (dict_item (Chart.mars_dosha_status c2) "Total"%string) as [t2 | |];
    try discriminate Hs.
  cbn [mbind res_bind] in Hs |- *.
  destruct (String.eqb t1 "Afflicted"); [| reflexivity].
  destruct (String.eqb t2 "Afflicted"); [| reflexivity].
  destruct (list_item (AnalysisData.cusps (Chart.analysis_data c1)) 0);
    try discriminate Hs.
  destruct (list_item (AnalysisData.cusps (Chart.analysis_data c2)) 0);
    try discriminate Hs.
  cbn [mbind res_bind Bool.eqb] in Hs. injection Hs as <-.
  unfold dict_item.
  repeat (rewrite lookup_insert_ne by discriminate).
  rewrite lookup_insert_eq. reflexivity.
Qed.

Lemma natal_dosha_denial_unreachable_witness :
  natal_dosha_denial native1 native2 supplementary_native12 = Ok false.
Proof.
  assert (H1 : Chart.mars_dosha_status native1
               = AnalysisData.mars_dosha_status (Chart.analysis_data native1))
    by reflexivity.
  assert (H2 : Chart.mars_dosha_status native2
               = AnalysisData.mars_dosha_status (Chart.analysis_data native2))
    by reflexivity.
  assert (H3 : calculate_supplementary_factors (Chart.analysis_data native1)
                 (Chart.analysis_data native2) = Ok supplementary_native12)
    by (vm_cast_no_check (eq_refl (Ok supplementary_native12))).
  exact (natal_dosha_denial_unreachable native1 native2 supplementary_native12 H1 H2 H3).
Defined.

(** C2 (the code at the failing input): the first example chart carries
    the Mars dosha, the second does not, so the parity factor is
    "Unmatched"; the active dasha periods of the second chart give no
    marriage support; and yet the verdict is "PROCEED (With Caution)", not
    "TRY ANOTHER MATCH". *)
Theorem unmatched_dosha_not_rejected :
  chart_native1 = Ok native1 /\ chart_native2 = Ok native2 /\
  Chart.mars_dosha_status native1 !! "Total"%string = Some "Afflicted"%string /\
  Chart.mars_dosha_status native2 !! "Total"%string = Some "Not Afflicted"%string /\
  marriage_support native1 && marriage_support native2 = false /\
  exists v,
    generate_compatibility_report native1 native2 = Ok v /\
    supplementary_results v !! "Kuja_Dosha_Parity"%string
    = Some "Unmatched (Dosha in Native1)"%string /\
    final_verdict_text v = "PROCEED (With Caution)"%string /\
    final_verdict_text v <> "TRY ANOTHER MATCH"%string.
Proof.
  split; [exact chart_native1_ok |]. split; [exact chart_native2_ok |].
  split; [vm_compute; reflexivity |]. split; [vm_compute; reflexivity |].
  split; [vm_compute; reflexivity |].
  eexists. split; [vm_compute; reflexivity |].
  split; [vm_compute; reflexivity |].
  split; [vm_compute; reflexivity | vm_compute; discriminate].
Qed.

(** ** Dasha timeline *)

Example dasha_example :
  calculate_vimsottari_dasha 20 2451545 10 2460000
  = Ok ("Sun"%string, "Rahu"%string, "Rahu"%string).
Proof. vm_compute. reflexivity. Qed.

Lemma birth_lord_lookup (k : Z) :
  0 <= k < 27 ->
  list_item NAKSHATRA_LORDS (k mod 27) = Ok (lord_at (k mod 9)) /\
  list_index (lord_at (k mod 9)) DASHAS_LORDS = Ok (k mod 9).
Proof.
  intros Hk. range_cases k Hk 27%nat; split; vm_compute; reflexivity.
Qed.

Lemma dasha_lord_table (j : Z) :
  0 <= j < 9 ->
  list_item DASHAS_LORDS j = Ok (lord_at j) /\ lord_years j <= 20.
Proof.
  intros Hj. range_cases j Hj 9%nat; split; vm_compute; (reflexivity || discriminate).
Qed.

Lemma DAYS_PER_YEAR_pos : (0 < DAYS_PER_YEAR)%Q.
Proof. reflexivity. Qed.

(** More fuel never changes the result of a walk. *)
Lemma dasha_loop_fuel_mono (days_of : string -> res Q) (target : Q) (fuel : nat) :
  forall (p p' : DashaPeriod),
    dasha_loop days_of fuel target p = Ok p' ->
    forall fuel', (fuel <= fuel')%nat -> dasha_loop days_of fuel' target p = Ok p'.
Proof.
  induction fuel as [| fuel IH]; intros p p' H fuel' Hle.
  - destruct fuel'; cbn [dasha_loop] in *;
      destruct (Qleb (end_jd p) target); (discriminate || exact H).
  - destruct fuel' as [| fuel']; [lia |].
    cbn [dasha_loop] in *.
    destruct (Qleb (end_jd p) target); [| exact H].
    destruct (list_item DASHAS_LORDS ((lord_index p + 1) mod 9)) as [l | |];
      cbn [mbind res_bind] in *; try discriminate H.
    destruct (days_of l) as [d | |]; cbn [mbind res_bind] in *; try discriminate H.
    apply (IH _ _ H). lia.
Qed.

Lemma md_days_at (j : Z) :
  0 <= j < 9 -> md_days (lord_at j) = Ok (inject_Z (lord_years j) * DAYS_PER_YEAR)%Q.
Proof.
  intros Hj. unfold md_days. destruct (lord_table j Hj) as (_ & -> & _). reflexivity.
Qed.

Lemma sub_period_days_at (i j : Z) :
  0 <= i < 9 -> 0 <= j < 9 ->
  sub_period_days (lord_at i) (lord_at j)
  = Ok ((inject_Z (lord_years i) * inject_Z (lord_years j) / TOTAL_DASHAS_YEARS)
        * DAYS_PER_YEAR)%Q.
Proof.
  intros Hi Hj. unfold sub_period_days.
  destruct (lord_table j Hj) as (_ & -> & _).
  destruct (lord_table i Hi) as (_ & -> & _). reflexivity.
Qed.

(** The Mahadasha walk stops when the fuel covers the distance to the
    target, every Mahadasha being at least 6 years long. *)
Lemma md_loop_terminates (target : Q) (fuel : nat) :
  forall p : DashaPeriod,
    period_ok p ->
    (start_jd p <= target)%Q ->
    (end_jd p - start_jd p == inject_Z (lord_years (lord_index p)) * DAYS_PER_YEAR)%Q ->
    (target - end_jd p < inject_Z (Z.of_nat fuel) * (6 * DAYS_PER_YEAR))%Q ->
    exists p',
      dasha_loop md_days fuel target p = Ok p' /\
      period_ok p' /\
      (start_jd p' <= target)%Q /\ (target < end_jd p')%Q /\
      (end_jd p' - start_jd p' == inject_Z (lord_years (lord_index p')) * DAYS_PER_YEAR)%Q.
Proof.
  induction fuel as [| fuel IH]; intros p Hok Hstart Hlen Hfuel.
  - cbn [dasha_loop]. destruct (Qleb (end_jd p) target) eqn:E.
    + apply Qleb_true in E. change (inject_Z (Z.of_nat 0)) with 0%Q in Hfuel. lra.
    + apply Qleb_false in E. exists p. auto.
  - cbn [dasha_loop]. destruct (Qleb (end_jd p) target) eqn:E.
    2:{ apply Qleb_false in E. exists p. auto. }
    apply Qleb_true in E.
    destruct Hok as [Hidx Hlord].
    assert (Hn : 0 <= (lord_index p + 1) mod 9 < 9) by (apply Z.mod_pos_bound; lia).
    destruct (dasha_lord_table _ Hn) as [Hl _]. rewrite Hl. cbn [mbind res_bind].
    rewrite md_days_at by exact Hn. cbn [mbind res_bind].
    destruct (lord_table _ Hn) as (_ & _ & _ & Hy).
    rewrite Zle_Qle in Hy. change (inject_Z 6) with 6%Q in Hy.
    pose proof DAYS_PER_YEAR_pos as HD.
    set (y := inject_Z (lord_years ((lord_index p + 1) mod 9))) in *.
    assert (Hyd : (6 * DAYS_PER_YEAR <= y * DAYS_PER_YEAR)%Q)
      by (apply Qmult_le_compat_r; lra).
    apply IH; cbn [lord_index lord start_jd end_jd].
    + split; [exact Hn | reflexivity].
    + exact E.
    + fold y. lra.
    + rewrite Nat2Z.inj_succ in Hfuel. unfold Z.succ in Hfuel.
      rewrite inject_Z_plus in Hfuel. change (inject_Z 1) with 1%Q in Hfuel.
      set (n := inject_Z (Z.of_nat fuel)) in *. lra.
Qed.

Lemma sub_unit_pos (P : Z) : 0 <= P < 9 -> (0 < sub_unit P)%Q.
Proof.
  intros HP. unfold sub_unit, TOTAL_DASHAS_YEARS.
  destruct (lord_table P HP) as (_ & _ & _ & Hy).
  rewrite Zle_Qle in Hy. change (inject_Z 6) with 6%Q in Hy.
  pose proof DAYS_PER_YEAR_pos as HD.
  apply Qmult_lt_0_compat; [| exact HD].
  apply Qlt_shift_div_l; lra.
Qed.

Lemma cum_years_mono (i : Z) (m n : nat) :
  (m <= n)%nat -> cum_years i m <= cum_years i n.
Proof.
  induction 1 as [| n Hle IH]; [lia |].
  cbn [cum_years].
  destruct (lord_table ((i + Z.of_nat n) mod 9)) as (_ & _ & _ & Hy);
    [apply Z.mod_pos_bound; lia | lia].
Qed.

Lemma cum_years_nonneg (i : Z) (n : nat) : 0 <= cum_years i n.
Proof. apply (cum_years_mono i 0 n). lia. Qed.

Section SubPeriodWalk.
(** The walk of the sub-periods of the parent at index [P], whose span
    starts at [s0] and ends after the target. *)
Variables (P : Z) (s0 target : Q).
Hypothesis HP : 0 <= P < 9.
Hypothesis Htarget : (target < s0 + 120 * sub_unit P)%Q.

Lemma sub_loop_terminates (fuel : nat) :
  forall (k : nat) (p : DashaPeriod),
    sub_inv P P s0 k p ->
    (8 <= k + fuel)%nat ->
    (start_jd p <= target)%Q ->
    exists (k' : nat) (p' : DashaPeriod),
      dasha_loop (sub_period_days (lord_at P)) fuel target p = Ok p' /\
      sub_inv P P s0 k' p' /\
      (start_jd p' <= target)%Q /\ (target < end_jd p')%Q.
Proof.
  pose proof (sub_unit_pos P HP) as Hu.
  induction fuel as [| fuel' IH]; intros k p Hinv Hfuel Hstart;
    destruct Hinv as (Hk & Hidx & Hlord & Hs & He);
    cbn [dasha_loop]; destruct (Qleb (end_jd p) target) eqn:E;
    try (apply Qleb_false in E; exists k, p;
         repeat split; (assumption || reflexivity)).
  - (* no fuel left: the ninth sub-period ends with the parent *)
    apply Qleb_true in E. exfalso.
    replace (S k) with 9%nat in He by lia.
    rewrite cum_years_full in He by exact HP.
    change (inject_Z 120) with 120%Q in He. lra.
  - apply Qleb_true in E.
    assert (Hk8 : (k < 8)%nat).
    { destruct (Nat.eq_dec k 8%nat) as [-> | Hne]; [| lia]. exfalso.
      rewrite cum_years_full in He by exact HP.
      change (inject_Z 120) with 120%Q in He. lra. }
    assert (Hnext : (lord_index p + 1) mod 9 = (P + Z.of_nat (S k)) mod 9).
    { rewrite Hidx, Zplus_mod_idemp_l. f_equal. lia. }
    assert (Hn : 0 <= (lord_index p + 1) mod 9 < 9) by (apply Z.mod_pos_bound; lia).
    destruct (dasha_lord_table _ Hn) as [Hl _]. rewrite Hl. cbn [mbind res_bind].
    rewrite sub_period_days_at by assumption. cbn [mbind res_bind].
    apply (IH (S k)).
    + split; [lia |]. cbn [lord_index lord start_jd end_jd].
      split; [exact Hnext |]. split; [reflexivity |]. split; [exact He |].
      rewrite He. cbn [cum_years]. rewrite <- Hnext.
      rewrite (inject_Z_plus (cum_years P k + _)).
      unfold sub_unit, TOTAL_DASHAS_YEARS. field.
    + lia.
    + cbn [start_jd]. exact E.
Qed.

(** One level of subdivision: the walk stops within the nine lords, on a
    sub-period that contains the target and lies inside
    [[s0, s0 + 120 * sub_unit P]]. *)
Lemma sub_level :
  (s0 <= target)%Q ->
  exists p0 p' : DashaPeriod,
    first_sub_period (lord_at P) P s0 = Ok p0 /\
    (forall fuel, (8 <= fuel)%nat ->
       dasha_loop (sub_period_days (lord_at P)) fuel target p0 = Ok p') /\
    period_ok p' /\
    (s0 <= start_jd p')%Q /\
    (start_jd p' <= target)%Q /\ (target < end_jd p')%Q /\
    (end_jd p' <= s0 + 120 * sub_unit P)%Q /\
    (end_jd p' - start_jd p' == inject_Z (lord_years (lord_index p')) * sub_unit P)%Q.
Proof.
  intros Hs0. pose proof (sub_unit_pos P HP) as Hu.
  set (p0 := {| lord_index := P; lord := lord_at P; start_jd := s0;
                end_jd := (s0 + (inject_Z (lord_years P) * inject_Z (lord_years P)
                                 / TOTAL_DASHAS_YEARS) * DAYS_PER_YEAR)%Q |}).
  assert (Hfirst : first_sub_period (lord_at P) P s0 = Ok p0).
  { unfold first_sub_period. destruct (dasha_lord_table P HP) as [-> _].
    cbn [mbind res_bind]. rewrite sub_period_days_at by assumption. reflexivity. }
  assert (Hinv : sub_inv P P s0 0 p0).
  { unfold sub_inv, p0. cbn [lord_index lord start_jd end_jd cum_years Z.of_nat].
    rewrite Z.add_0_r, (Z.mod_small P 9) by lia.
    split; [lia |]. split; [reflexivity |]. split; [reflexivity |].
    split.
    - change (inject_Z 0) with 0%Q. lra.
    - rewrite Z.add_0_l. unfold sub_unit, TOTAL_DASHAS_YEARS. field. }
  destruct (sub_loop_terminates 8 0 p0 Hinv)
    as (k & p' & Hloop & (Hk & Hidx & Hlord & Hs & He) & Hst & Hend);
    [lia | exact Hs0 |].
  exists p0, p'. split; [exact Hfirst |].
  split; [intros fuel Hf; apply (dasha_loop_fuel_mono _ _ 8); assumption |].
  assert (Hr : 0 <= lord_index p' < 9) by (rewrite Hidx; apply Z.mod_pos_bound; lia).
  split; [split; assumption |].
  pose proof (cum_years_nonneg P k) as Hc0.
  pose proof (cum_years_mono P (S k) 9 ltac:(lia)) as Hc1.
  rewrite cum_years_full in Hc1 by exact HP.
  rewrite Zle_Qle in Hc0, Hc1.
  change (inject_Z 0) with 0%Q in Hc0. change (inject_Z 120) with 120%Q in Hc1.
  assert (Hm0 : (0 <= inject_Z (cum_years P k) * sub_unit P)%Q)
    by (apply Qmult_le_0_compat; lra).
  assert (Hm1 : (inject_Z (cum_years P (S k)) * sub_unit P <= 120 * sub_unit P)%Q)
    by (apply Qmult_le_compat_r; lra).
  split; [lra |]. split; [exact Hst |]. split; [exact Hend |]. split; [lra |].
  rewrite Hs, He. cbn [cum_years]. rewrite <- Hidx, inject_Z_plus. ring.
Qed.

End SubPeriodWalk.

(** What holds of the walk for every birth instant, Moon longitude and
    target instant at or after birth: it terminates (every sufficient fuel
    gives the same three periods), the target lies in each of the three
    periods, the Antardasha lies inside the Mahadasha, and the
    Pratyantardasha starts inside the Antardasha. *)
Lemma dasha_periods_terminate (birth_jd moon_lon target_jd : Q) :
  (birth_jd <= target_jd)%Q ->
  exists (fuel0 : nat) (r : DashaPointer),
    (forall fuel, (fuel0 <= fuel)%nat ->
       dasha_periods fuel birth_jd moon_lon target_jd = Ok r) /\
    let md := mahadasha r in
    let ad := antardasha r in
    let pd := pratyantardasha r in
    (start_jd md <= target_jd)%Q /\ (target_jd < end_jd md)%Q /\
    (start_jd ad <= target_jd)%Q /\ (target_jd < end_jd ad)%Q /\
    (start_jd pd <= target_jd)%Q /\ (target_jd < end_jd pd)%Q /\
    (start_jd md <= start_jd ad)%Q /\ (end_jd ad <= end_jd md)%Q /\
    (start_jd ad <= start_jd pd)%Q.
Proof.
  intros Hbt.
  destruct (nakshatra_index_facts moon_lon) as (Hk & Hlo & Hhi).
  cbv zeta in Hk, Hlo, Hhi.
  set (l := py_fmod moon_lon 360) in *.
  set (k := py_int (l / nakshatra_span)) in *.
  destruct (birth_lord_lookup k Hk) as [Hstar Hidx].
  assert (Hk9 : 0 <= k mod 9 < 9) by (apply Z.mod_pos_bound; lia).
  destruct (lord_table _ Hk9) as (_ & Hyears & _ & Hy6).
  assert (Hs : (0 < nakshatra_span)%Q) by (rewrite nakshatra_span_val; lra).
  set (f := ((l - inject_Z k * nakshatra_span) / nakshatra_span)%Q).
  assert (Hf0 : (0 <= f)%Q) by (apply Qle_shift_div_l; lra).
  set (Y := inject_Z (lord_years (k mod 9))).
  assert (HY : (6 <= Y)%Q).
  { unfold Y. change 6%Q with (inject_Z 6). rewrite <- Zle_Qle. exact Hy6. }
  pose proof DAYS_PER_YEAR_pos as HD.
  set (p0 := {| lord_index := k mod 9; lord := lord_at (k mod 9);
                start_jd := (birth_jd - f * Y * DAYS_PER_YEAR)%Q;
                end_jd := (birth_jd + (1 - f) * Y * DAYS_PER_YEAR)%Q |}).
  assert (HfY : (0 <= f * Y * DAYS_PER_YEAR)%Q).
  { apply Qmult_le_0_compat; [apply Qmult_le_0_compat |]; lra. }
  set (fuel_md :=
         Z.to_nat (Qfloor ((target_jd - end_jd p0) / (6 * DAYS_PER_YEAR)) + 1)).
  assert (Hfuel : (target_jd - end_jd p0
                   < inject_Z (Z.of_nat fuel_md) * (6 * DAYS_PER_YEAR))%Q).
  { pose proof (Qlt_floor ((target_jd - end_jd p0) / (6 * DAYS_PER_YEAR))) as Hfl.
    set (x := (target_jd - end_jd p0)%Q) in *.
    set (z := Qfloor (x / (6 * DAYS_PER_YEAR)) + 1) in *.
    assert (Hz : (inject_Z z <= inject_Z (Z.of_nat fuel_md))%Q).
    { rewrite <- Zle_Qle. unfold fuel_md. lia. }
    assert (H6 : (0 < 6 * DAYS_PER_YEAR)%Q) by lra.
    assert (Hx : (x == x / (6 * DAYS_PER_YEAR) * (6 * DAYS_PER_YEAR))%Q)
      by (field; lra).
    assert (H1 : (x / (6 * DAYS_PER_YEAR) * (6 * DAYS_PER_YEAR)
                  < inject_Z z * (6 * DAYS_PER_YEAR))%Q)
      by (apply Qmult_lt_compat_r; assumption).
    assert (H2 : (inject_Z z * (6 * DAYS_PER_YEAR)
                  <= inject_Z (Z.of_nat fuel_md) * (6 * DAYS_PER_YEAR))%Q)
      by (apply Qmult_le_compat_r; lra).
    lra. }
  destruct (md_loop_terminates target_jd fuel_md p0)
    as (md & Hmd & [Hmi Hml] & Hms & Hme & Hmlen).
  { split; [exact Hk9 | reflexivity]. }
  { cbn [start_jd p0]. lra. }
  { cbn [start_jd end_jd lord_index p0]. fold Y. ring. }
  { exact Hfuel. }
  (* Antardasha *)
  pose proof (sub_unit_pos _ Hmi) as Hum.
  assert (Hmspan : (120 * sub_unit (lord_index md)
                    == inject_Z (lord_years (lord_index md)) * DAYS_PER_YEAR)%Q).
  { unfold sub_unit, TOTAL_DASHAS_YEARS. field. }
  destruct (sub_level (lord_index md) (start_jd md) target_jd Hmi)
    as (ad0 & ad & Had0 & Had & [Hai Hal] & Has0 & Has & Hae & Haend & Halen);
    [lra | exact Hms |].
  (* Pratyantardasha *)
  assert (Haspan : (120 * sub_unit (lord_index ad)
                    == inject_Z (lord_years (lord_index ad)) * DAYS_PER_YEAR)%Q).
  { unfold sub_unit, TOTAL_DASHAS_YEARS. field. }
  assert (Hunit : (sub_unit (lord_index md) <= DAYS_PER_YEAR)%Q).
  { destruct (dasha_lord_table _ Hmi) as [_ H20].
    destruct (lord_table _ Hmi) as (_ & _ & _ & H6).
    rewrite Zle_Qle in H20, H6.
    change (inject_Z 20) with 20%Q in H20. change (inject_Z 6) with 6%Q in H6.
    unfold sub_unit, TOTAL_DASHAS_YEARS.
    set (Ym := inject_Z (lord_years (lord_index md))) in *.
    assert (H1 : (Ym / 120 <= 1)%Q) by (apply Qle_shift_div_r; lra).
    assert (H2 : (Ym / 120 * DAYS_PER_YEAR <= 1 * DAYS_PER_YEAR)%Q)
      by (apply Qmult_le_compat_r; lra).
    lra. }
  assert (Hya : (0 <= inject_Z (lord_years (lord_index ad)))%Q).
  { destruct (lord_table _ Hai) as (_ & _ & _ & H6).
    rewrite Zle_Qle in H6. change (inject_Z 6) with 6%Q in H6. lra. }
  assert (Halen' : (inject_Z (lord_years (lord_index ad)) * sub_unit (lord_index md)
                    <= inject_Z (lord_years (lord_index ad)) * DAYS_PER_YEAR)%Q).
  { rewrite !(Qmult_comm (inject_Z (lord_years (lord_index ad)))).
    apply Qmult_le_compat_r; assumption. }
  destruct (sub_level (lord_index ad) (start_jd ad) target_jd Hai)
    as (pd0 & pd & Hpd0 & Hpd & [Hpi Hpl] & Hps0 & Hps & Hpe & _ & _);
    [lra | exact Has |].
  exists (Nat.max fuel_md 8),
    {| mahadasha := md; antardasha := ad; pratyantardasha := pd |}.
  split.
  - intros fuel Hfuel'.
    unfold dasha_periods. cbv zeta. fold l. fold k.
    rewrite Hstar. cbn [mbind res_bind]. rewrite Hidx. cbn [mbind res_bind].
    rewrite Hyears. cbn [mbind res_bind]. fold f. fold Y. fold p0.
    rewrite (dasha_loop_fuel_mono _ _ _ _ _ Hmd) by lia. cbn [mbind res_bind].
    rewrite Hml, Had0. cbn [mbind res_bind].
    rewrite Had by lia. cbn [mbind res_bind].
    rewrite Hal, Hpd0. cbn [mbind res_bind].
    rewrite Hpd by lia. reflexivity.
  - cbn [mahadasha antardasha pratyantardasha].
    repeat split; try assumption; lra.
Qed.

Lemma dasha_periods_terminate_witness :
  (2451545 <= 2460000)%Q /\
  exists (fuel0 : nat) (r : DashaPointer),
    (forall fuel, (fuel0 <= fuel)%nat ->
       dasha_periods fuel 2451545 10 2460000 = Ok r) /\
    let md := mahadasha r in
    let ad := antardasha r in
    let pd := pratyantardasha r in
    (start_jd md <= 2460000)%Q /\ (2460000 < end_jd md)%Q /\
    (start_jd ad <= 2460000)%Q /\ (2460000 < end_jd ad)%Q /\
    (start_jd pd <= 2460000)%Q /\ (2460000 < end_jd pd)%Q /\
    (start_jd md <= start_jd ad)%Q /\ (end_jd ad <= end_jd md)%Q /\
    (start_jd ad <= start_jd pd)%Q.
Proof.
  assert (H : (2451545 <= 2460000)%Q) by (unfold Qle; simpl; lia).
  split; [exact H |].
  exact (dasha_periods_terminate 2451545 10 2460000 H).
Defined.

(** C7 (the code at the failing input): for a birth at Julian day 2451545
    with the Moon at 10 degrees and the target day 2460000, the walk gives
    Sun / Rahu / Rahu; the Antardasha ends on day 2460237.95 but the
    Pratyantardasha found for the target runs to day 2460895.4, beyond the
    end of the Antardasha that should contain it. *)
Theorem pratyantardasha_exceeds_antardasha :
  (2451545 <= 2460000)%Q /\
  exists r,
    dasha_periods 20 2451545 10 2460000 = Ok r /\
    lord (mahadasha r) = "Sun"%string /\
    lord (antardasha r) = "Rahu"%string /\
    lord (pratyantardasha r) = "Rahu"%string /\
    (end_jd (antardasha r) == 49204759 # 20)%Q /\
    (end_jd (pratyantardasha r) == 12304477 # 5)%Q /\
    (end_jd (antardasha r) < end_jd (pratyantardasha r))%Q /\
    ~ (end_jd (pratyantardasha r) <= end_jd (antardasha r))%Q.
Proof.
  split; [vm_compute; discriminate |].
  eexists. split; [vm_compute; reflexivity |].
  repeat split; try (vm_compute; reflexivity).
  vm_compute. intros H. apply H. reflexivity.
Qed.

(** ** House mapper on arbitrary 12-cusp lists *)

(** The telescoping identity behind the uniqueness of the house: on any
    list of 12 cusps, as many houses contain a longitude as there are
    edges that wrap. *)
Lemma houses_containing_count (cusps : list Q) (lon : Q) :
  length cusps = 12%nat ->
  count_true (fun i => house_contains cusps (i + 1) lon) range12
  = cyclic_descents cusps.
Proof.
  intros Hlen.
  do 13 (destruct cusps as [| ? cusps]; try discriminate Hlen).
  unfold cyclic_descents, count_true, range12, fold_right.
  unfold house_contains, edge_descends, cusp_edge.
  simpl (Z.to_nat _). simpl (@lookup _ _ _ _ _ _). cbv beta iota.
  rewrite !in_house_interval_b2z. lia.
Qed.

(** Going round twelve cusps the longitude cannot increase on every edge. *)
Lemma cyclic_descents_pos (cusps : list Q) :
  length cusps = 12%nat -> 1 <= cyclic_descents cusps.
Proof.
  intros Hlen.
  pose proof (count_true_nonneg (edge_descends cusps) range12) as Hn.
  fold (cyclic_descents cusps) in Hn.
  destruct (Z.eq_dec (cyclic_descents cusps) 0) as [Hz | Hnz]; [| lia].
  exfalso.
  pose proof (count_true_zero _ _ Hz) as Hall.
  do 13 (destruct cusps as [| ? cusps]; try discriminate Hlen).
  assert (H : forall i, 0 <= i < 12 ->
            edge_descends [q; q0; q1; q2; q3; q4; q5; q6; q7; q8; q9; q10] i = false)
    by (intros i Hi; apply Hall, In_range12; exact Hi).
  pose proof (H 0 ltac:(lia)) as E0. pose proof (H 1 ltac:(lia)) as E1.
  pose proof (H 2 ltac:(lia)) as E2. pose proof (H 3 ltac:(lia)) as E3.
  pose proof (H 4 ltac:(lia)) as E4. pose proof (H 5 ltac:(lia)) as E5.
  pose proof (H 6 ltac:(lia)) as E6. pose proof (H 7 ltac:(lia)) as E7.
  pose proof (H 8 ltac:(lia)) as E8. pose proof (H 9 ltac:(lia)) as E9.
  pose proof (H 10 ltac:(lia)) as E10. pose proof (H 11 ltac:(lia)) as E11.
  clear H Hall Hz Hn Hlen.
  unfold edge_descends, cusp_edge in *.
  simpl (Z.to_nat _) in *. simpl (@lookup _ _ _ _ _ _) in *. cbv beta iota in *.
  repeat match goal with
    | H : Qleb _ _ = false |- _ => apply Qleb_false in H
    end.
  lra.
Qed.

Lemma count_true_pos_find (f : Z -> bool) (l : list Z) :
  1 <= count_true f l -> exists i, find f l = Some i.
Proof.
  induction l as [| a l IH]; simpl; intros Hc; [lia |].
  destruct (f a); [eexists; reflexivity |]. apply IH. simpl in Hc. lia.
Qed.

(** [find] over [range12] returns the least index that passes the test. *)
Lemma find_range12_least (f : Z -> bool) (i : Z) :
  find f range12 = Some i ->
  0 <= i < 12 /\ f i = true /\ forall j, 0 <= j < i -> f j = false.
Proof.
  unfold range12. cbn [find].
  repeat match goal with
    | |- context [if f ?k then _ else _] => destruct (f k) eqn:?
    end;
    intros E; try discriminate E; injection E as <-;
    (split; [lia |]); (split; [assumption |]);
    intros j Hj;
    repeat match goal with
      | H : f ?k = false |- _ =>
          destruct (Z.eq_dec j k) as [-> | ?]; [exact H | clear H]
      end; lia.
Qed.

Lemma containing_house_exists (cusps : list Q) (lon : Q) :
  length cusps = 12%nat ->
  exists i, find (fun i => house_contains cusps (i + 1) lon) range12 = Some i.
Proof.
  intros Hlen.
  pose proof (houses_containing_count cusps lon Hlen) as Hcount.
  pose proof (cyclic_descents_pos cusps Hlen) as Hpos.
  apply count_true_pos_find. lia.
Qed.

Lemma find_house_index_in_range (cusps : list Q) (lon : Q) :
  length cusps = 12%nat ->
  exists h, find_house_index lon cusps = Ok h /\ 1 <= h <= 12.
Proof.
  intros Hlen.
  destruct (containing_house_exists cusps lon Hlen) as [i Hfind].
  destruct (find_range12_least _ _ Hfind) as (Hi & _ & _).
  exists (i + 1). split; [| lia].
  unfold find_house_index.
  rewrite find_house_loop_find
    by (assumption || (intros j Hj; apply In_range12; exact Hj)).
  rewrite Hfind. reflexivity.
Qed.

(** X: on any list of 12 cusps, well-formed or not, [find_house_index]
    raises nothing and never returns the sentinel 0: it returns the
    lowest-numbered house whose interval contains the longitude, and there
    always is one. *)
Theorem find_house_index_first_house (cusps : list Q) (lon : Q) :
  length cusps = 12%nat ->
  exists h,
    find_house_index lon cusps = Ok h /\
    1 <= h <= 12 /\
    house_contains cusps h lon = true /\
    forall h', 1 <= h' < h -> house_contains cusps h' lon = false.
Proof.
  intros Hlen.
  destruct (containing_house_exists cusps lon Hlen) as [i Hfind].
  destruct (find_range12_least _ _ Hfind) as (Hi & Hfi & Hleast).
  exists (i + 1). split.
  - unfold find_house_index.
    rewrite find_house_loop_find
      by (assumption || (intros j Hj; apply In_range12; exact Hj)).
    rewrite Hfind. reflexivity.
  - split; [lia |]. split; [exact Hfi |].
    intros h' Hh'. replace h' with (h' - 1 + 1) by lia. apply Hleast. lia.
Qed.

Lemma find_house_index_first_house_witness :
  exists h,
    find_house_index 45 collapsed_cusps = Ok h /\
    1 <= h <= 12 /\
    house_contains collapsed_cusps h 45 = true /\
    forall h', 1 <= h' < h -> house_contains collapsed_cusps h' 45 = false.
Proof.
  exact (find_house_index_first_house collapsed_cusps 45 eq_refl).
Defined.

(** ** The two house conventions on whole-sign cusps *)

(** On a well-formed cusp set, a house that contains the longitude is the
    one [find_house_index] returns. *)
Lemma find_house_index_of_containing (cusps : list Q) (lon : Q) (h : Z) :
  well_formed_cusps cusps = true ->
  1 <= h <= 12 -> house_contains cusps h lon = true ->
  find_house_index lon cusps = Ok h.
Proof.
  intros Hwf Hh Hc.
  destruct (well_formed_cusps_inv _ Hwf) as [Hlen _].
  destruct (count_true_one_find _ _ (well_formed_one_house cusps lon Hwf))
    as (i & Hfind & _ & _ & Huniq).
  unfold find_house_index.
  rewrite find_house_loop_find
    by (assumption || (intros j Hj; apply In_range12; exact Hj)).
  rewrite Hfind. f_equal.
  assert (h - 1 = i); [| lia].
  apply Huniq; [apply In_range12; lia |].
  replace (h - 1 + 1) with h by lia. exact Hc.
Qed.

Lemma whole_sign_cusps_well_formed (s : Z) :
  0 <= s < 12 -> well_formed_cusps (whole_sign_cusps s) = true.
Proof. intros Hs. range_cases s Hs 12%nat; vm_compute; reflexivity. Qed.

Lemma whole_sign_cusp_edge (s i : Z) :
  0 <= s < 12 -> 0 <= i < 12 ->
  cusp_edge (whole_sign_cusps s) i
  = Some (inject_Z (30 * ((s + i) mod 12)), inject_Z (30 * (((s + i) mod 12 + 1) mod 12))).
Proof.
  intros Hs Hi.
  range_cases s Hs 12%nat; range_cases i Hi 12%nat; vm_compute; reflexivity.
Qed.

(** Case analysis on a bounded integer when the goal has further
    premises that mention it. *)
Ltac range_cases_dep k Hk n :=
  revert k Hk;
  match goal with |- forall k', _ -> @?P k' => apply (Z_range_ind P n) end;
  cbv beta; intros k Hk;
  repeat (destruct k as [| k]; [| apply PeanoNat.lt_S_n in Hk]); try (exfalso; lia).

(** The sign [p] as a circular interval contains the longitudes from
    [30 p] to [30 p + 30]. *)
Lemma sign_interval_contains (p : Z) (lon : Q) :
  0 <= p < 12 ->
  (inject_Z p * 30 <= lon)%Q -> (lon < (inject_Z p + 1) * 30)%Q ->
  in_house_interval (inject_Z (30 * p)) (inject_Z (30 * ((p + 1) mod 12))) lon = true.
Proof.
  intros Hp Hlo Hhi. revert Hlo Hhi.
  range_cases_dep p Hp 12%nat; intros Hlo Hhi;
    unfold in_house_interval;
    repeat match goal with
      | |- context [inject_Z ?z] =>
          let v := eval vm_compute in (inject_Z z) in
          progress change (inject_Z z) with v
      | H : context [inject_Z ?z] |- _ =>
          let v := eval vm_compute in (inject_Z z) in
          progress change (inject_Z z) with v in H
      end;
    match goal with
    | |- (if ?c then _ else _) = true =>
        let b := eval vm_compute in c in change c with b; cbv iota
    end;
    first
      [ apply andb_true_intro; split; [apply Qleb_true | apply Qltb_true]; lra
      | apply orb_true_intro; left; apply Qleb_true; lra ].
Qed.

Lemma py_int_sign_start (s : Z) : 0 <= s -> py_int (inject_Z (30 * s) / 30) = s.
Proof.
  intros Hs.
  assert (E : (inject_Z (30 * s) / 30 == inject_Z s)%Q).
  { rewrite inject_Z_mult. field. }
  rewrite (py_int_comp _ _ E).
  rewrite py_int_nonneg
    by (change 0%Q with (inject_Z 0); rewrite <- Zle_Qle; lia).
  apply Qfloor_Z.
Qed.

(** X: on the cusps of a whole-sign chart rising in sign [s], the cusp
    convention and the whole-sign convention give the same house to every
    longitude of the zodiac. *)
Theorem house_conventions_agree_on_whole_signs (s : Z) (lon : Q) :
  0 <= s < 12 -> (0 <= lon)%Q -> (lon < 360)%Q ->
  find_house_index lon (whole_sign_cusps s)
  = Ok (find_house_from_lagna lon (inject_Z (30 * s))).
Proof.
  intros Hs Hlo Hhi.
  unfold find_house_from_lagna.
  rewrite py_int_sign_start by lia.
  assert (Hq : (0 <= lon / 30)%Q) by (apply Qle_shift_div_l; lra).
  rewrite (py_int_nonneg _ Hq).
  destruct (floor_div_bracket lon 30 ltac:(lra)) as [Hb1 Hb2].
  assert (Hp : 0 <= Qfloor (lon / 30) < 12).
  { apply Qfloor_range; [exact Hq |]. change (inject_Z 12) with 12%Q.
    apply Qlt_shift_div_r; lra. }
  set (p := Qfloor (lon / 30)) in *.
  apply find_house_index_of_containing.
  - apply whole_sign_cusps_well_formed; exact Hs.
  - pose proof (Z.mod_pos_bound (p - s + 12) 12 ltac:(lia)). lia.
  - unfold house_contains.
    replace ((p - s + 12) mod 12 + 1 - 1) with ((p - s + 12) mod 12) by lia.
    rewrite whole_sign_cusp_edge by (try apply Z.mod_pos_bound; lia).
    replace ((s + (p - s + 12) mod 12) mod 12) with p.
    + apply sign_interval_contains; assumption.
    + rewrite Zplus_mod_idemp_r.
      replace (s + (p - s + 12)) with (p + 1 * 12) by lia.
      rewrite Z_mod_plus_full. symmetry. apply Z.mod_small. lia.
Qed.

Lemma house_conventions_agree_on_whole_signs_witness :
  find_house_index 100 (whole_sign_cusps 5)
  = Ok (find_house_from_lagna 100 (inject_Z (30 * 5))).
Proof.
  apply (house_conventions_agree_on_whole_signs 5 100); [lia | lra | lra].
Defined.

(** ** Harmonic charts and the position resolver on every longitude *)

Lemma py_fmod_add_period (x m : Q) (k : Z) :
  (0 < m)%Q -> (py_fmod (x + m * inject_Z k) m == py_fmod x m)%Q.
Proof.
  intros Hm. unfold py_fmod.
  assert (E : ((x + m * inject_Z k) / m == x / m + inject_Z k)%Q) by (field; lra).
  rewrite (Qfloor_comp _ _ E), Qfloor_add_Z, inject_Z_plus. ring.
Qed.

Lemma sign_index_range (x : Q) :
  (0 <= x)%Q -> (x < 360)%Q -> 0 <= py_int (x / 30) < 12.
Proof.
  intros H0 H1.
  assert (Hq : (0 <= x / 30)%Q) by (apply Qle_shift_div_l; lra).
  rewrite (py_int_nonneg _ Hq).
  apply Qfloor_range; [exact Hq |]. change (inject_Z 12) with 12%Q.
  apply Qlt_shift_div_r; lra.
Qed.

Lemma sign_lord_table (s : Z) :
  0 <= s < 12 ->
  exists sign_lord,
    SIGN_LORD_MAP !! s = Some sign_lord /\
    In sign_lord ["Sun"; "Moon"; "Mars"; "Mercury"; "Jupiter"; "Venus"; "Saturn"]%string.
Proof.
  intros Hs. range_cases s Hs 12%nat; eexists;
    (split; [vm_compute; reflexivity | simpl; tauto]).
Qed.


Lemma navamsa_sign (lon : Q) :
  exists s, 0 <= s < 12 /\ get_navamsa_longitude lon = s * 30 + 15.
Proof.
  unfold get_navamsa_longitude. cbv zeta.
  eexists. split; [| reflexivity]. apply Z.mod_pos_bound. lia.
Qed.


(** X: the 50th-harmonic longitude repeats every 7 degrees 12 minutes
    (360 / 50) of the input, for inputs of either sign; in particular it
    is unchanged when the input is shifted by whole turns. *)
Theorem get_d50_longitude_period (lon : Q) (k : Z) :
  (get_d50_longitude (lon + (36 # 5) * inject_Z k) == get_d50_longitude lon)%Q /\
  (get_d50_longitude (lon + 360 * inject_Z k) == get_d50_longitude lon)%Q.
Proof.
  unfold get_d50_longitude. cbv zeta. split.
  - rewrite <- (py_fmod_add_period (lon * 50) 360 k) by lra.
    apply py_fmod_comp. ring.
  - rewrite <- (py_fmod_add_period (lon * 50) 360 (50 * k)) by lra.
    apply py_fmod_comp. rewrite inject_Z_mult. ring.
Qed.



Lemma Qltb_comp (x x' y y' : Q) :
  (x == x')%Q -> (y == y')%Q -> Qltb x y = Qltb x' y'.
Proof. intros Hx Hy. unfold Qltb. rewrite Hx, Hy. reflexivity. Qed.

Lemma Qleb_comp' (x x' y y' : Q) :
  (x == x')%Q -> (y == y')%Q -> Qleb x y = Qleb x' y'.
Proof. intros Hx Hy. unfold Qleb. rewrite Hx, Hy. reflexivity. Qed.

Lemma sub_lord_loop_comp (idxs : list Z) (k : Z) (cum cum' : Q) :
  (cum == cum')%Q ->
  forall c, sub_lord_loop idxs k cum c = sub_lord_loop idxs k cum' c.
Proof.
  intros E. induction idxs as [| i rest IH]; intros c; [reflexivity |].
  cbn [sub_lord_loop].
  destruct (list_item NAKSHATRA_LORDS ((k + i) mod 9)) as [l | |];
    cbn [mbind res_bind]; [| reflexivity | reflexivity].
  destruct (dict_item DASHA_PERIODS l) as [p | |];
    cbn [mbind res_bind]; [| reflexivity | reflexivity].
  rewrite (Qltb_comp cum cum' _ (inject_Z (c + p)) E) by reflexivity.
  rewrite IH. reflexivity.
Qed.

Lemma get_nakshatra_and_pada_comp (a b : Q) :
  (py_fmod a 360 == py_fmod b 360)%Q ->
  get_nakshatra_and_pada a = get_nakshatra_and_pada b.
Proof.
  intros E. unfold get_nakshatra_and_pada. cbv zeta.
  set (l := py_fmod a 360) in *. set (l' := py_fmod b 360) in *.
  clearbody l l'.
  assert (Ek : py_int (l / nakshatra_span) = py_int (l' / nakshatra_span))
    by (apply py_int_comp; rewrite E; reflexivity).
  rewrite Ek.
  destruct (list_item NAKSHATRA_NAMES _) as [nm | |];
    cbn [mbind res_bind]; [| reflexivity | reflexivity].
  set (c := py_int (l' / nakshatra_span) mod 27).
  assert (Ep : ((l - inject_Z c * nakshatra_span) / (nakshatra_span / 4) ==
                (l' - inject_Z c * nakshatra_span) / (nakshatra_span / 4))%Q)
    by (rewrite E; reflexivity).
  rewrite (py_int_comp _ _ Ep). reflexivity.
Qed.

Lemma get_star_sub_lord_comp (a b : Q) :
  (py_fmod a 360 == py_fmod b 360)%Q ->
  get_star_sub_lord a = get_star_sub_lord b.
Proof.
  intros E. unfold get_star_sub_lord, star_lord_cumulative. cbv zeta.
  set (l := py_fmod a 360) in *. set (l' := py_fmod b 360) in *.
  clearbody l l'.
  assert (Ek : py_int (l / nakshatra_span) = py_int (l' / nakshatra_span))
    by (apply py_int_comp; rewrite E; reflexivity).
  rewrite Ek.
  destruct (list_item NAKSHATRA_LORDS _) as [star | |];
    cbn [mbind res_bind]; [| reflexivity | reflexivity].
  destruct (list_index star _) as [i | |];
    cbn [mbind res_bind]; [| reflexivity | reflexivity].
  set (c := py_int (l' / nakshatra_span) mod 27).
  assert (Ec : ((l - inject_Z c * nakshatra_span) / nakshatra_span * 120 ==
                (l' - inject_Z c * nakshatra_span) / nakshatra_span * 120)%Q)
    by (rewrite E; reflexivity).
  rewrite (sub_lord_loop_comp range9 i _ _ Ec). reflexivity.
Qed.

(** X: the nakshatra, the pada, the star lord and the sub lord of a
    longitude do not change when whole turns of 360 degrees are added or
    removed, whatever the sign of the longitude (the longitude is reduced
    modulo 360 first; [get_sign_name] does not do so). *)
Theorem resolver_wrap_invariant (lon : Q) (k : Z) :
  get_nakshatra_and_pada (lon + 360 * inject_Z k) = get_nakshatra_and_pada lon /\
  get_star_sub_lord (lon + 360 * inject_Z k) = get_star_sub_lord lon.
Proof.
  pose proof (py_fmod_add_period lon 360 k ltac:(lra)) as E.
  split.
  - apply get_nakshatra_and_pada_comp. exact E.
  - apply get_star_sub_lord_comp. exact E.
Qed.

(** ** Significator engine *)

Lemma set_add_In (x : Z) (s : list Z) (y : Z) :
  In y (set_add x s) <-> y = x \/ In y s.
Proof.
  induction s as [| a s IH]; simpl.
  - intuition auto.
  - destruct (x <? a) eqn:E1; [simpl; intuition auto |].
    destruct (x =? a) eqn:E2.
    + apply Z.eqb_eq in E2. subst a. simpl. intuition auto.
    + simpl. rewrite IH. intuition auto.
Qed.

Lemma set_add_sorted (x : Z) (s : list Z) :
  StronglySorted Z.lt s -> StronglySorted Z.lt (set_add x s).
Proof.
  induction s as [| a s IH]; intros Hs; simpl.
  - repeat constructor.
  - inversion Hs as [| ? ? Hs' Hall]; subst.
    destruct (x <? a) eqn:E1.
    + apply Z.ltb_lt in E1. constructor; [exact Hs |].
      constructor; [exact E1 |].
      eapply Forall_impl; [exact Hall |]. simpl. intros; lia.
    + destruct (x =? a) eqn:E2; [exact Hs |].
      apply Z.ltb_ge in E1. apply Z.eqb_neq in E2.
      constructor; [apply IH; exact Hs' |].
      apply Forall_forall. intros y Hy. apply list_elem_of_In, set_add_In in Hy.
      destruct Hy as [-> | Hy]; [lia |].
      rewrite Forall_forall in Hall. apply Hall, list_elem_of_In. exact Hy.
Qed.

(** The 12-cusp loop of [get_significators]: it adds to the set the house
    of every cusp whose sign is owned by the target lord. *)
Lemma cusp_lord_loop_spec (cusps : list Q) (target : option string) :
  length cusps = 12%nat ->
  forall (idxs : list Z) (acc : list Z),
    (forall i, In i idxs -> 0 <= i < 12) ->
    exists acc',
      cusp_lord_loop idxs cusps target acc = Ok acc' /\
      (StronglySorted Z.lt acc -> StronglySorted Z.lt acc') /\
      forall y, In y acc' <->
                In y acc \/
                exists i c, In i idxs /\ cusps !! Z.to_nat i = Some c /\
                            y = i + 1 /\ SIGN_LORD_MAP !! py_int (c / 30) = target.
Proof.
  intros Hlen. induction idxs as [| i rest IH]; intros acc Hidx.
  - exists acc. split; [reflexivity |]. split; [auto |].
    intros y. split; [auto |]. intros [H | (i & c & [] & _)]. exact H.
  - assert (Hi : 0 <= i < 12) by (apply Hidx; left; reflexivity).
    destruct (lookup_lt_is_Some_2 cusps (Z.to_nat i)) as [c Hc]; [lia |].
    cbn [cusp_lord_loop]. rewrite (list_item_lookup cusps i c) by (lia || exact Hc).
    cbn [mbind res_bind].
    destruct (IH (if bool_decide (SIGN_LORD_MAP !! py_int (c / 30) = target)
                  then set_add (i + 1) acc else acc))
      as (acc' & Hrun & Hsorted & Hmem).
    { intros j Hj. apply Hidx. right. exact Hj. }
    exists acc'. split; [exact Hrun |]. split.
    + intros Hs. apply Hsorted. case_bool_decide; [apply set_add_sorted |]; exact Hs.
    + intros y. rewrite Hmem. split.
      * intros [Hy | (j & d & Hj & Hd & -> & Hl)].
        -- case_bool_decide as Hdec.
           ++ apply set_add_In in Hy. destruct Hy as [-> | Hy]; [| left; exact Hy].
              right. exists i, c. simpl. auto.
           ++ left. exact Hy.
        -- right. exists j, d. simpl. auto.
      * intros [Hy | (j & d & [<- | Hj] & Hd & -> & Hl)].
        -- left. case_bool_decide; [apply set_add_In; right |]; exact Hy.
        -- left. rewrite Hc in Hd. injection Hd as <-.
           rewrite bool_decide_eq_true_2 by exact Hl.
           apply set_add_In. left. reflexivity.
        -- right. exists j, d. auto.
Qed.

Lemma get_star_sub_lord_ok (lon : Q) :
  exists star sub, get_star_sub_lord lon = Ok (star, sub).
Proof.
  destruct (star_lord_cumulative_ok lon) as (star & k & cum & Hsc & Hk & _ & Hcum).
  destruct (sub_lord_loop_found k cum Hk Hcum) as (sub & Hloop & _).
  exists star, sub. unfold get_star_sub_lord.
  rewrite Hsc. cbn [mbind res_bind]. rewrite Hloop. reflexivity.
Qed.

Lemma house_set_sorted (h : Z) :
  StronglySorted Z.lt (if 0 <? h then [h] else []).
Proof. destruct (0 <? h); repeat constructor. Qed.

(** The loop started from the set holding the occupied house. *)
Lemma cusp_lord_loop_from_house (cusps : list Q) (target : option string) (h : Z) :
  length cusps = 12%nat -> 1 <= h <= 12 ->
  exists s,
    cusp_lord_loop range12 cusps target (if 0 <? h then [h] else []) = Ok s /\
    StronglySorted Z.lt s /\
    forall y, In y s <->
              y = h \/
              exists i c, 0 <= i < 12 /\ cusps !! Z.to_nat i = Some c /\
                          y = i + 1 /\ SIGN_LORD_MAP !! py_int (c / 30) = target.
Proof.
  intros Hlen Hh.
  destruct (cusp_lord_loop_spec cusps target Hlen range12
              (if 0 <? h then [h] else []))
    as (s & Hrun & Hsorted & Hmem).
  { intros i Hi. apply In_range12. exact Hi. }
  exists s. split; [exact Hrun |]. split; [apply Hsorted, house_set_sorted |].
  intros y. rewrite Hmem.
  replace (0 <? h) with true by (symmetry; apply Z.ltb_lt; lia).
  simpl (In y [h]).
  split.
  - intros [[<- | []] | (i & c & Hi & H)]; [left; reflexivity |].
    right. exists i, c. rewrite <- In_range12. auto.
  - intros [-> | (i & c & Hi & H)]; [left; left; reflexivity |].
    right. exists i, c. rewrite In_range12. auto.
Qed.

(** X: with 12 cusps [get_significators] always returns a list: the
    sorted star-level houses followed by the sorted planet-level houses,
    all between 1 and 12.  The planet-level part holds exactly the house
    the planet occupies and the houses whose cusp falls in a sign with the
    same lord as the planet's sign. *)
Theorem get_significators_houses (planet_lon : Q) (all_cusps : list Q)
    (chart_planets : gmap string Q) :
  length all_cusps = 12%nat ->
  exists (s1_s2 s3_s4 : list Z) (planet_house : Z),
    get_significators planet_lon all_cusps chart_planets = Ok (s1_s2 ++ s3_s4) /\
    find_house_index planet_lon all_cusps = Ok planet_house /\
    StronglySorted Z.lt s1_s2 /\ StronglySorted Z.lt s3_s4 /\
    (forall y, In y (s1_s2 ++ s3_s4) -> 1 <= y <= 12) /\
    (forall y, In y s3_s4 <->
               y = planet_house \/
               exists i c, 0 <= i < 12 /\ all_cusps !! Z.to_nat i = Some c /\
                           y = i + 1 /\
                           SIGN_LORD_MAP !! py_int (c / 30)
                           = SIGN_LORD_MAP !! py_int (planet_lon / 30)).
Proof.
  intros Hlen.
  destruct (get_star_sub_lord_ok planet_lon) as (star & sub & Hss).
  destruct (find_house_index_in_range all_cusps planet_lon Hlen) as (h & Hh & Hhr).
  destruct (cusp_lord_loop_from_house all_cusps
              (SIGN_LORD_MAP !! py_int (planet_lon / 30)) h Hlen Hhr)
    as (s34 & Hrun34 & Hsorted34 & Hmem34).
  assert (H12 : exists s12,
    match (if Smem star ["Rahu"; "Ketu"]%string
           then match chart_planets !! star with
                | Some node_sign_lon => SIGN_LORD_MAP !! py_int (node_sign_lon / 30)
                | None => None
                end
           else Some star) with
    | Some star_lord =>
        match chart_planets !! star_lord with
        | Some star_lord_lon =>
            star_lord_house ← find_house_index star_lord_lon all_cusps;
            cusp_lord_loop range12 all_cusps (Some star_lord)
              (if 0 <? star_lord_house then [star_lord_house] else [])
        | None => Ok []
        end
    | None => Ok []
    end = Ok s12 /\ StronglySorted Z.lt s12 /\ forall y, In y s12 -> 1 <= y <= 12).
  { destruct (if Smem star ["Rahu"; "Ketu"]%string then _ else _) as [sl |];
      [| exists []; split; [reflexivity |]; split; [constructor | intros y []]].
    destruct (chart_planets !! sl) as [sl_lon |];
      [| exists []; split; [reflexivity |]; split; [constructor | intros y []]].
    destruct (find_house_index_in_range all_cusps sl_lon Hlen) as (h' & Hh' & Hhr').
    rewrite Hh'. cbn [mbind res_bind].
    destruct (cusp_lord_loop_from_house all_cusps (Some sl) h' Hlen Hhr')
      as (s12 & Hrun12 & Hsorted12 & Hmem12).
    exists s12. split; [exact Hrun12 |]. split; [exact Hsorted12 |].
    intros y Hy. apply Hmem12 in Hy.
    destruct Hy as [-> | (i & c & Hi & _ & -> & _)]; lia. }
  destruct H12 as (s12 & Hrun12 & Hsorted12 & Hrange12).
  exists s12, s34, h.
  split.
  - unfold get_significators. rewrite Hss. cbn [mbind res_bind]. cbv zeta.
    rewrite Hrun12. cbn [mbind res_bind]. rewrite Hh. cbn [mbind res_bind].
    rewrite Hrun34. reflexivity.
  - split; [exact Hh |]. split; [exact Hsorted12 |]. split; [exact Hsorted34 |].
    split; [| exact Hmem34].
    intros y Hy. apply in_app_or in Hy. destruct Hy as [Hy | Hy]; [auto |].
    apply Hmem34 in Hy. destruct Hy as [-> | (i & c & Hi & _ & -> & _)]; lia.
Qed.

Lemma get_significators_houses_witness :
  exists (s1_s2 s3_s4 : list Z) (planet_house : Z),
    get_significators 40 sign_aligned_cusps bodies_native1 = Ok (s1_s2 ++ s3_s4) /\
    find_house_index 40 sign_aligned_cusps = Ok planet_house /\
    StronglySorted Z.lt s1_s2 /\ StronglySorted Z.lt s3_s4 /\
    (forall y, In y (s1_s2 ++ s3_s4) -> 1 <= y <= 12) /\
    (forall y, In y s3_s4 <->
               y = planet_house \/
               exists i c, 0 <= i < 12 /\ sign_aligned_cusps !! Z.to_nat i = Some c /\
                           y = i + 1 /\
                           SIGN_LORD_MAP !! py_int (c / 30)
                           = SIGN_LORD_MAP !! py_int (40 / 30)).
Proof.
  exact (get_significators_houses 40 sign_aligned_cusps bodies_native1 eq_refl).
Defined.

Lemma list_item_cases {A : Type} (l : list A) (i : Z) :
  (exists a, list_item l i = Ok a) \/ list_item l i = Raise IndexError.
Proof.
  unfold list_item.
  destruct ((if i <? 0 then Z.of_nat (length l) + i else i) <? 0); [right; reflexivity |].
  destruct (l !! _); [left; eexists; reflexivity | right; reflexivity].
Qed.

Lemma list_item_out_of_range {A : Type} (l : list A) (i : Z) :
  Z.of_nat (length l) <= i -> list_item l i = Raise IndexError.
Proof.
  intros Hi. unfold list_item.
  assert (E : (i <? 0) = false) by (apply Z.ltb_ge; lia).
  rewrite E. cbv iota. rewrite E.
  rewrite lookup_ge_None_2 by lia. reflexivity.
Qed.

Lemma find_house_loop_cases (idxs : list Z) (lon : Q) (cusps : list Q) :
  (exists h, find_house_loop idxs lon cusps = Ok h) \/
  find_house_loop idxs lon cusps = Raise IndexError.
Proof.
  induction idxs as [| i rest IH]; [left; eexists; reflexivity |].
  cbn [find_house_loop].
  destruct (list_item_cases cusps i) as [[s ->] | ->];
    cbn [mbind res_bind]; [| right; reflexivity].
  destruct (list_item_cases cusps ((i + 1) mod 12)) as [[e ->] | ->];
    cbn [mbind res_bind]; [| right; reflexivity].
  destruct (Qltb s e).
  - destruct (Qleb s lon && Qltb lon e); [left; eexists; reflexivity | exact IH].
  - destruct (Qleb s lon || Qltb lon e); [left; eexists; reflexivity | exact IH].
Qed.

Lemma cusp_lord_loop_short (cusps : list Q) (target : option string) :
  forall (idxs : list Z) (acc : list Z),
    (exists i, In i idxs /\ Z.of_nat (length cusps) <= i) ->
    cusp_lord_loop idxs cusps target acc = Raise IndexError.
Proof.
  induction idxs as [| i rest IH]; intros acc (j & Hj & Hlen); [destruct Hj |].
  cbn [cusp_lord_loop].
  destruct (list_item_cases cusps i) as [[c Hc] | ->];
    cbn [mbind res_bind]; [| reflexivity].
  rewrite Hc. cbn [mbind res_bind]. apply IH.
  destruct Hj as [<- | Hj]; [| exists j; auto].
  rewrite list_item_out_of_range in Hc by exact Hlen. discriminate Hc.
Qed.

Lemma get_significators_index_error (planet_lon : Q) (all_cusps : list Q)
    (chart_planets : gmap string Q) :
  (length all_cusps < 12)%nat ->
  get_significators planet_lon all_cusps chart_planets = Raise IndexError.
Proof.
  intros Hlen.
  assert (Hloop : forall target acc,
            cusp_lord_loop range12 all_cusps target acc = Raise IndexError).
  { intros target acc. apply cusp_lord_loop_short.
    exists 11. split; [apply In_range12 |]; lia. }
  destruct (get_star_sub_lord_ok planet_lon) as (star & sub & Hss).
  unfold get_significators. rewrite Hss. cbn [mbind res_bind]. cbv zeta.
  match goal with
  | |- mbind _ ?m = _ => assert (H12 : m = Ok [] \/ m = Raise IndexError)
  end.
  { destruct (if Smem star ["Rahu"; "Ketu"]%string then _ else _) as [sl |];
      [| left; reflexivity].
    destruct (chart_planets !! sl) as [sl_lon |]; [| left; reflexivity].
    right. unfold find_house_index.
    destruct (find_house_loop_cases range12 sl_lon all_cusps) as [[h ->] | ->];
      cbn [mbind res_bind]; [apply Hloop | reflexivity]. }
  destruct H12 as [-> | ->]; cbn [mbind res_bind]; [| reflexivity].
  unfold find_house_index.
  destruct (find_house_loop_cases range12 planet_lon all_cusps) as [[h ->] | ->];
    cbn [mbind res_bind]; [| reflexivity].
  rewrite Hloop. reflexivity.
Qed.

(** X: [get_significators] needs the 12 cusps.  With fewer it never
    returns: it raises [IndexError], whatever the planet and the chart, even
    when the house search itself stops at an early cusp; with 12 it raises
    nothing. *)
Theorem get_significators_short_cusps (planet_lon : Q) (all_cusps : list Q)
    (chart_planets : gmap string Q) :
  ((length all_cusps < 12)%nat ->
   get_significators planet_lon all_cusps chart_planets = Raise IndexError) /\
  (length all_cusps = 12%nat ->
   exists sigs, get_significators planet_lon all_cusps chart_planets = Ok sigs).
Proof.
  split.
  - apply get_significators_index_error.
  - intros Hlen.
    destruct (get_star_sub_lord_ok planet_lon) as (star & sub & Hss).
    destruct (find_house_index_in_range all_cusps planet_lon Hlen) as (h & Hh & Hhr).
    destruct (cusp_lord_loop_from_house all_cusps
                (SIGN_LORD_MAP !! py_int (planet_lon / 30)) h Hlen Hhr)
      as (s34 & Hrun34 & _).
    unfold get_significators. rewrite Hss. cbn [mbind res_bind]. cbv zeta.
    match goal with
    | |- exists sigs, mbind _ ?m = _ => assert (H12 : exists s12, m = Ok s12)
    end.
    { destruct (if Smem star ["Rahu"; "Ketu"]%string then _ else _) as [sl |];
        [| eauto].
      destruct (chart_planets !! sl) as [sl_lon |]; [| eauto].
      destruct (find_house_index_in_range all_cusps sl_lon Hlen) as (h' & -> & Hh').
      cbn [mbind res_bind].
      destruct (cusp_lord_loop_from_house all_cusps (Some sl) h' Hlen Hh')
        as (s12 & Hrun12 & _).
      eauto. }
    destruct H12 as [s12 ->]. cbn [mbind res_bind].
    rewrite Hh. cbn [mbind res_bind]. rewrite Hrun34. cbn [mbind res_bind]. eauto.
Qed.

Lemma get_significators_short_cusps_witness :
  get_significators 10 [0; 100; 200]%Q bodies_native1 = Raise IndexError.
Proof.
  apply (proj1 (get_significators_short_cusps 10 [0; 100; 200]%Q bodies_native1)).
  simpl. lia.
Defined.

(** ** Dosha evaluator *)

Lemma Zmem_In (x : Z) (l : list Z) : Zmem x l = true <-> In x l.
Proof.
  unfold Zmem. rewrite existsb_exists. split.
  - intros (y & Hy & E). apply Z.eqb_eq in E. subst y. exact Hy.
  - intros H. exists x. split; [exact H | apply Z.eqb_refl].
Qed.

Lemma Zmem_not_In (x : Z) (l : list Z) : Zmem x l = false <-> ~ In x l.
Proof.
  rewrite <- Zmem_In. destruct (Zmem x l); split; congruence.
Qed.

Lemma kuja_benefics_loop_reason (items : list (string * option Q))
    (mars_lon : Q) (m : Z) (r : bool * string) :
  kuja_benefics_loop items mars_lon m = Some r ->
  r.1 = true /\ String.prefix "Cancelled (" r.2 = true.
Proof.
  induction items as [| [name [ben |]] rest IH]; cbn [kuja_benefics_loop];
    [discriminate | | exact IH].
  destruct (_ || _); [intros [= <-]; split; reflexivity |].
  destruct (_ =? _); [intros [= <-]; split; reflexivity | exact IH].
Qed.

(** The outcomes of the cancellation ladder. *)
Lemma kuja_cancellation_reason_cases (mars_lon : Q) (planets d9_planets : gmap string Q)
    (moon_lon sun_lon : Q) :
  let r := check_kuja_cancellation mars_lon planets d9_planets moon_lon sun_lon in
  (r.1 = true /\ String.prefix "Cancelled (" r.2 = true) \/
  (r = (false, "Afflicted"%string) /\
   In (py_int (mars_lon / 30) mod 12) [1; 2; 5; 6; 10]).
Proof.
  cbv zeta. unfold check_kuja_cancellation. cbv zeta.
  pose proof (Z.mod_pos_bound (py_int (mars_lon / 30)) 12 ltac:(lia)) as Hm.
  set (m := py_int (mars_lon / 30) mod 12) in *.
  destruct (Zmem m PLANET_OWN_SIGN_Mars) eqn:E1; [left; split; reflexivity |].
  destruct (m =? PLANET_EXALTATION_Mars) eqn:E2; [left; split; reflexivity |].
  destruct (m =? PLANET_DEBILITATION_Mars) eqn:E3; [left; split; reflexivity |].
  destruct (Zmem m [4; 8; 11]) eqn:E4; [left; split; reflexivity |].
  assert (Hsign : In m [1; 2; 5; 6; 10]).
  { apply Zmem_not_In in E1, E4. apply Z.eqb_neq in E2, E3.
    unfold PLANET_OWN_SIGN_Mars, PLANET_EXALTATION_Mars, PLANET_DEBILITATION_Mars in *.
    simpl in *.
    assert (m = 1 \/ m = 2 \/ m = 5 \/ m = 6 \/ m = 10) by lia.
    intuition auto. }
  clear E1 E2 E3 E4.
  destruct (kuja_benefics_loop _ mars_lon m) as [r |] eqn:Eloop.
  { left. exact (kuja_benefics_loop_reason _ _ _ _ Eloop). }
  assert (Hd9 :
    let d9 :=
      match d9_planets !! "Mars"%string with
      | Some mars_d9_lon =>
          if Zmem (py_int (mars_d9_lon / 30)) PLANET_OWN_SIGN_Mars
          then (true, "Cancelled (Own Sign D9)"%string)
          else if py_int (mars_d9_lon / 30) =? PLANET_EXALTATION_Mars
               then (true, "Cancelled (Exalted D9)"%string)
          else if py_int (mars_d9_lon / 30) =? PLANET_DEBILITATION_Mars
               then (true, "Cancelled (Debilitated D9)"%string)
          else (false, "Afflicted"%string)
      | None => (false, "Afflicted"%string)
      end in
    (d9.1 = true /\ String.prefix "Cancelled (" d9.2 = true) \/
    d9 = (false, "Afflicted"%string)).
  { cbv zeta. destruct (d9_planets !! "Mars"%string) as [l |]; [| right; reflexivity].
    destruct (Zmem (py_int (l / 30)) _); [left; split; reflexivity |].
    destruct (py_int (l / 30) =? PLANET_EXALTATION_Mars); [left; split; reflexivity |].
    destruct (py_int (l / 30) =? PLANET_DEBILITATION_Mars);
      [left; split; reflexivity | right; reflexivity]. }
  cbv zeta in Hd9.
  destruct (planets !! "Jupiter"%string) as [jup |].
  - destruct (Zmem m _); [left; split; reflexivity |].
    destruct Hd9 as [H | H]; [left; exact H | right; split; [exact H | exact Hsign]].
  - destruct Hd9 as [H | H]; [left; exact H | right; split; [exact H | exact Hsign]].
Qed.

(** X: the flag and the reason returned by [check_kuja_cancellation]
    agree: the dosha is cancelled exactly when the reason is not
    "Afflicted", and then the reason starts with "Cancelled ("; and the
    dosha is left standing only when Mars is in Taurus, Gemini, Virgo,
    Libra or Aquarius (sign index 1, 2, 5, 6 or 10). *)
Theorem kuja_cancellation_reason (mars_lon : Q) (planets d9_planets : gmap string Q)
    (moon_lon sun_lon : Q) :
  let r := check_kuja_cancellation mars_lon planets d9_planets moon_lon sun_lon in
  (r.1 = false <-> r.2 = "Afflicted"%string) /\
  (r.1 = true <-> String.prefix "Cancelled (" r.2 = true) /\
  (r.1 = false -> In (py_int (mars_lon / 30) mod 12) [1; 2; 5; 6; 10]).
Proof.
  cbv zeta.
  destruct (kuja_cancellation_reason_cases mars_lon planets d9_planets moon_lon sun_lon)
    as [[H1 H2] | [H1 H2]].
  - rewrite H1. split; [| split].
    + split; [discriminate |]. intros E. rewrite E in H2. discriminate H2.
    + split; auto.
    + discriminate.
  - rewrite H1. cbn [fst snd]. split; [| split].
    + split; reflexivity.
    + split; discriminate.
    + intros _. exact H2.
Qed.


(** Two different literal keys. *)
Ltac key_neq := let E := fresh in intros E; discriminate E.

Lemma mars_total_lookup (a b c t : string) :
  (list_to_map [("Lagna"%string, a); ("Chandra"%string, b);
                ("Shukra"%string, c); ("Total"%string, t)] : gmap string string)
  !! "Total"%string = Some t.
Proof.
  cbn [list_to_map foldr fst snd curry uncurry].
  rewrite !lookup_insert_ne by key_neq.
  apply lookup_insert_eq.
Qed.

Lemma rahu_total_lookup (a b t : string) :
  (list_to_map [("Lagna"%string, a); ("Chandra"%string, b); ("Total"%string, t)]
   : gmap string string)
  !! "Total"%string = Some t.
Proof.
  cbn [list_to_map foldr fst snd curry uncurry].
  rewrite !lookup_insert_ne by key_neq.
  apply lookup_insert_eq.
Qed.

(** X: in the result of [check_doshas_from_points] the Mars total is
    "Afflicted" exactly when Mars is in house 2, 4, 7, 8 or 12 from the
    ascendant, the Moon or Venus and [check_kuja_cancellation] finds no
    cancellation; it is "Not Afflicted" exactly when none of the three
    counts is afflicted, and otherwise it is the cancellation reason.  The
    Rahu total is "Afflicted" exactly when Rahu is in house 1, 5 or 9 from
    the ascendant or the Moon. *)
Theorem dosha_totals (mars_house rahu_house moon_house venus_house : Z)
    (mars_lon : Q) (planets d9_planets : gmap string Q) (moon_lon sun_lon : Q) :
  let r := check_doshas_from_points mars_house rahu_house moon_house venus_house
             mars_lon planets d9_planets moon_lon sun_lon in
  let any_axis :=
    Zmem mars_house [2; 4; 7; 8; 12]
    || Zmem ((mars_house - moon_house + 12) mod 12 + 1) [2; 4; 7; 8; 12]
    || Zmem ((mars_house - venus_house + 12) mod 12 + 1) [2; 4; 7; 8; 12] in
  let cancel := check_kuja_cancellation mars_lon planets d9_planets moon_lon sun_lon in
  (r.1 !! "Total"%string = Some "Afflicted"%string
   <-> any_axis = true /\ cancel.1 = false) /\
  (r.1 !! "Total"%string = Some "Not Afflicted"%string <-> any_axis = false) /\
  (any_axis = true -> cancel.1 = true -> r.1 !! "Total"%string = Some cancel.2) /\
  (r.2 !! "Total"%string = Some "Afflicted"%string
   <-> Zmem rahu_house [1; 5; 9]
       || Zmem ((rahu_house - moon_house + 12) mod 12 + 1) [1; 5; 9] = true) /\
  (r.2 !! "Total"%string = Some "Not Afflicted"%string
   <-> Zmem rahu_house [1; 5; 9]
       || Zmem ((rahu_house - moon_house + 12) mod 12 + 1) [1; 5; 9] = false).
Proof.
  cbv zeta. unfold check_doshas_from_points. cbv zeta.
  pose proof (kuja_cancellation_reason_cases mars_lon planets d9_planets moon_lon sun_lon)
    as Hc.
  set (cancel := check_kuja_cancellation mars_lon planets d9_planets moon_lon sun_lon) in *.
  set (ax := Zmem mars_house [2; 4; 7; 8; 12] || _ || _).
  cbn [fst snd].
  split; [| split; [| split]].
  - destruct ax.
    + destruct cancel as [[|] reason]; cbn [fst snd] in *.
      * rewrite lookup_insert_eq. split; [| intros [_ H]; discriminate H].
        intros [= ->]. destruct Hc as [[_ H] | [H _]]; discriminate H.
      * rewrite lookup_insert_eq. split; auto.
    + rewrite mars_total_lookup. split; [discriminate | intros [H _]; discriminate H].
  - destruct ax.
    + destruct cancel as [[|] reason]; cbn [fst snd] in *;
        rewrite lookup_insert_eq; (split; [| discriminate]).
      * intros [= ->]. destruct Hc as [[_ H] | [H _]]; discriminate H.
      * discriminate.
    + rewrite mars_total_lookup. split; auto.
  - intros Hax Hcan. rewrite Hax. destruct cancel as [[|] reason]; cbn [fst snd] in *;
      [apply lookup_insert_eq | discriminate Hcan].
  - set (rl := Zmem rahu_house [1; 5; 9]).
    set (rc := Zmem ((rahu_house - moon_house + 12) mod 12 + 1) [1; 5; 9]).
    destruct rl, rc; cbn [afflicted_or_clean Smem existsb String.eqb Ascii.eqb Bool.eqb orb];
      rewrite ?lookup_insert_eq, ?rahu_total_lookup;
      (split; split; (reflexivity || discriminate || auto)).
Qed.

(** ** Compatibility aggregator: friendship of lords *)

(** The rows of the friendship table have no entry for a lord that has no
    row of its own. *)
Lemma parashari_rows_closed (lord1 lord2 : string) :
  GRAHA_MAITRI_PARASHARI !! lord1 = None ->
  default ∅ (GRAHA_MAITRI_PARASHARI !! lord2) !! lord1 = None.
Proof.
  intros H1.
  unfold GRAHA_MAITRI_PARASHARI in *.
  rewrite !list_to_map_cons, !list_to_map_nil in *.
  assert (Hne : lord1 <> "Sun"%string /\ lord1 <> "Moon"%string /\
                lord1 <> "Mars"%string /\ lord1 <> "Mercury"%string /\
                lord1 <> "Jupiter"%string /\ lord1 <> "Venus"%string /\
                lord1 <> "Saturn"%string).
  { repeat split; intros ->;
      rewrite ?lookup_insert_ne in H1 by key_neq;
      rewrite lookup_insert_eq in H1; discriminate H1. }
  destruct Hne as (N1 & N2 & N3 & N4 & N5 & N6 & N7).
  assert (Hrow : forall v1 v2 v3 v4 v5 v6 v7 : Z,
            (<["Sun"%string := v1]> (<["Moon"%string := v2]> (<["Mars"%string := v3]>
              (<["Mercury"%string := v4]> (<["Jupiter"%string := v5]>
                (<["Venus"%string := v6]> (<["Saturn"%string := v7]> ∅))))))
             : gmap string Z)
            !! lord1 = None).
  { intros. rewrite !lookup_insert_ne by congruence. apply lookup_empty. }
  clear H1.
  repeat match goal with
    | |- context [<[?k := _]> _ !! lord2] =>
        destruct (decide (k = lord2)) as [<- | ?];
        [rewrite lookup_insert_eq; cbn [default]; apply Hrow
        | rewrite lookup_insert_ne by assumption]
    end.
  rewrite lookup_empty. cbn [default]. apply lookup_empty.
Qed.

(** X: [check_parashari_friendship] is symmetric in its two lords, and a
    lord without a row in the friendship table (Rahu, Ketu, a missing
    value) is "Neutral" to every lord. *)
Theorem parashari_friendship_symmetric (lord1 lord2 : string) :
  check_parashari_friendship lord1 lord2 = check_parashari_friendship lord2 lord1 /\
  (GRAHA_MAITRI_PARASHARI !! lord1 = None ->
   check_parashari_friendship lord1 lord2 = "Neutral"%string).
Proof.
  split.
  - unfold check_parashari_friendship. cbv zeta.
    set (a := default 1 (default ∅ (GRAHA_MAITRI_PARASHARI !! lord1) !! lord2)).
    set (b := default 1 (default ∅ (GRAHA_MAITRI_PARASHARI !! lord2) !! lord1)).
    destruct (a =? 2), (b =? 2), (a =? 0), (b =? 0); reflexivity.
  - intros H1. unfold check_parashari_friendship. cbv zeta.
    rewrite (parashari_rows_closed lord1 lord2 H1).
    rewrite H1. cbn [default]. rewrite lookup_empty. reflexivity.
Qed.

(** ** Marriage promise and dasha potential *)

Lemma any_in_spec (houses sigs : list Z) :
  any_in houses sigs = true <-> exists h, In h houses /\ In h sigs.
Proof.
  unfold any_in. rewrite existsb_exists.
  split; intros (h & Hh & Hs); exists h; (split; [exact Hh |]); apply Zmem_In; exact Hs.
Qed.

Lemma any_in_ext (houses s1 s2 : list Z) :
  (forall h, In h s1 <-> In h s2) -> any_in houses s1 = any_in houses s2.
Proof.
  intros Hext.
  destruct (any_in houses s1) eqn:E1, (any_in houses s2) eqn:E2; try reflexivity.
  - apply any_in_spec in E1. destruct E1 as (h & Hh & Hs).
    assert (any_in houses s2 = true)
      by (apply any_in_spec; exists h; split; [exact Hh | apply Hext; exact Hs]).
    congruence.
  - apply any_in_spec in E2. destruct E2 as (h & Hh & Hs).
    assert (any_in houses s1 = true)
      by (apply any_in_spec; exists h; split; [exact Hh | apply Hext; exact Hs]).
    congruence.
Qed.

(** X: [check_dasha_marriage_potential] depends only on which houses
    occur in the significator list, not on their order or on repetitions
    (the list returned by [get_significators] can name a house twice); the
    empty list is "NEUTRAL", and a list with a house among 1, 6, 10 is never
    a "STRONG_PROMISE". *)
Theorem dasha_potential_by_membership (s1 s2 : list Z) :
  (forall h, In h s1 <-> In h s2) ->
  check_dasha_marriage_potential s1 = check_dasha_marriage_potential s2 /\
  check_dasha_marriage_potential [] = "NEUTRAL"%string /\
  (forall h, In h [1; 6; 10] -> In h s1 ->
             check_dasha_marriage_potential s1 <> "STRONG_PROMISE"%string).
Proof.
  intros Hext. split; [| split].
  - unfold check_dasha_marriage_potential. cbv zeta.
    rewrite (any_in_ext [2; 7; 11] s1 s2 Hext), (any_in_ext [1; 6; 10] s1 s2 Hext).
    reflexivity.
  - reflexivity.
  - intros h Hh Hs. unfold check_dasha_marriage_potential. cbv zeta.
    assert (E : any_in [1; 6; 10] s1 = true) by (apply any_in_spec; eauto).
    rewrite E. destruct (any_in [2; 7; 11] s1); cbn [andb negb]; discriminate.
Qed.

Lemma dasha_potential_by_membership_witness :
  check_dasha_marriage_potential [7; 2; 7] = check_dasha_marriage_potential [2; 7] /\
  check_dasha_marriage_potential [] = "NEUTRAL"%string /\
  (forall h, In h [1; 6; 10] -> In h [7; 2; 7] ->
             check_dasha_marriage_potential [7; 2; 7] <> "STRONG_PROMISE"%string).
Proof.
  apply (dasha_potential_by_membership [7; 2; 7] [2; 7]).
  intros h. simpl. tauto.
Defined.

(** X: the natal promise that [analyze_chart] computes from the 7th
    cusp sub-lord classifies the significators exactly as
    [check_dasha_marriage_potential] does, under other labels: "STRONG" for
    "STRONG_PROMISE", "MIXED" for "MIXED_RISK", "DENIAL" for "DENIAL_PERIOD"
    and "NEUTRAL" for "NEUTRAL". *)
Theorem promise_agrees_with_dasha_potential (cusps : list Q) (planets : gmap string Q)
    (seventh_sub : string) (csl_significators : list Z) (promise_verdict : string) :
  seventh_cusp_promise cusps planets
  = Ok (seventh_sub, csl_significators, promise_verdict) ->
  (promise_verdict = "STRONG"%string
   <-> check_dasha_marriage_potential csl_significators = "STRONG_PROMISE"%string) /\
  (promise_verdict = "MIXED"%string
   <-> check_dasha_marriage_potential csl_significators = "MIXED_RISK"%string) /\
  (promise_verdict = "DENIAL"%string
   <-> check_dasha_marriage_potential csl_significators = "DENIAL_PERIOD"%string) /\
  (promise_verdict = "NEUTRAL"%string
   <-> check_dasha_marriage_potential csl_significators = "NEUTRAL"%string).
Proof.
  unfold seventh_cusp_promise.
  destruct (list_item cusps 6) as [c | |]; cbn [mbind res_bind]; try discriminate.
  destruct (get_star_sub_lord c) as [[star sub] | |]; cbn [mbind res_bind];
    try discriminate.
  match goal with
  | |- mbind _ ?m = _ -> _ => destruct m as [sigs | |]
  end; cbn [mbind res_bind]; try discriminate.
  cbv zeta. intros H.
  assert (Hs : csl_significators = sigs) by congruence. subst csl_significators.
  assert (Hv : promise_verdict
               = if any_in [2; 7; 11] sigs && negb (any_in [1; 6; 10] sigs)
                 then "STRONG"%string
                 else if any_in [2; 7; 11] sigs && any_in [1; 6; 10] sigs
                      then "MIXED"%string
                 else if negb (any_in [2; 7; 11] sigs) && any_in [1; 6; 10] sigs
                      then "DENIAL"%string
                 else "NEUTRAL"%string) by congruence.
  rewrite Hv. clear H Hv.
  unfold check_dasha_marriage_potential. cbv zeta.
  destruct (any_in [2; 7; 11] sigs), (any_in [1; 6; 10] sigs); cbn [andb negb];
    (split; [| split; [| split]]);
    (split; intros E; (reflexivity || discriminate E)).
Qed.

Lemma promise_agrees_with_dasha_potential_witness :
  exists seventh_sub csl_significators promise_verdict,
    seventh_cusp_promise sign_aligned_cusps bodies_native1
    = Ok (seventh_sub, csl_significators, promise_verdict) /\
    (promise_verdict = "STRONG"%string
     <-> check_dasha_marriage_potential csl_significators = "STRONG_PROMISE"%string).
Proof.
  assert (H : seventh_cusp_promise sign_aligned_cusps bodies_native1
              = Ok ("Mercury"%string, [10; 11; 4], "MIXED"%string))
    by (vm_compute; reflexivity).
  eexists _, _, _. split; [exact H |].
  exact (proj1 (promise_agrees_with_dasha_potential _ _ _ _ _ H)).
Defined.

(** ** Dasha timeline: the walk and the lords at birth *)






(** ** Supplementary factors *)

Lemma supplementary_factors_forward (c1 c2 : AnalysisData.t) (t1 t2 : string)
    (lagna1 lagna2 : Q) :
  AnalysisData.mars_dosha_status c1 !! "Total"%string = Some t1 ->
  AnalysisData.mars_dosha_status c2 !! "Total"%string = Some t2 ->
  AnalysisData.cusps c1 !! 0%nat = Some lagna1 ->
  AnalysisData.cusps c2 !! 0%nat = Some lagna2 ->
  exists results,
    calculate_supplementary_factors c1 c2 = Ok results /\
    dom results = list_to_set supplementary_keys /\
    results !! "Kuja_Dosha_Parity"%string
    = Some (if Bool.eqb (String.eqb t1 "Afflicted") (String.eqb t2 "Afflicted")
            then "Matched (Dosha Parity)"%string
            else if String.eqb t1 "Afflicted"
                 then "Unmatched (Dosha in " +:+ AnalysisData.name c1 +:+ ")"
                 else "Unmatched (Dosha in " +:+ AnalysisData.name c2 +:+ ")").
Proof.
  intros H1 H2 H3 H4.
  unfold calculate_supplementary_factors. cbv zeta.
  unfold dict_item. rewrite H1, H2. cbn [mbind res_bind].
  rewrite (list_item_lookup (AnalysisData.cusps c1) 0 lagna1) by (lia || exact H3). cbn [mbind res_bind].
  rewrite (list_item_lookup (AnalysisData.cusps c2) 0 lagna2) by (lia || exact H4). cbn [mbind res_bind].
  set (b1 := String.eqb t1 "Afflicted"). set (b2 := String.eqb t2 "Afflicted").
  eexists. split; [reflexivity |]. split.
  - rewrite !dom_insert_L.
    assert (E : dom (if Bool.eqb b1 b2
                     then <["Kuja_Dosha_Parity"%string := "Matched (Dosha Parity)"%string]>
                            (∅ : gmap string string)
                     else if b1 && negb b2
                          then <["Kuja_Dosha_Parity"%string :=
                                   "Unmatched (Dosha in " +:+ AnalysisData.name c1 +:+ ")"]> ∅
                     else if b2 && negb b1
                          then <["Kuja_Dosha_Parity"%string :=
                                   "Unmatched (Dosha in " +:+ AnalysisData.name c2 +:+ ")"]> ∅
                     else <["Kuja_Dosha_Parity"%string := "Clean"%string]> ∅)
                = ({["Kuja_Dosha_Parity"%string]} : gset string)).
    { destruct b1, b2; cbn [Bool.eqb andb negb];
        rewrite dom_insert_L, dom_empty_L; apply (right_id_L ∅ (∪)). }
    rewrite E. unfold supplementary_keys. cbn [list_to_set foldr].
    set_solver.
  - rewrite !lookup_insert_ne by key_neq.
    destruct b1, b2; cbn [Bool.eqb andb negb]; apply lookup_insert_eq.
Qed.

Lemma supplementary_factors_errors (c1 c2 : AnalysisData.t) :
  (AnalysisData.mars_dosha_status c1 !! "Total"%string = None \/
   AnalysisData.mars_dosha_status c2 !! "Total"%string = None ->
   calculate_supplementary_factors c1 c2 = Raise KeyError) /\
  (is_Some (AnalysisData.mars_dosha_status c1 !! "Total"%string) ->
   is_Some (AnalysisData.mars_dosha_status c2 !! "Total"%string) ->
   AnalysisData.cusps c1 = [] \/ AnalysisData.cusps c2 = [] ->
   calculate_supplementary_factors c1 c2 = Raise IndexError).
Proof.
  unfold calculate_supplementary_factors. cbv zeta. unfold dict_item.
  split.
  - destruct (AnalysisData.mars_dosha_status c1 !! "Total"%string) as [t1 |];
      cbn [mbind res_bind]; [| reflexivity].
    destruct (AnalysisData.mars_dosha_status c2 !! "Total"%string) as [t2 |];
      cbn [mbind res_bind]; [| reflexivity].
    intros [H | H]; discriminate H.
  - intros [t1 ->] [t2 ->] Hc. cbn [mbind res_bind].
    destruct (AnalysisData.cusps c1) as [| lagna1 r1].
    + reflexivity.
    + change (list_item (lagna1 :: r1) 0) with (Ok lagna1). cbn [mbind res_bind].
      destruct Hc as [Hc | Hc]; [discriminate Hc |]. rewrite Hc. reflexivity.
Qed.

(** X: [calculate_supplementary_factors] returns a dict exactly when
    both charts carry a Mars dosha "Total" and a first cusp; a missing
    "Total" raises [KeyError] and, with both present, an empty cusp list
    raises [IndexError]. *)
Theorem supplementary_factors_defined (c1 c2 : AnalysisData.t) :
  ((exists results, calculate_supplementary_factors c1 c2 = Ok results)
   <-> is_Some (AnalysisData.mars_dosha_status c1 !! "Total"%string) /\
       is_Some (AnalysisData.mars_dosha_status c2 !! "Total"%string) /\
       AnalysisData.cusps c1 <> [] /\ AnalysisData.cusps c2 <> []) /\
  (AnalysisData.mars_dosha_status c1 !! "Total"%string = None \/
   AnalysisData.mars_dosha_status c2 !! "Total"%string = None ->
   calculate_supplementary_factors c1 c2 = Raise KeyError) /\
  (is_Some (AnalysisData.mars_dosha_status c1 !! "Total"%string) ->
   is_Some (AnalysisData.mars_dosha_status c2 !! "Total"%string) ->
   AnalysisData.cusps c1 = [] \/ AnalysisData.cusps c2 = [] ->
   calculate_supplementary_factors c1 c2 = Raise IndexError).
Proof.
  destruct (supplementary_factors_errors c1 c2) as [Hkey Hidx].
  split; [| split; assumption].
  split.
  - intros [results Hok].
    destruct (AnalysisData.mars_dosha_status c1 !! "Total"%string) as [t1 |] eqn:E1;
      [| rewrite Hkey in Hok by auto; discriminate Hok].
    destruct (AnalysisData.mars_dosha_status c2 !! "Total"%string) as [t2 |] eqn:E2;
      [| rewrite Hkey in Hok by auto; discriminate Hok].
    split; [eauto |]. split; [eauto |].
    split; intros Hc; rewrite Hidx in Hok by eauto; discriminate Hok.
  - intros ([t1 H1] & [t2 H2] & H3 & H4).
    destruct (AnalysisData.cusps c1) as [| lagna1 r1] eqn:E3; [congruence |].
    destruct (AnalysisData.cusps c2) as [| lagna2 r2] eqn:E4; [congruence |].
    destruct (supplementary_factors_forward c1 c2 t1 t2 lagna1 lagna2)
      as (results & Hok & _); try assumption.
    + rewrite E3. reflexivity.
    + rewrite E4. reflexivity.
    + eauto.
Qed.

(** X: a dict returned by [calculate_supplementary_factors] has exactly
    the 13 keys of [supplementary_keys], and its "Kuja_Dosha_Parity" is
    "Matched (Dosha Parity)" when the two Mars totals are both "Afflicted"
    or both not, and "Unmatched (Dosha in <name>)" with the name of the
    afflicted chart otherwise: the value "Clean" of the last branch is never
    produced. *)
Theorem supplementary_factors_result (c1 c2 : AnalysisData.t)
    (results : gmap string string) :
  calculate_supplementary_factors c1 c2 = Ok results ->
  dom results = list_to_set supplementary_keys /\
  exists t1 t2,
    AnalysisData.mars_dosha_status c1 !! "Total"%string = Some t1 /\
    AnalysisData.mars_dosha_status c2 !! "Total"%string = Some t2 /\
    results !! "Kuja_Dosha_Parity"%string
    = Some (if Bool.eqb (String.eqb t1 "Afflicted") (String.eqb t2 "Afflicted")
            then "Matched (Dosha Parity)"%string
            else if String.eqb t1 "Afflicted"
                 then "Unmatched (Dosha in " +:+ AnalysisData.name c1 +:+ ")"
                 else "Unmatched (Dosha in " +:+ AnalysisData.name c2 +:+ ")") /\
    results !! "Kuja_Dosha_Parity"%string <> Some "Clean"%string.
Proof.
  intros Hok.
  destruct (supplementary_factors_errors c1 c2) as [Hkey Hidx].
  destruct (AnalysisData.mars_dosha_status c1 !! "Total"%string) as [t1 |] eqn:E1;
    [| rewrite Hkey in Hok by auto; discriminate Hok].
  destruct (AnalysisData.mars_dosha_status c2 !! "Total"%string) as [t2 |] eqn:E2;
    [| rewrite Hkey in Hok by auto; discriminate Hok].
  destruct (AnalysisData.cusps c1) as [| lagna1 r1] eqn:E3;
    [rewrite Hidx in Hok by eauto; discriminate Hok |].
  destruct (AnalysisData.cusps c2) as [| lagna2 r2] eqn:E4;
    [rewrite Hidx in Hok by eauto; discriminate Hok |].
  destruct (supplementary_factors_forward c1 c2 t1 t2 lagna1 lagna2)
    as (results' & Hok' & Hdom & Hpar); try assumption.
  { rewrite E3. reflexivity. }
  { rewrite E4. reflexivity. }
  assert (results' = results) by congruence. subst results'.
  split; [exact Hdom |]. exists t1, t2.
  split; [reflexivity |]. split; [reflexivity |]. split; [exact Hpar |].
  rewrite Hpar.
  destruct (Bool.eqb _ _); [discriminate |].
  destruct (String.eqb t1 "Afflicted"); cbn [String.append]; discriminate.
Qed.

Lemma supplementary_factors_result_witness :
  dom supplementary_native12 = list_to_set supplementary_keys.
Proof.
  assert (H : calculate_supplementary_factors (Chart.analysis_data native1)
                (Chart.analysis_data native2) = Ok supplementary_native12)
    by (vm_cast_no_check (eq_refl (Ok supplementary_native12))).
  exact (proj1 (supplementary_factors_result _ _ _ H)).
Defined.

(** ** Planet-by-planet match tables *)

Lemma str_contains_friend_values :
  str_contains "Friend" "Great Friends" = true /\
  str_contains "Friend" "Friends" = true /\
  str_contains "Friend" "Great Enemies" = false /\
  str_contains "Friend" "Enemies" = false /\
  str_contains "Friend" "Neutral" = false /\
  str_contains "Friend" "-" = false.
Proof. repeat split; vm_compute; reflexivity. Qed.

Lemma parashari_friendship_values (lord1 lord2 : string) :
  In (check_parashari_friendship lord1 lord2)
     ["Great Friends"; "Friends"; "Great Enemies"; "Enemies"; "Neutral"]%string.
Proof.
  unfold check_parashari_friendship. cbv zeta.
  destruct (_ && _); [simpl; tauto |].
  destruct (_ || _); [simpl; tauto |].
  destruct (_ && _); [simpl; tauto |].
  destruct (_ || _); simpl; tauto.
Qed.

Lemma sign_lord_item (lon : Q) :
  (0 <= lon)%Q -> (lon < 360)%Q ->
  exists sign_lord,
    SIGN_LORD_MAP !! py_int (lon / 30) = Some sign_lord /\
    dict_item SIGN_LORD_MAP (py_int (lon / 30)) = Ok sign_lord.
Proof.
  intros H0 H1.
  destruct (sign_lord_table _ (sign_index_range lon H0 H1)) as (l & Hl & _).
  exists l. unfold dict_item. rewrite Hl. auto.
Qed.

Lemma sign_lord_missing (lon : Q) :
  (360 <= lon)%Q -> dict_item SIGN_LORD_MAP (py_int (lon / 30)) = Raise KeyError.
Proof.
  intros H.
  assert (Hq : (12 <= lon / 30)%Q) by (apply Qle_shift_div_l; lra).
  rewrite py_int_nonneg by lra.
  assert (Hf : 12 <= Qfloor (lon / 30)).
  { change 12 with (Qfloor (inject_Z 12)). apply Qfloor_resp_le. exact Hq. }
  unfold dict_item, SIGN_LORD_MAP.
  rewrite !list_to_map_cons, list_to_map_nil.
  rewrite !lookup_insert_ne by lia. rewrite lookup_empty. reflexivity.
Qed.

(** X: the rows of [get_chart_match_row].  The "Lagna" row is skipped
    ([None]) when the first dict has no "Lagna" and raises [KeyError] when
    only the second lacks it; for any other key a longitude missing on
    either side gives the row of dashes.  When both longitudes are present
    and lie in [[0, 360)] the row ends with the friendship of the two sign
    lords; when the first lies at or beyond 360 the sign lord lookup raises
    [KeyError]. *)
Theorem chart_match_row_cases (planet_key : string) (chart_dict1 chart_dict2 : gmap string Q) :
  (chart_dict1 !! "Lagna"%string = None ->
   get_chart_match_row "Lagna" chart_dict1 chart_dict2 = Ok None) /\
  (is_Some (chart_dict1 !! "Lagna"%string) -> chart_dict2 !! "Lagna"%string = None ->
   get_chart_match_row "Lagna" chart_dict1 chart_dict2 = Raise KeyError) /\
  (planet_key <> "Lagna"%string ->
   chart_dict1 !! planet_key = None \/ chart_dict2 !! planet_key = None ->
   get_chart_match_row planet_key chart_dict1 chart_dict2
   = Ok (Some [planet_key; "-"; "-"; "-"]%string)) /\
  (forall s1_lon s2_lon,
     chart_dict1 !! planet_key = Some s1_lon ->
     chart_dict2 !! planet_key = Some s2_lon ->
     (0 <= s1_lon)%Q -> (s1_lon < 360)%Q -> (0 <= s2_lon)%Q -> (s2_lon < 360)%Q ->
     exists lord1 lord2 display1 display2,
       SIGN_LORD_MAP !! py_int (s1_lon / 30) = Some lord1 /\
       SIGN_LORD_MAP !! py_int (s2_lon / 30) = Some lord2 /\
       get_chart_match_row planet_key chart_dict1 chart_dict2
       = Ok (Some [planet_key; display1; display2;
                   check_parashari_friendship lord1 lord2])) /\
  (forall s1_lon s2_lon,
     chart_dict1 !! planet_key = Some s1_lon ->
     chart_dict2 !! planet_key = Some s2_lon ->
     (360 <= s1_lon)%Q ->
     get_chart_match_row planet_key chart_dict1 chart_dict2 = Raise KeyError).
Proof.
  split; [| split; [| split; [| split]]].
  - intros H. unfold get_chart_match_row.
    change (String.eqb "Lagna" "Lagna") with true. cbv iota.
    rewrite H. reflexivity.
  - intros [l1 H1] H2. unfold get_chart_match_row.
    change (String.eqb "Lagna" "Lagna") with true. cbv iota.
    rewrite H1. unfold dict_item. rewrite H2. reflexivity.
  - intros Hne Hmiss. unfold get_chart_match_row.
    replace (String.eqb planet_key "Lagna") with false
      by (symmetry; apply String.eqb_neq; exact Hne).
    cbn [mbind res_bind].
    destruct (chart_dict1 !! planet_key) as [l1 |], (chart_dict2 !! planet_key) as [l2 |];
      try reflexivity.
    destruct Hmiss as [H | H]; discriminate H.
  - intros s1_lon s2_lon H1 H2 Ha Hb Hc Hd.
    destruct (sign_lord_item s1_lon Ha Hb) as (lord1 & Hl1 & Hi1).
    destruct (sign_lord_item s2_lon Hc Hd) as (lord2 & Hl2 & Hi2).
    destruct (get_sign_name_total s1_lon) as [sign1 Hs1].
    destruct (get_sign_name_total s2_lon) as [sign2 Hs2].
    exists lord1, lord2. unfold get_chart_match_row.
    assert (Hlons :
      (if String.eqb planet_key "Lagna"
       then match chart_dict1 !! "Lagna"%string with
            | Some s1 => s2 ← dict_item chart_dict2 "Lagna"%string;
                         Ok (Some (Some s1, Some s2))
            | None => Ok None
            end
       else Ok (Some (chart_dict1 !! planet_key, chart_dict2 !! planet_key)))
      = Ok (Some (Some s1_lon, Some s2_lon))).
    { destruct (String.eqb planet_key "Lagna") eqn:E.
      - apply String.eqb_eq in E. subst planet_key.
        rewrite H1. unfold dict_item. rewrite H2. reflexivity.
      - rewrite H1, H2. reflexivity. }
    rewrite Hlons. cbn [mbind res_bind].
    rewrite Hs1. cbn [mbind res_bind]. rewrite Hs2. cbn [mbind res_bind].
    rewrite Hi1. cbn [mbind res_bind]. rewrite Hi2. cbn [mbind res_bind].
    eexists _, _. split; [exact Hl1 |]. split; [exact Hl2 |]. reflexivity.
  - intros s1_lon s2_lon H1 H2 Hbig.
    destruct (get_sign_name_total s1_lon) as [sign1 Hs1].
    destruct (get_sign_name_total s2_lon) as [sign2 Hs2].
    unfold get_chart_match_row.
    assert (Hlons :
      (if String.eqb planet_key "Lagna"
       then match chart_dict1 !! "Lagna"%string with
            | Some s1 => s2 ← dict_item chart_dict2 "Lagna"%string;
                         Ok (Some (Some s1, Some s2))
            | None => Ok None
            end
       else Ok (Some (chart_dict1 !! planet_key, chart_dict2 !! planet_key)))
      = Ok (Some (Some s1_lon, Some s2_lon))).
    { destruct (String.eqb planet_key "Lagna") eqn:E.
      - apply String.eqb_eq in E. subst planet_key.
        rewrite H1. unfold dict_item. rewrite H2. reflexivity.
      - rewrite H1, H2. reflexivity. }
    rewrite Hlons. cbn [mbind res_bind].
    rewrite Hs1. cbn [mbind res_bind]. rewrite Hs2. cbn [mbind res_bind].
    rewrite (sign_lord_missing s1_lon Hbig). reflexivity.
Qed.

(** The outcomes of one row, as the counting loop uses them. *)
Lemma chart_match_row_outcome (planet_key : string) (d1 d2 : gmap string Q) :
  get_chart_match_row planet_key d1 d2 = Ok None \/
  (exists a b c,
      get_chart_match_row planet_key d1 d2 = Ok (Some [planet_key; a; b; c])) \/
  get_chart_match_row planet_key d1 d2 = Raise KeyError.
Proof.
  unfold get_chart_match_row.
  match goal with
  | |- mbind _ ?m = _ \/ _ =>
      assert (Hl : m = Ok None \/ (exists x y, m = Ok (Some (x, y)))
                   \/ m = Raise KeyError)
  end.
  { destruct (String.eqb planet_key "Lagna"); [| right; left; eauto].
    destruct (d1 !! "Lagna"%string); [| left; reflexivity].
    unfold dict_item. destruct (d2 !! "Lagna"%string); cbn [mbind res_bind];
      [right; left; eauto | right; right; reflexivity]. }
  destruct Hl as [-> | [(x & y & ->) | ->]]; cbn [mbind res_bind];
    [left; reflexivity | | right; right; reflexivity].
  destruct x as [l1 |], y as [l2 |]; try (right; left; eauto; fail).
  destruct (get_sign_name_total l1) as [sign1 ->].
  destruct (get_sign_name_total l2) as [sign2 ->]. cbn [mbind res_bind].
  unfold dict_item.
  destruct (SIGN_LORD_MAP !! py_int (l1 / 30)); cbn [mbind res_bind];
    [| right; right; reflexivity].
  destruct (SIGN_LORD_MAP !! py_int (l2 / 30)); cbn [mbind res_bind];
    [right; left; eauto | right; right; reflexivity].
Qed.

Lemma match_rows_loop_bounds (d1 d2 : gmap string Q) :
  forall (keys : list string) (count n : Z),
    match_rows_loop keys d1 d2 count = Ok n ->
    count <= n <= count + Z.of_nat (length keys).
Proof.
  induction keys as [| p rest IH]; intros count n H.
  - cbn [match_rows_loop] in H. injection H as <-. simpl. lia.
  - cbn [match_rows_loop] in H.
    destruct (chart_match_row_outcome p d1 d2) as [E | [(a & b & c & E) | E]];
      rewrite E in H; cbn [mbind res_bind] in H.
    + apply IH in H. cbn [length]. lia.
    + change (list_item [p; a; b; c] 3) with (Ok c) in H. cbn [mbind res_bind] in H.
      apply IH in H. cbn [length]. destruct (str_contains "Friend" c); lia.
    + discriminate H.
Qed.

Lemma build_match_table_bounds (is_d1 : bool) (chart1 chart2 : Chart.t)
    (dict1 dict2 : gmap string Q) (n : Z) :
  build_match_table is_d1 chart1 chart2 dict1 dict2 = Ok n -> 0 <= n <= 10.
Proof.
  unfold build_match_table. intros H.
  destruct is_d1.
  - destruct (list_item (AnalysisData.cusps (Chart.analysis_data chart1)) 0) as [l1 | |];
      cbn [mbind res_bind] in H; try discriminate H.
    destruct (list_item (AnalysisData.cusps (Chart.analysis_data chart2)) 0) as [l2 | |];
      cbn [mbind res_bind fst snd] in H; try discriminate H.
    apply match_rows_loop_bounds in H. simpl in H. lia.
  - cbn [mbind res_bind fst snd] in H.
    apply match_rows_loop_bounds in H. simpl in H. lia.
Qed.

(** X: a score returned by [build_match_table] lies between 0 and 10,
    the number of bodies compared, and the only exceptions the table can
    raise are [KeyError] and [IndexError]. *)
Theorem build_match_table_score (is_d1 : bool) (chart1 chart2 : Chart.t)
    (dict1 dict2 : gmap string Q) :
  (forall n, build_match_table is_d1 chart1 chart2 dict1 dict2 = Ok n -> 0 <= n <= 10) /\
  build_match_table is_d1 chart1 chart2 dict1 dict2 <> Raise TypeError /\
  build_match_table is_d1 chart1 chart2 dict1 dict2 <> Raise ValueError /\
  build_match_table is_d1 chart1 chart2 dict1 dict2 <> OutOfFuel.
Proof.
  assert (Hloop : forall keys d1 d2 count,
            match_rows_loop keys d1 d2 count <> Raise TypeError /\
            match_rows_loop keys d1 d2 count <> Raise ValueError /\
            match_rows_loop keys d1 d2 count <> OutOfFuel).
  { induction keys as [| p rest IH]; intros d1 d2 count; cbn [match_rows_loop];
      [repeat split; discriminate |].
    destruct (chart_match_row_outcome p d1 d2) as [E | [(a & b & c & E) | E]];
      rewrite E; cbn [mbind res_bind].
    - apply IH.
    - change (list_item [p; a; b; c] 3) with (Ok c). cbn [mbind res_bind]. apply IH.
    - repeat split; discriminate. }
  split; [intros n; apply build_match_table_bounds |].
  unfold build_match_table.
  destruct is_d1.
  - destruct (list_item_cases (AnalysisData.cusps (Chart.analysis_data chart1)) 0)
      as [[l1 ->] | ->]; cbn [mbind res_bind];
      [| repeat split; discriminate].
    destruct (list_item_cases (AnalysisData.cusps (Chart.analysis_data chart2)) 0)
      as [[l2 ->] | ->]; cbn [mbind res_bind fst snd];
      [| repeat split; discriminate].
    apply Hloop.
  - cbn [mbind res_bind fst snd]. apply Hloop.
Qed.

(** ** Compatibility report: the verdict *)

Ltac bind_inv H :=
  repeat match type of H with
    | mbind _ ?m = Ok _ =>
        let E := fresh "E" in
        destruct m eqn:E; cbn [mbind res_bind] in H;
        [| discriminate H | discriminate H]
    end.

Lemma Ok_inj {A : Type} (a b : A) : Ok a = Ok b -> a = b.
Proof. intros [= ->]. reflexivity. Qed.

Lemma count_if_bounds (b : bool) (n : Z) : n <= count_if b n <= n + 1.
Proof. destruct b; unfold count_if; lia. Qed.

(** What a returned report is made of: the intermediate results of the
    function and each field of the record in terms of them. *)
Lemma report_inversion (chart1 chart2 : Chart.t) (v : Verdict) :
  generate_compatibility_report chart1 chart2 = Ok v ->
  exists (supp : gmap string string) (natal b1 b2 b3 b4 b5 b6 b7 b8 b9 : bool),
    calculate_supplementary_factors (Chart.analysis_data chart1)
      (Chart.analysis_data chart2) = Ok supp /\
    natal_dosha_denial chart1 chart2 supp = Ok natal /\
    supplementary_results v = <["Dasha_Synchronization"%string := dasha_verdict v]> supp /\
    dasha_verdict v
    = (if denial_active chart1 || denial_active chart2 then
         "DENIAL: Current Dasha period strongly signifies denial houses (1, 6, 10)."
       else if natal && negb (marriage_support chart1 && marriage_support chart2) then
         "DENIAL: Severe natal affliction (unmatched Dosha) blocks marriage."
       else if marriage_support chart1 && marriage_support chart2 then
         "STRONGLY SUPPORTIVE: Dasha periods support marriage in both charts."
       else if marriage_support chart1 || marriage_support chart2 then
         "MIXED: Dasha supports marriage for only one native."
       else "WEAK/NEUTRAL: Current Dasha relies heavily on natal promise.")%string /\
    guna_score v
    = calculate_ashtakoota (Chart.analysis_data chart1) (Chart.analysis_data chart2) /\
    build_match_table true chart1 chart2
      (AnalysisData.planets (Chart.analysis_data chart1))
      (AnalysisData.planets (Chart.analysis_data chart2)) = Ok (d1_score v) /\
    build_match_table false chart1 chart2
      (AnalysisData.d9_planets (Chart.analysis_data chart1))
      (AnalysisData.d9_planets (Chart.analysis_data chart2)) = Ok (d9_score v) /\
    build_match_table false chart1 chart2
      (AnalysisData.d50_planets (Chart.analysis_data chart1))
      (AnalysisData.d50_planets (Chart.analysis_data chart2)) = Ok (d50_score v) /\
    kp_promise_status v
    = (if String.eqb (Chart.marriage_promise chart1) "DENIAL"
          || String.eqb (Chart.marriage_promise chart2) "DENIAL" then "DENIAL"
       else if String.eqb (Chart.marriage_promise chart1) "STRONG"
               && String.eqb (Chart.marriage_promise chart2) "STRONG" then "Strong"
       else if String.eqb (Chart.marriage_promise chart1) "MIXED"
               && String.eqb (Chart.marriage_promise chart2) "MIXED" then "Mixed"
       else "Average")%string /\
    kp_dasha_status v
    = (if String.prefix "DENIAL" (dasha_verdict v) then "DENIAL"
       else if String.prefix "STRONGLY SUPPORTIVE" (dasha_verdict v) then "Strong"
       else if Smem (dasha_verdict v) ["MIXED"; "WEAK/NEUTRAL"] then "Mixed"
       else "Good")%string /\
    good_factors v
    = count_if (5 <=? d50_score v) (count_if (5 <=? d9_score v) (count_if (5 <=? d1_score v)
        (count_if b9 (count_if b8 (count_if b7 (count_if b6 (count_if b5 (count_if b4
          (count_if b3 (count_if b2 (count_if b1 0))))))))))) /\
    fold_summary_status v
    = (if 9 <=? good_factors v then "Strong"%string
       else if good_factors v <? 6 then "Weak"%string else "Average"%string) /\
    final_verdict_text v
    = (if String.eqb (kp_promise_status v) "DENIAL"
          || String.eqb (kp_dasha_status v) "DENIAL"
          || (guna_score v <? 18)
          || String.eqb (fold_summary_status v) "Weak" then "TRY ANOTHER MATCH"%string
       else if negb (String.eqb (kp_promise_status v) "Strong")
               || negb (String.eqb (kp_dasha_status v) "Strong")
               || negb (String.eqb (fold_summary_status v) "Strong")
            then "PROCEED (With Caution)"%string
       else "PROCEED (Strongly Recommended)"%string) /\
    verdict_notes v <> [].
Proof.
  intros H. unfold generate_compatibility_report in H. cbv zeta in H.
  bind_inv H.
  match type of H with
  | (let '(_, _) := ?m in _) = _ => destruct m as [text notes] eqn:Efinal
  end.
  apply Ok_inj in H. subst v.
  cbn [supplementary_results guna_score dasha_verdict d1_score d9_score d50_score
       kp_promise_status kp_dasha_status good_factors fold_summary_status
       final_verdict_text verdict_notes].
  eexists _, _, _, _, _, _, _, _, _, _, _.
  do 12 (split; [first [eassumption | reflexivity] |]).
  clear - Efinal. revert Efinal.
  repeat match goal with
    | |- context [if _ then [?x] else []] =>
        tryif is_var x then fail else (generalize x; intro)
    end.
  repeat match goal with
    | |- context [if ?b then [_] else []] =>
        tryif is_var b then fail else (generalize b; intro)
    end.
  repeat match goal with
    | b : bool |- context [if ?b' then [_] else []] =>
        constr_eq b b'; destruct b
    end.
  all: cbn [app orb negb]; intros [= <- <-]; split; (reflexivity || discriminate).
Qed.

(** The five dasha verdicts and the status derived from each. *)
Lemma report_dasha_cases (chart1 chart2 : Chart.t) (v : Verdict) :
  generate_compatibility_report chart1 chart2 = Ok v ->
  (dasha_verdict v
   = "DENIAL: Current Dasha period strongly signifies denial houses (1, 6, 10)."%string /\
   kp_dasha_status v = "DENIAL"%string /\
   denial_active chart1 || denial_active chart2 = true) \/
  (dasha_verdict v
   = "DENIAL: Severe natal affliction (unmatched Dosha) blocks marriage."%string /\
   kp_dasha_status v = "DENIAL"%string /\
   denial_active chart1 || denial_active chart2 = false /\
   marriage_support chart1 && marriage_support chart2 = false) \/
  (dasha_verdict v
   = "STRONGLY SUPPORTIVE: Dasha periods support marriage in both charts."%string /\
   kp_dasha_status v = "Strong"%string /\
   denial_active chart1 || denial_active chart2 = false /\
   marriage_support chart1 && marriage_support chart2 = true) \/
  (dasha_verdict v = "MIXED: Dasha supports marriage for only one native."%string /\
   kp_dasha_status v = "Good"%string /\
   denial_active chart1 || denial_active chart2 = false /\
   marriage_support chart1 && marriage_support chart2 = false /\
   marriage_support chart1 || marriage_support chart2 = true) \/
  (dasha_verdict v
   = "WEAK/NEUTRAL: Current Dasha relies heavily on natal promise."%string /\
   kp_dasha_status v = "Good"%string /\
   denial_active chart1 || denial_active chart2 = false /\
   marriage_support chart1 || marriage_support chart2 = false).
Proof.
  intros H.
  destruct (report_inversion _ _ _ H)
    as (supp & natal & b1 & b2 & b3 & b4 & b5 & b6 & b7 & b8 & b9 & _ & _ & _
        & Hdv & _ & _ & _ & _ & _ & Hkds & _).
  rewrite Hkds, Hdv. clear.
  destruct (denial_active chart1 || denial_active chart2);
    [left; repeat split; reflexivity |].
  destruct (marriage_support chart1), (marriage_support chart2), natal;
    cbn [andb orb negb].
  all: first
    [ right; left; repeat split; reflexivity
    | right; right; left; repeat split; reflexivity
    | right; right; right; left; repeat split; reflexivity
    | right; right; right; right; repeat split; reflexivity ].
Qed.

(** X: in a returned report the "Dasha_Synchronization" entry of the
    supplementary results is the dasha verdict (the "Favorable" or
    "Unfavorable" that [calculate_supplementary_factors] stored is
    overwritten), and the dasha status is "DENIAL", "Strong" or "Good",
    never "Mixed": a verdict that starts with "MIXED" or "WEAK/NEUTRAL" is
    reported as "Good".  The status is "Strong" exactly when no denial
    period is active and the dasha supports marriage in both charts. *)
Theorem report_dasha_status (chart1 chart2 : Chart.t) (v : Verdict) :
  generate_compatibility_report chart1 chart2 = Ok v ->
  supplementary_results v !! "Dasha_Synchronization"%string = Some (dasha_verdict v) /\
  In (kp_dasha_status v) ["DENIAL"; "Strong"; "Good"]%string /\
  kp_dasha_status v <> "Mixed"%string /\
  (String.prefix "MIXED" (dasha_verdict v) || String.prefix "WEAK/NEUTRAL" (dasha_verdict v)
   = true -> kp_dasha_status v = "Good"%string) /\
  (kp_dasha_status v = "Strong"%string
   <-> denial_active chart1 || denial_active chart2 = false /\
       marriage_support chart1 && marriage_support chart2 = true).
Proof.
  intros H.
  destruct (report_inversion _ _ _ H)
    as (supp & natal & b1 & b2 & b3 & b4 & b5 & b6 & b7 & b8 & b9 & _ & _ & Hsupp & _).
  split; [rewrite Hsupp; apply lookup_insert_eq |].
  destruct (report_dasha_cases _ _ _ H)
    as [(Hd & Hk & Hc) | [(Hd & Hk & Hc & Hs) | [(Hd & Hk & Hc & Hs)
       | [(Hd & Hk & Hc & Hs & Hs') | (Hd & Hk & Hc & Hs)]]]];
    rewrite Hk, Hd; rewrite ?Hc, ?Hs.
  - split; [simpl; tauto |]. split; [discriminate |]. split; [discriminate |].
    split; [discriminate | intros [E _]; discriminate E].
  - split; [simpl; tauto |]. split; [discriminate |]. split; [discriminate |].
    split; [discriminate | intros [_ E]; discriminate E].
  - split; [simpl; tauto |]. split; [discriminate |]. split; [discriminate |].
    split; auto.
  - split; [simpl; tauto |]. split; [discriminate |]. split; [reflexivity |].
    split; [discriminate | intros [_ E]; discriminate E].
  - split; [simpl; tauto |]. split; [discriminate |]. split; [reflexivity |].
    split; [discriminate |]. intros [_ E].
    destruct (marriage_support chart1), (marriage_support chart2); discriminate.
Qed.

Lemma report_native12_ok :
  generate_compatibility_report native1 native2 = Ok report_native12.
Proof. vm_cast_no_check (eq_refl (Ok report_native12)). Qed.

Lemma report_dasha_status_witness :
  supplementary_results report_native12 !! "Dasha_Synchronization"%string
  = Some (dasha_verdict report_native12) /\
  kp_dasha_status report_native12 <> "Mixed"%string.
Proof.
  pose proof (report_dasha_status native1 native2 report_native12 report_native12_ok)
    as (H1 & _ & H2 & _).
  split; [exact H1 | exact H2].
Defined.

Lemma good_factors_bounds (x1 x2 x3 x4 x5 x6 x7 x8 x9 x10 x11 x12 : bool) :
  0 <= count_if x12 (count_if x11 (count_if x10 (count_if x9 (count_if x8 (count_if x7
         (count_if x6 (count_if x5 (count_if x4 (count_if x3 (count_if x2
           (count_if x1 0))))))))))) <= 12.
Proof.
  destruct x1, x2, x3, x4, x5, x6, x7, x8, x9, x10, x11, x12; vm_compute;
    split; discriminate.
Qed.

(** X: the final verdict of a returned report.  The scores are in
    range (Guna 0..36, each table 0..10, favourable factors 0..12).  The
    verdict is "TRY ANOTHER MATCH" exactly when a natal promise is "DENIAL",
    or the dasha status is "DENIAL", or the Guna score is below 18, or fewer
    than 6 factors are favourable; it is "PROCEED (Strongly Recommended)"
    exactly when both natal promises are "STRONG", the dasha status is
    "Strong", the Guna score is at least 18 and at least 9 factors are
    favourable; otherwise it is "PROCEED (With Caution)".  The notes are
    never empty. *)
Theorem report_verdict_ladder (chart1 chart2 : Chart.t) (v : Verdict) :
  generate_compatibility_report chart1 chart2 = Ok v ->
  (0 <= guna_score v <= 36 /\ 0 <= d1_score v <= 10 /\ 0 <= d9_score v <= 10 /\
   0 <= d50_score v <= 10 /\ 0 <= good_factors v <= 12) /\
  (final_verdict_text v = "TRY ANOTHER MATCH"%string
   <-> Chart.marriage_promise chart1 = "DENIAL"%string \/
       Chart.marriage_promise chart2 = "DENIAL"%string \/
       kp_dasha_status v = "DENIAL"%string \/
       guna_score v < 18 \/ good_factors v < 6) /\
  (final_verdict_text v = "PROCEED (Strongly Recommended)"%string
   <-> Chart.marriage_promise chart1 = "STRONG"%string /\
       Chart.marriage_promise chart2 = "STRONG"%string /\
       kp_dasha_status v = "Strong"%string /\
       18 <= guna_score v /\ 9 <= good_factors v) /\
  In (final_verdict_text v)
     ["TRY ANOTHER MATCH"; "PROCEED (With Caution)";
      "PROCEED (Strongly Recommended)"]%string /\
  verdict_notes v <> [].
Proof.
  intros H.
  destruct (report_inversion _ _ _ H)
    as (supp & natal & b1 & b2 & b3 & b4 & b5 & b6 & b7 & b8 & b9 & _ & _ & _ & _
        & Hguna & Hd1 & Hd9 & Hd50 & Hkps & _ & Hgf & Hfss & Hfinal & Hnotes).
  assert (Hkds : In (kp_dasha_status v) ["DENIAL"; "Strong"; "Good"]%string).
  { destruct (report_dasha_cases _ _ _ H)
      as [(_ & -> & _) | [(_ & -> & _) | [(_ & -> & _) | [(_ & -> & _) | (_ & -> & _)]]]];
      simpl; tauto. }
  assert (Hgfb : 0 <= good_factors v <= 12) by (rewrite Hgf; apply good_factors_bounds).
  split.
  { split; [rewrite Hguna; unfold calculate_ashtakoota; lia |].
    split; [exact (build_match_table_bounds _ _ _ _ _ _ Hd1) |].
    split; [exact (build_match_table_bounds _ _ _ _ _ _ Hd9) |].
    split; [exact (build_match_table_bounds _ _ _ _ _ _ Hd50) | exact Hgfb]. }
  split; [| split; [| split; [| exact Hnotes]]].
  3:{ rewrite Hfinal. destruct (_ || _ || _ || _); [simpl; tauto |].
      destruct (_ || _ || _); simpl; tauto. }
  all: rewrite Hfinal, Hfss, Hkps; clear Hfinal Hfss Hkps Hgf Hguna Hd1 Hd9 Hd50 H.
  all: set (p1 := Chart.marriage_promise chart1) in *;
       set (p2 := Chart.marriage_promise chart2) in *;
       set (g := guna_score v) in *; set (n := good_factors v) in *;
       set (k := kp_dasha_status v) in *; clearbody p1 p2 g n k.
  all: destruct (String.eqb_spec p1 "DENIAL") as [Ep1d | Ep1d];
       destruct (String.eqb_spec p2 "DENIAL") as [Ep2d | Ep2d];
       destruct (String.eqb_spec p1 "STRONG") as [Ep1s | Ep1s];
       destruct (String.eqb_spec p2 "STRONG") as [Ep2s | Ep2s];
       destruct (String.eqb_spec p1 "MIXED") as [Ep1m | Ep1m];
       destruct (String.eqb_spec p2 "MIXED") as [Ep2m | Ep2m];
       try congruence; cbn [andb orb negb String.eqb Ascii.eqb Bool.eqb].
  all: destruct (Z.leb_spec 9 n); destruct (Z.ltb_spec n 6); try lia;
       destruct (Z.ltb_spec g 18);
       cbn [andb orb negb String.eqb Ascii.eqb Bool.eqb].
  all: simpl in Hkds; destruct Hkds as [<- | [<- | [<- | []]]];
       cbn [andb orb negb String.eqb Ascii.eqb Bool.eqb].
  all: split; intros E; try discriminate E; try reflexivity;
       try (repeat split; (reflexivity || assumption || lia));
       try (intuition (congruence || lia)).
Qed.

Lemma report_verdict_ladder_witness :
  0 <= good_factors report_native12 <= 12 /\
  In (final_verdict_text report_native12)
     ["TRY ANOTHER MATCH"; "PROCEED (With Caution)";
      "PROCEED (Strongly Recommended)"]%string.
Proof.
  pose proof (report_verdict_ladder native1 native2 report_native12 report_native12_ok)
    as ((_ & _ & _ & _ & H1) & _ & _ & H2 & _).
  split; [exact H1 | exact H2].
Defined.

(** ** Chart analysis *)







(** ** What [analyze_chart] returns *)

Ltac chart_inv H :=
  repeat first
    [ match type of H with
      | mbind _ ?m = Ok _ =>
          let E := fresh "E" in
          destruct m eqn:E; cbn [mbind res_bind] in H;
          [| discriminate H | discriminate H]
      end
    | match type of H with
      | (let '(_, _) := ?p in _) = Ok _ =>
          let E := fresh "E" in destruct p eqn:E
      end ].

Lemma list_item_Ok_lookup {A : Type} (l : list A) (a : A) :
  list_item l 0 = Ok a -> l !! 0%nat = Some a.
Proof.
  unfold list_item. change (0 <? 0) with false. cbv iota.
  change (Z.to_nat 0) with 0%nat.
  destruct (l !! 0%nat); [intros [= ->]; reflexivity | discriminate].
Qed.

Lemma list_item_In {A : Type} (l : list A) (i : Z) (a : A) :
  list_item l i = Ok a -> In a l.
Proof.
  unfold list_item. destruct (_ <? 0); [discriminate |].
  destruct (l !! _) as [x |] eqn:E; [| discriminate].
  intros [= <-]. apply list_elem_of_In. eapply list_elem_of_lookup_2. exact E.
Qed.

Lemma dasha_loop_lord_In (days_of : string -> res Q) (target : Q) (fuel : nat) :
  forall p p' : DashaPeriod,
    dasha_loop days_of fuel target p = Ok p' ->
    In (lord p) DASHAS_LORDS -> In (lord p') DASHAS_LORDS.
Proof.
  induction fuel as [| fuel IH]; intros p p' H Hin; cbn [dasha_loop] in H;
    destruct (Qleb (end_jd p) target); try discriminate H;
    try (injection H as <-; exact Hin).
  destruct (list_item DASHAS_LORDS ((lord_index p + 1) mod 9)) as [l | |] eqn:El;
    cbn [mbind res_bind] in H; try discriminate H.
  destruct (days_of l) as [d | |]; cbn [mbind res_bind] in H; try discriminate H.
  apply (IH _ _ H). cbn [lord]. exact (list_item_In _ _ _ El).
Qed.

Lemma first_sub_period_lord_In (parent : string) (index : Z) (start : Q)
    (p : DashaPeriod) :
  first_sub_period parent index start = Ok p -> In (lord p) DASHAS_LORDS.
Proof.
  unfold first_sub_period.
  destruct (list_item DASHAS_LORDS index) as [l | |] eqn:El;
    cbn [mbind res_bind]; try discriminate.
  destruct (sub_period_days parent l) as [d | |]; cbn [mbind res_bind];
    try discriminate.
  intros [= <-]. cbn [lord]. exact (list_item_In _ _ _ El).
Qed.

Lemma list_index_In (x : string) (l : list string) (i : Z) :
  list_index x l = Ok i -> In x l.
Proof.
  revert i. induction l as [| y l IH]; intros i; cbn [list_index]; [discriminate |].
  destruct (String.eqb_spec y x) as [-> | Hne]; [intros _; left; reflexivity |].
  destruct (list_index x l) as [j | |]; cbn [mbind res_bind]; try discriminate.
  intros _. right. eapply IH. reflexivity.
Qed.

(** Whatever the fuel and the instants, the three lords returned by the
    dasha walk are among the nine dasha lords. *)
Lemma calculate_vimsottari_dasha_lords (fuel : nat) (birth_jd moon_lon target_jd : Q)
    (md_lord ad_lord pd_lord : string) :
  calculate_vimsottari_dasha fuel birth_jd moon_lon target_jd
  = Ok (md_lord, ad_lord, pd_lord) ->
  In md_lord DASHAS_LORDS /\ In ad_lord DASHAS_LORDS /\ In pd_lord DASHAS_LORDS.
Proof.
  unfold calculate_vimsottari_dasha, dasha_periods. cbv zeta. intros H.
  destruct (list_item NAKSHATRA_LORDS _) as [l0 | |]; cbn [mbind res_bind] in H;
    try discriminate H.
  destruct (list_index l0 DASHAS_LORDS) as [i0 | |] eqn:Ei;
    cbn [mbind res_bind] in H; try discriminate H.
  destruct (dict_item DASHA_PERIODS l0) as [y0 | |]; cbn [mbind res_bind] in H;
    try discriminate H.
  destruct (dasha_loop md_days fuel target_jd _) as [md | |] eqn:Emd;
    cbn [mbind res_bind] in H; try discriminate H.
  destruct (first_sub_period (lord md) (lord_index md) (start_jd md)) as [ad0 | |] eqn:Ea0;
    cbn [mbind res_bind] in H; try discriminate H.
  destruct (dasha_loop (sub_period_days (lord md)) fuel target_jd ad0) as [ad | |] eqn:Ead;
    cbn [mbind res_bind] in H; try discriminate H.
  destruct (first_sub_period (lord ad) (lord_index ad) (start_jd ad)) as [pd0 | |] eqn:Ep0;
    cbn [mbind res_bind] in H; try discriminate H.
  destruct (dasha_loop (sub_period_days (lord ad)) fuel target_jd pd0) as [pd | |] eqn:Epd;
    cbn [mbind res_bind] in H; try discriminate H.
  cbn [mahadasha antardasha pratyantardasha] in H.
  assert (Hm : md_lord = lord md) by congruence.
  assert (Ha : ad_lord = lord ad) by congruence.
  assert (Hp : pd_lord = lord pd) by congruence.
  subst. split; [| split].
  - apply (dasha_loop_lord_In _ _ _ _ _ Emd). cbn [lord].
    exact (list_index_In _ _ _ Ei).
  - apply (dasha_loop_lord_In _ _ _ _ _ Ead).
    exact (first_sub_period_lord_In _ _ _ _ Ea0).
  - apply (dasha_loop_lord_In _ _ _ _ _ Epd).
    exact (first_sub_period_lord_In _ _ _ _ Ep0).
Qed.

(** The entries of a returned chart in terms of the inputs. *)
Lemma analyze_chart_inversion (fuel : nat) (name : string) (jd : Q) (cusps : list Q)
    (planets0 : gmap string Q) (jd_today : Q) (c : Chart.t) :
  analyze_chart fuel name jd cusps planets0 jd_today = Ok c ->
  exists (lagna moon mars sun : Q) (mars_house rahu_house moon_house venus_house : Z)
         (seventh_sub : string),
    cusps !! 0%nat = Some lagna /\
    AnalysisData.cusps (Chart.analysis_data c) = cusps /\
    AnalysisData.planets (Chart.analysis_data c) = chart_planets planets0 lagna /\
    AnalysisData.d9_planets (Chart.analysis_data c)
    = (fun p_lon => inject_Z (get_navamsa_longitude p_lon)) <$> chart_planets planets0 lagna /\
    AnalysisData.d50_planets (Chart.analysis_data c)
    = get_d50_longitude <$> chart_planets planets0 lagna /\
    (Chart.mars_dosha_status c, Chart.rahu_dosha_status c)
    = check_doshas_from_points mars_house rahu_house moon_house venus_house mars
        (chart_planets planets0 lagna)
        ((fun p_lon => inject_Z (get_navamsa_longitude p_lon)) <$> chart_planets planets0 lagna)
        moon sun /\
    AnalysisData.mars_dosha_status (Chart.analysis_data c) = Chart.mars_dosha_status c /\
    seventh_cusp_promise cusps (chart_planets planets0 lagna)
    = Ok (seventh_sub, Chart.csl_significators c, Chart.marriage_promise c) /\
    AnalysisData.csl_significators (Chart.analysis_data c) = Chart.csl_significators c /\
    AnalysisData.marriage_promise (Chart.analysis_data c) = Chart.marriage_promise c /\
    Chart.moon_lon c = moon /\
    calculate_vimsottari_dasha fuel jd moon jd_today
    = Ok (Chart.md_lord c, Chart.ad_lord c, Chart.pd_lord c).
Proof.
  intros H. unfold analyze_chart in H. cbv zeta in H.
  destruct (list_item cusps 0) as [lagna | |] eqn:Elagna; cbn [mbind res_bind] in H;
    try discriminate H.
  fold (chart_planets planets0 lagna) in H.
  set (planets := chart_planets planets0 lagna) in *.
  set (d9_planets := (fun p_lon => inject_Z (get_navamsa_longitude p_lon)) <$> planets) in *.
  chart_inv H.
  repeat match type of H with
    | (let '(_, _) := ?p in _) = Ok _ => destruct p
    end.
  chart_inv H.
  repeat match type of H with
    | (let '(_, _) := ?p in _) = Ok _ => destruct p
    end.
  chart_inv H.
  apply Ok_inj in H. subst c.
  cbn [Chart.analysis_data Chart.mars_dosha_status Chart.rahu_dosha_status
       Chart.csl_significators Chart.marriage_promise Chart.moon_lon
       Chart.md_lord Chart.ad_lord Chart.pd_lord
       AnalysisData.cusps AnalysisData.planets AnalysisData.d9_planets
       AnalysisData.d50_planets AnalysisData.mars_dosha_status
       AnalysisData.csl_significators AnalysisData.marriage_promise].
  eexists lagna, _, _, _, _, _, _, _, _.
  split; [exact (list_item_Ok_lookup _ _ Elagna) |].
  do 4 (split; [reflexivity |]).
  split; [symmetry; eassumption |].
  split; [reflexivity |].
  split; [eassumption |].
  do 3 (split; [reflexivity |]).
  eassumption.
Qed.

Lemma promise_verdict_labels (cusps : list Q) (planets : gmap string Q)
    (seventh_sub : string) (csl_significators : list Z) (promise_verdict : string) :
  seventh_cusp_promise cusps planets
  = Ok (seventh_sub, csl_significators, promise_verdict) ->
  In promise_verdict ["STRONG"; "MIXED"; "DENIAL"; "NEUTRAL"]%string.
Proof.
  unfold seventh_cusp_promise.
  destruct (list_item cusps 6) as [c | |]; cbn [mbind res_bind]; try discriminate.
  destruct (get_star_sub_lord c) as [[star sub] | |]; cbn [mbind res_bind];
    try discriminate.
  match goal with
  | |- mbind _ ?m = _ -> _ => destruct m as [sigs | |]
  end; cbn [mbind res_bind]; try discriminate.
  cbv zeta. intros H.
  assert (Hv : promise_verdict
               = if any_in [2; 7; 11] sigs && negb (any_in [1; 6; 10] sigs)
                 then "STRONG"%string
                 else if any_in [2; 7; 11] sigs && any_in [1; 6; 10] sigs
                      then "MIXED"%string
                 else if negb (any_in [2; 7; 11] sigs) && any_in [1; 6; 10] sigs
                      then "DENIAL"%string
                 else "NEUTRAL"%string) by congruence.
  rewrite Hv.
  destruct (any_in [2; 7; 11] sigs), (any_in [1; 6; 10] sigs); simpl; tauto.
Qed.

Lemma dosha_totals_present (mars_house rahu_house moon_house venus_house : Z)
    (mars_lon : Q) (planets d9_planets : gmap string Q) (moon_lon sun_lon : Q) :
  let r := check_doshas_from_points mars_house rahu_house moon_house venus_house
             mars_lon planets d9_planets moon_lon sun_lon in
  is_Some (r.1 !! "Total"%string) /\ is_Some (r.2 !! "Total"%string).
Proof.
  cbv zeta. unfold check_doshas_from_points. cbv zeta. cbn [fst snd]. split.
  - destruct (_ || _ || _); [| rewrite mars_total_lookup; eauto].
    destruct (check_kuja_cancellation _ _ _ _ _) as [[|] reason];
      rewrite lookup_insert_eq; eauto.
  - destruct (Smem _ _); [rewrite lookup_insert_eq | rewrite rahu_total_lookup]; eauto.
Qed.

(** X: every chart returned by [analyze_chart] is well-formed: the
    natal promise is one of "STRONG", "MIXED", "DENIAL", "NEUTRAL"; the
    three dasha lords are among the nine lords of the cycle; both dosha
    dicts have their "Total"; the Mars dosha status and the significators of
    the 7th cusp sub-lord stored under [analysis_data] are those of the
    chart itself; and the stored cusps and planets are the inputs, with the
    ascendant stored under "Lagna". *)
Theorem analyzed_chart_invariants (fuel : nat) (name : string) (jd : Q) (cusps : list Q)
    (planets0 : gmap string Q) (jd_today : Q) (c : Chart.t) :
  analyze_chart fuel name jd cusps planets0 jd_today = Ok c ->
  In (Chart.marriage_promise c) ["STRONG"; "MIXED"; "DENIAL"; "NEUTRAL"]%string /\
  In (Chart.md_lord c) DASHAS_LORDS /\ In (Chart.ad_lord c) DASHAS_LORDS /\
  In (Chart.pd_lord c) DASHAS_LORDS /\
  is_Some (Chart.mars_dosha_status c !! "Total"%string) /\
  is_Some (Chart.rahu_dosha_status c !! "Total"%string) /\
  AnalysisData.mars_dosha_status (Chart.analysis_data c) = Chart.mars_dosha_status c /\
  AnalysisData.csl_significators (Chart.analysis_data c) = Chart.csl_significators c /\
  AnalysisData.cusps (Chart.analysis_data c) = cusps /\
  exists lagna,
    cusps !! 0%nat = Some lagna /\
    AnalysisData.planets (Chart.analysis_data c) = chart_planets planets0 lagna /\
    AnalysisData.planets (Chart.analysis_data c) !! "Lagna"%string = Some lagna.
Proof.
  intros H.
  destruct (analyze_chart_inversion _ _ _ _ _ _ _ H)
    as (lagna & moon & mars & sun & mh & rh & moh & vh & sub & Hlagna & Hcusps & Hplanets
        & _ & _ & Hdosha & Hmars & Hcsl & Hsigs & _ & _ & Hdasha).
  destruct (calculate_vimsottari_dasha_lords _ _ _ _ _ _ _ Hdasha) as (Hmd & Had & Hpd).
  pose proof (dosha_totals_present mh rh moh vh mars (chart_planets planets0 lagna)
                ((fun p_lon => inject_Z (get_navamsa_longitude p_lon))
                   <$> chart_planets planets0 lagna) moon sun) as Htot.
  cbv zeta in Htot. rewrite <- Hdosha in Htot. cbn [fst snd] in Htot.
  destruct Htot as [Ht1 Ht2].
  split; [exact (promise_verdict_labels _ _ _ _ _ Hcsl) |].
  do 3 (split; [assumption |]).
  do 5 (split; [assumption |]).
  exists lagna. split; [exact Hlagna |]. split; [exact Hplanets |].
  rewrite Hplanets. unfold chart_planets. apply lookup_insert_eq.
Qed.

Lemma analyzed_chart_invariants_witness :
  In (Chart.marriage_promise native1) ["STRONG"; "MIXED"; "DENIAL"; "NEUTRAL"]%string /\
  In (Chart.md_lord native1) DASHAS_LORDS.
Proof.
  pose proof (analyzed_chart_invariants 50 "Native1" 2448000 sign_aligned_cusps
                bodies_native1 2460000 native1 chart_native1_ok) as (H1 & H2 & _).
  split; [exact H1 | exact H2].
Defined.

(** ** The report on analysed charts *)

Lemma chart_match_row_total (planet_key : string) (d1 d2 : gmap string Q) :
  longitudes_in_range d1 -> longitudes_in_range d2 ->
  (is_Some (d1 !! "Lagna"%string) -> is_Some (d2 !! "Lagna"%string)) ->
  exists row, get_chart_match_row planet_key d1 d2 = Ok row /\
              (row = None \/ exists a b c, row = Some [planet_key; a; b; c]).
Proof.
  intros Hr1 Hr2 Hlagna.
  destruct (chart_match_row_outcome planet_key d1 d2) as [E | [(a & b & c & E) | E]];
    [eexists; split; [exact E | left; reflexivity]
    | eexists; split; [exact E | right; eauto] |].
  exfalso. revert E. unfold get_chart_match_row.
  match goal with
  | |- mbind _ ?m = _ -> _ =>
      assert (Hl : m = Ok None \/
                   (exists x y, m = Ok (Some (x, y)) /\
                                x = d1 !! (if String.eqb planet_key "Lagna"
                                           then "Lagna"%string else planet_key) /\
                                y = d2 !! (if String.eqb planet_key "Lagna"
                                           then "Lagna"%string else planet_key)))
  end.
  { destruct (String.eqb planet_key "Lagna"); [| right; eauto].
    destruct (d1 !! "Lagna"%string) as [l1 |] eqn:E1; [| left; reflexivity].
    destruct Hlagna as [l2 E2]; [eauto |].
    unfold dict_item. rewrite E2. cbn [mbind res_bind]. right. eauto. }
  destruct Hl as [-> | (x & y & -> & Hx & Hy)]; cbn [mbind res_bind]; [discriminate |].
  destruct x as [l1 |], y as [l2 |]; try discriminate.
  symmetry in Hx, Hy. apply Hr1 in Hx. apply Hr2 in Hy.
  destruct (get_sign_name_total l1) as [sign1 ->].
  destruct (get_sign_name_total l2) as [sign2 ->]. cbn [mbind res_bind].
  destruct (sign_lord_item l1) as (lord1 & _ & ->); [tauto | tauto |].
  cbn [mbind res_bind].
  destruct (sign_lord_item l2) as (lord2 & _ & ->); [tauto | tauto |].
  cbn [mbind res_bind]. discriminate.
Qed.

Lemma match_rows_loop_total (d1 d2 : gmap string Q) :
  longitudes_in_range d1 -> longitudes_in_range d2 ->
  (is_Some (d1 !! "Lagna"%string) -> is_Some (d2 !! "Lagna"%string)) ->
  forall (keys : list string) (count : Z),
    exists n, match_rows_loop keys d1 d2 count = Ok n.
Proof.
  intros Hr1 Hr2 Hlagna.
  induction keys as [| p rest IH]; intros count; cbn [match_rows_loop]; [eauto |].
  destruct (chart_match_row_total p d1 d2 Hr1 Hr2 Hlagna)
    as (row & -> & [-> | (a & b & c & ->)]); cbn [mbind res_bind]; [apply IH |].
  change (list_item [p; a; b; c] 3) with (Ok c). cbn [mbind res_bind]. apply IH.
Qed.

Lemma longitudes_in_range_insert (d : gmap string Q) (k : string) (l : Q) :
  (0 <= l)%Q -> (l < 360)%Q -> longitudes_in_range d ->
  longitudes_in_range (<[k := l]> d).
Proof.
  intros H0 H1 Hd body x. destruct (decide (k = body)) as [<- | Hne].
  - rewrite lookup_insert_eq. intros [= <-]. auto.
  - rewrite lookup_insert_ne by exact Hne. apply Hd.
Qed.

Lemma chart_planets_in_range (planets0 : gmap string Q) (lagna : Q) :
  (0 <= lagna)%Q -> (lagna < 360)%Q -> longitudes_in_range planets0 ->
  longitudes_in_range (chart_planets planets0 lagna).
Proof.
  intros H0 H1 Hd. unfold chart_planets.
  apply longitudes_in_range_insert; [exact H0 | exact H1 |].
  destruct (planets0 !! "Rahu"%string) as [rahu |]; [| exact Hd].
  destruct (py_fmod_bounds (rahu + 180) 360 ltac:(lra)).
  apply longitudes_in_range_insert; assumption.
Qed.

Lemma navamsa_chart_in_range (d : gmap string Q) :
  longitudes_in_range ((fun p_lon => inject_Z (get_navamsa_longitude p_lon)) <$> d).
Proof.
  intros body x. rewrite lookup_fmap.
  destruct (d !! body) as [l |]; cbn [fmap option_fmap option_map]; [| discriminate].
  intros [= <-]. destruct (navamsa_sign l) as (s & Hs & ->).
  rewrite inject_Z_plus, inject_Z_mult.
  assert (H0 : (0 <= inject_Z s)%Q)
    by (change 0%Q with (inject_Z 0); rewrite <- Zle_Qle; lia).
  assert (H1 : (inject_Z s <= 11)%Q)
    by (change 11%Q with (inject_Z 11); rewrite <- Zle_Qle; lia).
  change (inject_Z 30) with 30%Q. change (inject_Z 15) with 15%Q. split; lra.
Qed.

Lemma d50_chart_in_range (d : gmap string Q) :
  longitudes_in_range (get_d50_longitude <$> d).
Proof.
  intros body x. rewrite lookup_fmap.
  destruct (d !! body) as [l |]; cbn [fmap option_fmap option_map]; [| discriminate].
  intros [= <-]. unfold get_d50_longitude. apply py_fmod_bounds. lra.
Qed.

(** The value of the unmatched-dosha test once the parity factor is
    known. *)
Lemma natal_dosha_denial_value (c1 c2 : Chart.t) (supp : gmap string string)
    (t1 t2 n1 n2 : string) :
  Chart.mars_dosha_status c1 !! "Total"%string = Some t1 ->
  Chart.mars_dosha_status c2 !! "Total"%string = Some t2 ->
  supp !! "Kuja_Dosha_Parity"%string
  = Some (if Bool.eqb (String.eqb t1 "Afflicted") (String.eqb t2 "Afflicted")
          then "Matched (Dosha Parity)"%string
          else if String.eqb t1 "Afflicted" then n1 else n2) ->
  natal_dosha_denial c1 c2 supp = Ok false.
Proof.
  intros H1 H2 Hp. unfold natal_dosha_denial, dict_item.
  rewrite H1. cbn [mbind res_bind].
  destruct (String.eqb t1 "Afflicted"); [| reflexivity].
  rewrite H2. cbn [mbind res_bind].
  destruct (String.eqb t2 "Afflicted"); [| reflexivity].
  rewrite Hp. reflexivity.
Qed.

Lemma supplementary_item (supp : gmap string string) (dv key : string) :
  dom supp = list_to_set supplementary_keys ->
  In key supplementary_keys ->
  exists x, dict_item (<["Dasha_Synchronization"%string := dv]> supp) key = Ok x.
Proof.
  intros Hdom Hkey. unfold dict_item.
  assert (Hs : is_Some (<["Dasha_Synchronization"%string := dv]> supp !! key)).
  { apply elem_of_dom. rewrite dom_insert_L, Hdom.
    apply elem_of_union_r, elem_of_list_to_set, list_elem_of_In. exact Hkey. }
  destruct Hs as [x ->]. eauto.
Qed.

(** The report is computed as soon as its five sub-computations return. *)
Lemma report_defined (chart1 chart2 : Chart.t) (supp : gmap string string)
    (natal : bool) (d1 d9 d50 : Z) :
  calculate_supplementary_factors (Chart.analysis_data chart1)
    (Chart.analysis_data chart2) = Ok supp ->
  dom supp = list_to_set supplementary_keys ->
  natal_dosha_denial chart1 chart2 supp = Ok natal ->
  build_match_table true chart1 chart2
    (AnalysisData.planets (Chart.analysis_data chart1))
    (AnalysisData.planets (Chart.analysis_data chart2)) = Ok d1 ->
  build_match_table false chart1 chart2
    (AnalysisData.d9_planets (Chart.analysis_data chart1))
    (AnalysisData.d9_planets (Chart.analysis_data chart2)) = Ok d9 ->
  build_match_table false chart1 chart2
    (AnalysisData.d50_planets (Chart.analysis_data chart1))
    (AnalysisData.d50_planets (Chart.analysis_data chart2)) = Ok d50 ->
  exists v, generate_compatibility_report chart1 chart2 = Ok v.
Proof.
  intros Hsupp Hdom Hnatal Hd1 Hd9 Hd50.
  destruct (generate_compatibility_report chart1 chart2) as [v | e |] eqn:E; [eauto | |];
    exfalso; unfold generate_compatibility_report in E; cbv zeta in E;
    rewrite Hsupp in E; cbn [mbind res_bind] in E;
    rewrite Hnatal in E; cbn [mbind res_bind] in E;
    rewrite Hd1 in E; cbn [mbind res_bind] in E;
    rewrite Hd9 in E; cbn [mbind res_bind] in E;
    rewrite Hd50 in E; cbn [mbind res_bind] in E;
    repeat match type of E with
      | mbind _ (dict_item (<[_ := ?dv]> supp) ?key) = _ =>
          let x := fresh "x" in
          let Hx := fresh "Hx" in
          destruct (supplementary_item supp dv key Hdom) as [x Hx];
          [unfold supplementary_keys; simpl; tauto |];
          rewrite Hx in E; cbn [mbind res_bind] in E
      end;
    match type of E with
    | (let '(_, _) := ?p in _) = _ => destruct p
    end; discriminate E.
Qed.

Lemma analyzed_tables_total (c1 c2 : Chart.t) (lagna1 lagna2 : Q)
    (planets1 planets2 : gmap string Q) :
  AnalysisData.cusps (Chart.analysis_data c1) !! 0%nat = Some lagna1 ->
  AnalysisData.cusps (Chart.analysis_data c2) !! 0%nat = Some lagna2 ->
  AnalysisData.planets (Chart.analysis_data c1) = chart_planets planets1 lagna1 ->
  AnalysisData.planets (Chart.analysis_data c2) = chart_planets planets2 lagna2 ->
  AnalysisData.d9_planets (Chart.analysis_data c1)
  = (fun p_lon => inject_Z (get_navamsa_longitude p_lon)) <$> chart_planets planets1 lagna1 ->
  AnalysisData.d9_planets (Chart.analysis_data c2)
  = (fun p_lon => inject_Z (get_navamsa_longitude p_lon)) <$> chart_planets planets2 lagna2 ->
  AnalysisData.d50_planets (Chart.analysis_data c1)
  = get_d50_longitude <$> chart_planets planets1 lagna1 ->
  AnalysisData.d50_planets (Chart.analysis_data c2)
  = get_d50_longitude <$> chart_planets planets2 lagna2 ->
  longitudes_in_range planets1 -> longitudes_in_range planets2 ->
  (0 <= lagna1)%Q -> (lagna1 < 360)%Q -> (0 <= lagna2)%Q -> (lagna2 < 360)%Q ->
  exists d1 d9 d50,
    build_match_table true c1 c2
      (AnalysisData.planets (Chart.analysis_data c1))
      (AnalysisData.planets (Chart.analysis_data c2)) = Ok d1 /\
    build_match_table false c1 c2
      (AnalysisData.d9_planets (Chart.analysis_data c1))
      (AnalysisData.d9_planets (Chart.analysis_data c2)) = Ok d9 /\
    build_match_table false c1 c2
      (AnalysisData.d50_planets (Chart.analysis_data c1))
      (AnalysisData.d50_planets (Chart.analysis_data c2)) = Ok d50.
Proof.
  intros Hc1 Hc2 Hp1 Hp2 Hn1 Hn2 Hf1 Hf2 Hr1 Hr2 Ha1 Hb1 Ha2 Hb2.
  pose proof (chart_planets_in_range planets1 lagna1 Ha1 Hb1 Hr1) as Hcp1.
  pose proof (chart_planets_in_range planets2 lagna2 Ha2 Hb2 Hr2) as Hcp2.
  assert (Hl2 : chart_planets planets2 lagna2 !! "Lagna"%string = Some lagna2)
    by (unfold chart_planets; apply lookup_insert_eq).
  assert (T1 : exists d1, build_match_table true c1 c2
                 (AnalysisData.planets (Chart.analysis_data c1))
                 (AnalysisData.planets (Chart.analysis_data c2)) = Ok d1).
  { unfold build_match_table.
    rewrite (list_item_lookup (AnalysisData.cusps (Chart.analysis_data c1)) 0 lagna1)
      by (lia || exact Hc1).
    cbn [mbind res_bind].
    rewrite (list_item_lookup (AnalysisData.cusps (Chart.analysis_data c2)) 0 lagna2)
      by (lia || exact Hc2).
    cbn [mbind res_bind fst snd].
    rewrite Hp1, Hp2.
    apply match_rows_loop_total.
    - apply longitudes_in_range_insert; assumption.
    - apply longitudes_in_range_insert; assumption.
    - intros _. rewrite lookup_insert_eq. eauto. }
  assert (T9 : exists d9, build_match_table false c1 c2
                 (AnalysisData.d9_planets (Chart.analysis_data c1))
                 (AnalysisData.d9_planets (Chart.analysis_data c2)) = Ok d9).
  { unfold build_match_table. cbn [mbind res_bind fst snd]. rewrite Hn1, Hn2.
    apply match_rows_loop_total; try apply navamsa_chart_in_range.
    intros _. rewrite lookup_fmap, Hl2. cbn. eauto. }
  assert (T50 : exists d50, build_match_table false c1 c2
                  (AnalysisData.d50_planets (Chart.analysis_data c1))
                  (AnalysisData.d50_planets (Chart.analysis_data c2)) = Ok d50).
  { unfold build_match_table. cbn [mbind res_bind fst snd]. rewrite Hf1, Hf2.
    apply match_rows_loop_total; try apply d50_chart_in_range.
    intros _. rewrite lookup_fmap, Hl2. cbn. eauto. }
  destruct T1 as [d1 T1], T9 as [d9 T9], T50 as [d50 T50]. eauto 6.
Qed.

(** X: for two charts returned by [analyze_chart] from longitudes in
    [[0, 360)] (the bodies and the ascendant), [generate_compatibility_report]
    raises nothing: it returns a report.  In that report the dasha verdict is
    never "DENIAL: Severe natal affliction (unmatched Dosha) blocks
    marriage.". *)
Theorem report_total_on_analyzed_charts
    (fuel1 fuel2 : nat) (name1 name2 : string) (jd1 jd2 : Q) (cusps1 cusps2 : list Q)
    (planets1 planets2 : gmap string Q) (today1 today2 : Q) (c1 c2 : Chart.t) :
  analyze_chart fuel1 name1 jd1 cusps1 planets1 today1 = Ok c1 ->
  analyze_chart fuel2 name2 jd2 cusps2 planets2 today2 = Ok c2 ->
  longitudes_in_range planets1 -> longitudes_in_range planets2 ->
  (forall lagna, cusps1 !! 0%nat = Some lagna -> (0 <= lagna)%Q /\ (lagna < 360)%Q) ->
  (forall lagna, cusps2 !! 0%nat = Some lagna -> (0 <= lagna)%Q /\ (lagna < 360)%Q) ->
  exists v,
    generate_compatibility_report c1 c2 = Ok v /\
    dasha_verdict v
    <> "DENIAL: Severe natal affliction (unmatched Dosha) blocks marriage."%string.
Proof.
  intros H1 H2 Hr1 Hr2 Hl1 Hl2.
  destruct (analyze_chart_inversion _ _ _ _ _ _ _ H1)
    as (lagna1 & moon1 & mars1 & sun1 & mh1 & rh1 & moh1 & vh1 & sub1 & Hlagna1 & Hcusps1
        & Hplanets1 & Hd91 & Hd501 & Hdosha1 & Hmars1 & _).
  destruct (analyze_chart_inversion _ _ _ _ _ _ _ H2)
    as (lagna2 & moon2 & mars2 & sun2 & mh2 & rh2 & moh2 & vh2 & sub2 & Hlagna2 & Hcusps2
        & Hplanets2 & Hd92 & Hd502 & Hdosha2 & Hmars2 & _).
  destruct (Hl1 _ Hlagna1) as [Ha1 Hb1]. destruct (Hl2 _ Hlagna2) as [Ha2 Hb2].
  (* the Mars totals *)
  pose proof (dosha_totals_present mh1 rh1 moh1 vh1 mars1 (chart_planets planets1 lagna1)
                ((fun p_lon => inject_Z (get_navamsa_longitude p_lon))
                   <$> chart_planets planets1 lagna1) moon1 sun1) as Ht1.
  cbv zeta in Ht1. rewrite <- Hdosha1 in Ht1. cbn [fst snd] in Ht1.
  destruct Ht1 as [[t1 Ht1] _].
  pose proof (dosha_totals_present mh2 rh2 moh2 vh2 mars2 (chart_planets planets2 lagna2)
                ((fun p_lon => inject_Z (get_navamsa_longitude p_lon))
                   <$> chart_planets planets2 lagna2) moon2 sun2) as Ht2.
  cbv zeta in Ht2. rewrite <- Hdosha2 in Ht2. cbn [fst snd] in Ht2.
  destruct Ht2 as [[t2 Ht2] _].
  (* the five sub-computations *)
  destruct (supplementary_factors_forward (Chart.analysis_data c1) (Chart.analysis_data c2)
              t1 t2 lagna1 lagna2) as (supp & Hsupp & Hdom & Hpar).
  { rewrite Hmars1. exact Ht1. }
  { rewrite Hmars2. exact Ht2. }
  { rewrite Hcusps1. exact Hlagna1. }
  { rewrite Hcusps2. exact Hlagna2. }
  pose proof (natal_dosha_denial_value c1 c2 supp t1 t2 _ _ Ht1 Ht2 Hpar) as Hnatal.
  destruct (analyzed_tables_total c1 c2 lagna1 lagna2 planets1 planets2)
    as (d1 & d9 & d50 & T1 & T9 & T50); try assumption.
  { rewrite Hcusps1. exact Hlagna1. }
  { rewrite Hcusps2. exact Hlagna2. }
  destruct (report_defined c1 c2 supp false d1 d9 d50 Hsupp Hdom Hnatal T1 T9 T50)
    as [v Hv].
  exists v. split; [exact Hv |].
  destruct (report_inversion _ _ _ Hv)
    as (supp' & natal' & b1 & b2 & b3 & b4 & b5 & b6 & b7 & b8 & b9 & Hsupp' & Hnatal'
        & _ & Hdv & _).
  assert (supp' = supp) by congruence. subst supp'.
  assert (natal' = false) by congruence. subst natal'.
  rewrite Hdv. cbn [andb].
  destruct (denial_active c1 || denial_active c2); [discriminate |].
  destruct (marriage_support c1 && marriage_support c2); [discriminate |].
  destruct (marriage_support c1 || marriage_support c2); discriminate.
Qed.

Lemma bodies_native1_in_range : longitudes_in_range bodies_native1.
Proof.
  intros body l H. unfold bodies_native1 in H.
  apply elem_of_list_to_map_2 in H.
  repeat (apply elem_of_cons in H; destruct H as [[= -> ->] | H]; [split; lra |]).
  apply elem_of_nil in H. destruct H.
Defined.

Lemma bodies_native2_in_range : longitudes_in_range bodies_native2.
Proof.
  intros body l H. unfold bodies_native2 in H.
  apply elem_of_list_to_map_2 in H.
  repeat (apply elem_of_cons in H; destruct H as [[= -> ->] | H]; [split; lra |]).
  apply elem_of_nil in H. destruct H.
Defined.

Lemma report_total_on_analyzed_charts_witness :
  exists v,
    generate_compatibility_report native1 native2 = Ok v /\
    dasha_verdict v
    <> "DENIAL: Severe natal affliction (unmatched Dosha) blocks marriage."%string.
Proof.
  apply (report_total_on_analyzed_charts 50 50 "Native1" "Native2" 2448000 2450500
           sign_aligned_cusps sign_aligned_cusps bodies_native1 bodies_native2
           2460000 2460000 native1 native2).
  - exact chart_native1_ok.
  - exact chart_native2_ok.
  - exact bodies_native1_in_range.
  - exact bodies_native2_in_range.
  - intros lagna [= <-]. split; lra.
  - intros lagna [= <-]. split; lra.
Defined.


(** ** Ashtakoota scorer: range of the total *)

Lemma In_range_list (n : nat) (i : Z) :
  0 <= i < Z.of_nat n -> In i (map Z.of_nat (seq 0 n)).
Proof.
  intros Hi. apply in_map_iff. exists (Z.to_nat i).
  split; [lia |]. apply in_seq. lia.
Qed.

Lemma ashtakoota_total_table :
  forallb (fun n1 =>
    forallb (fun r1 =>
      forallb (fun n2 =>
        forallb (fun r2 =>
          let t := ashtakoota_total n1 r1 n2 r2 in
          Qleb 0 t && Qleb t 36 && (0 <=? py_round t) && (py_round t <=? 36))
        (map Z.of_nat (seq 0 12)))
      (map Z.of_nat (seq 0 27)))
    (map Z.of_nat (seq 0 12)))
  (map Z.of_nat (seq 0 27)) = true.
Proof. vm_compute. reflexivity. Qed.

Lemma ashtakoota_total_range (n1 r1 n2 r2 : Z) :
  0 <= n1 < 27 -> 0 <= r1 < 12 -> 0 <= n2 < 27 -> 0 <= r2 < 12 ->
  (0 <= ashtakoota_total n1 r1 n2 r2)%Q /\ (ashtakoota_total n1 r1 n2 r2 <= 36)%Q /\
  0 <= py_round (ashtakoota_total n1 r1 n2 r2) <= 36.
Proof.
  intros Hn1 Hr1 Hn2 Hr2.
  pose proof ashtakoota_total_table as H.
  rewrite forallb_forall in H. specialize (H n1 (In_range_list 27 n1 Hn1)).
  rewrite forallb_forall in H. specialize (H r1 (In_range_list 12 r1 Hr1)).
  rewrite forallb_forall in H. specialize (H n2 (In_range_list 27 n2 Hn2)).
  rewrite forallb_forall in H. specialize (H r2 (In_range_list 12 r2 Hr2)).
  cbv zeta in H.
  apply andb_prop in H. destruct H as [H H4].
  apply andb_prop in H. destruct H as [H H3].
  apply andb_prop in H. destruct H as [H1 H2].
  apply Qleb_true in H1, H2. apply Z.leb_le in H3, H4. auto.
Qed.

(** X: the total of the eight Ashtakoota comparisons lies between 0
    and 36 for every pair of Moon longitudes, so the clamp
    [min(max(round(total), 0), 36)] never changes the rounded total:
    [calculate_ashtakoota] returns [round(total)]. *)
Theorem ashtakoota_clamp_inactive (chart1_data chart2_data : AnalysisData.t) :
  let nak_index m := py_int (py_fmod m 360 / nakshatra_span) mod 27 in
  let rasi_index m := py_int (m / 30) mod 12 in
  let total :=
    ashtakoota_total (nak_index (AnalysisData.moon_lon chart1_data))
      (rasi_index (AnalysisData.moon_lon chart1_data))
      (nak_index (AnalysisData.moon_lon chart2_data))
      (rasi_index (AnalysisData.moon_lon chart2_data)) in
  (0 <= total)%Q /\ (total <= 36)%Q /\
  calculate_ashtakoota chart1_data chart2_data = py_round total /\
  0 <= calculate_ashtakoota chart1_data chart2_data <= 36.
Proof.
  cbv zeta. unfold calculate_ashtakoota. cbv zeta.
  set (n1 := py_int (py_fmod (AnalysisData.moon_lon chart1_data) 360 / nakshatra_span) mod 27).
  set (n2 := py_int (py_fmod (AnalysisData.moon_lon chart2_data) 360 / nakshatra_span) mod 27).
  set (r1 := py_int (AnalysisData.moon_lon chart1_data / 30) mod 12).
  set (r2 := py_int (AnalysisData.moon_lon chart2_data / 30) mod 12).
  destruct (ashtakoota_total_range n1 r1 n2 r2) as (H0 & H1 & H2);
    try (apply Z.mod_pos_bound; lia).
  split; [exact H0 |]. split; [exact H1 |]. split; lia.
Qed.

(** ** Chart analysis: errors *)








(** ** Timezone choices *)

Lemma Smem_In (x : string) (l : list string) : Smem x l = true <-> In x l.
Proof.
  unfold Smem. rewrite existsb_exists. split.
  - intros (y & Hy & E). apply String.eqb_eq in E. subst y. exact Hy.
  - intros H. exists x. split; [exact H | apply String.eqb_refl].
Qed.

(** X: the list built by [build_tz_options] always starts with the
    placeholder "Select Timezone...", keeps every common timezone, and
    contains the current timezone whenever it is a non-empty string: a
    timezone outside the common list is inserted right after the
    placeholder, one already in the list leaves the list unchanged.  If the
    common list has no duplicates and does not contain the placeholder, the
    result has no duplicates either. *)
Theorem build_tz_options_offers_current (sorted_common_timezones : list string)
    (current_tz : option string) :
  let base := "Select Timezone..."%string :: sorted_common_timezones in
  let options := build_tz_options sorted_common_timezones current_tz in
  head options = Some "Select Timezone..."%string /\
  (forall tz, In tz base -> In tz options) /\
  (forall tz, current_tz = Some tz -> tz <> ""%string -> In tz options) /\
  (forall tz, current_tz = Some tz -> tz <> ""%string -> ~ In tz base ->
              options = "Select Timezone..."%string :: tz :: sorted_common_timezones) /\
  (forall tz, current_tz = Some tz -> In tz base -> options = base) /\
  (current_tz = None \/ current_tz = Some ""%string -> options = base) /\
  (NoDup base -> NoDup options).
Proof.
  cbv zeta. unfold build_tz_options. cbv zeta.
  set (base := "Select Timezone..."%string :: sorted_common_timezones).
  destruct current_tz as [tz |].
  2:{ split; [reflexivity |]. split; [auto |]. split; [discriminate |].
      split; [discriminate |]. split; [discriminate |]. split; auto. }
  destruct (String.eqb_spec tz "") as [-> | Hne]; cbn [negb andb].
  { split; [reflexivity |]. split; [auto |].
    split; [intros tz' [= <-]; congruence |].
    split; [intros tz' [= <-]; congruence |].
    split; [reflexivity |]. split; auto. }
  destruct (Smem tz base) eqn:Emem; cbn [negb].
  - apply Smem_In in Emem.
    split; [reflexivity |]. split; [auto |].
    split; [intros tz' [= <-] _; exact Emem |].
    split; [intros tz' [= <-] _ Hn; contradiction |].
    split; [reflexivity |]. split; [reflexivity | auto].
  - assert (Hnot : ~ In tz base).
    { intros H. apply Smem_In in H. congruence. }
    unfold list_insert_at. subst base. cbn [take drop app] in *.
    split; [reflexivity |].
    split; [intros tz' [<- | H]; [left; reflexivity | right; right; exact H] |].
    split; [intros tz' [= <-] _; right; left; reflexivity |].
    split; [intros tz' [= <-] _ _; reflexivity |].
    split; [intros tz' [= <-] H; contradiction |].
    split; [intros [H | H]; [discriminate H | injection H as ->; congruence] |].
    intros Hnd. apply NoDup_cons in Hnd. destruct Hnd as [Hhd Htl].
    apply NoDup_cons. split.
    + intros H. apply elem_of_cons in H. destruct H as [E | H].
      * apply Hnot. left. exact E.
      * contradiction.
    + apply NoDup_cons. split; [| exact Htl].
      intros H. apply Hnot. right. apply list_elem_of_In. exact H.
Qed.
